(** * City electricity demand forecasting: the forecasting core

    A shallow embedding of [backend_ml/app.py] and
    [backend_ml/app_enhanced.py]: the feature deriver
    [create_features_xgb], the 24-step autoregressive rollout of
    [get_hourly_forecast], the alert endpoint [check_alerts] and the
    demand patterns; and of the last stage of
    [backend_ml/data_processing_pipeline.py].

    Modelling conventions.
    - A pandas [DataFrame] is an object on a heap; Python variables hold
      references to it.  [df[c] = s] and [df.index = i] update the object
      in place, every other frame operation used by the program
      ([copy], [iloc], [df[[...]]], [pd.concat]) builds a new object.
    - A number is a rational; [None] stands for NaN.  Arithmetic is
      exact: a mean is the rational number that the double pandas stores
      rounds.
    - A timestamp is its number of nanoseconds since the Unix epoch, a
      signed 64-bit integer in pandas: adding to a timestamp raises when
      the sum leaves [Timestamp_min .. Timestamp_max].
    - The fitted regressors and scalers are parameters: functions that
      either return arrays or raise. *)

From Stdlib Require Import ZArith QArith String DecimalString Lia.
From stdpp Require Import base tactics option list.

Close Scope Q_scope.
Open Scope string_scope.
Open Scope list_scope.
Open Scope nat_scope.

(** ** Values *)

(** A cell of a frame: a number, or NaN. *)
Definition cell := option Q.
Abbreviation Series := (list cell).
Abbreviation Timestamp := Z.

(** [pd.Timedelta(hours=1)] in nanoseconds. *)
Definition HOUR : Z := 3600000000000%Z.

(** A [Timestamp] is a signed 64-bit count of nanoseconds; the least
    value of the type stands for NaT.  [pd.Timestamp.max] is
    2262-04-11 23:47:16.854775807. *)
Definition Timestamp_max : Z := 9223372036854775807%Z.
Definition Timestamp_min : Z := (-9223372036854775807)%Z.

Definition cell_of_Z (z : Z) : cell := Some (inject_Z z).

(** ** Calendar accessors of a [DatetimeIndex] *)

Module Calendar.
Open Scope Z_scope.

Definition NS_PER_DAY : Z := 86400000000000.

(** Days since 1970-01-01, rounding towards minus infinity. *)
Definition days (t : Timestamp) : Z := t / NS_PER_DAY.

Definition hour (t : Timestamp) : Z := (t mod NS_PER_DAY) / HOUR.

(** Monday is 0; 1970-01-01 was a Thursday. *)
Definition dayofweek (t : Timestamp) : Z := (days t + 3) mod 7.

(** Proleptic Gregorian date of a day number: (year, month, day). *)
Definition civil (d : Z) : Z * Z * Z :=
  let z := d + 719468 in
  let era := z / 146097 in
  let doe := z - era * 146097 in
  let yoe := (doe - doe / 1460 + doe / 36524 - doe / 146096) / 365 in
  let doy := doe - (365 * yoe + yoe / 4 - yoe / 100) in
  let mp := (5 * doy + 2) / 153 in
  let dd := doy - (153 * mp + 2) / 5 + 1 in
  let m := if mp <? 10 then mp + 3 else mp - 9 in
  let y := yoe + era * 400 + (if m <=? 2 then 1 else 0) in
  (y, m, dd).

Definition year (t : Timestamp) : Z := fst (fst (civil (days t))).
Definition month (t : Timestamp) : Z := snd (fst (civil (days t))).
Definition quarter (t : Timestamp) : Z := (month t - 1) / 3 + 1.

Definition is_leap (y : Z) : bool :=
  ((y mod 4 =? 0) && negb (y mod 100 =? 0)) || (y mod 400 =? 0).

Definition days_before_month (y m : Z) : Z :=
  let cum := nth (Z.to_nat (m - 1))
                 [0; 31; 59; 90; 120; 151; 181; 212; 243; 273; 304; 334] 0 in
  if (2 <? m) && is_leap y then cum + 1 else cum.

Definition dayofyear (t : Timestamp) : Z :=
  let '(y, m, dd) := civil (days t) in days_before_month y m + dd.
End Calendar.

(** ** Frames as values *)

(** Column-major, as pandas stores them: an index of timestamps and the
    named columns in their order. *)
Record DataFrame := mkDF {
  index : list Timestamp;
  cols : list (string * Series)
}.

Definition columns (d : DataFrame) : list string := map fst (cols d).
Definition nrows (d : DataFrame) : nat := length (index d).

Fixpoint lookup_col (c : string) (l : list (string * Series)) : option Series :=
  match l with
  | [] => None
  | (c', s) :: l' => if String.eqb c c' then Some s else lookup_col c l'
  end.

(** [df[c] = s]: replace the column named [c] where it stands, or add it
    as the last column. *)
Fixpoint set_col (c : string) (s : Series) (l : list (string * Series))
  : list (string * Series) :=
  match l with
  | [] => [(c, s)]
  | (c', s') :: l' =>
      if String.eqb c c' then (c', s) :: l' else (c', s') :: set_col c s l'
  end.

(** The Python slice [l[-n:]]; [l[-0:]] is the whole list. *)
Definition slice_tail {A} (n : nat) (l : list A) : list A :=
  match n with
  | O => l
  | _ => drop (length l - n) l
  end.

Arguments slice_tail : simpl never.

Definition tail_rows (n : nat) (d : DataFrame) : DataFrame :=
  {| index := slice_tail n (index d);
     cols := map (fun '(c, s) => (c, slice_tail n s)) (cols d) |}.

(** [df[[c1; ...; ck]]]: the named columns in the requested order, or the
    first name that is missing. *)
Fixpoint select_cols (cs : list string) (l : list (string * Series))
  : string + list (string * Series) :=
  match cs with
  | [] => inr []
  | c :: cs' =>
      match lookup_col c l with
      | None => inl c
      | Some s =>
          match select_cols cs' l with
          | inl k => inl k
          | inr r => inr ((c, s) :: r)
          end
      end
  end.

(** [pd.concat([a; b])] along the rows: the columns of [a], then those
    only [b] has; a column one side lacks is NaN on that side's rows. *)
Definition concat_rows (a b : DataFrame) : DataFrame :=
  {| index := index a ++ index b;
     cols :=
       map (fun '(c, s) =>
              (c, s ++ default (replicate (nrows b) None) (lookup_col c (cols b))))
           (cols a)
       ++ map (fun '(c, s) => (c, replicate (nrows a) None ++ s))
              (filter (fun cs => lookup_col (fst cs) (cols a) = None) (cols b)) |}.

(** The value of channel [c] in row [i]. *)
Definition cell_at (d : DataFrame) (c : string) (i : nat) : option cell :=
  s ← lookup_col c (cols d); s !! i.

(** ** Series operations *)

(** [s.shift(k)] for [k >= 0]. *)
Definition shift (k : nat) (s : Series) : Series :=
  take (length s) (replicate k None ++ s).

Definition Qsum (l : list Q) : Q := foldr Qplus 0%Q l.

(** All observations of a window, or [None] when one is NaN. *)
Fixpoint observations (l : list cell) : option (list Q) :=
  match l with
  | [] => Some []
  | x :: l' =>
      match x, observations l' with
      | Some q, Some qs => Some (q :: qs)
      | _, _ => None
      end
  end.

(** The mean of a window, NaN when one of its rows is NaN; the division
    is exact. *)
Definition mean (l : list cell) : cell :=
  match observations l with
  | Some qs => Some (Qsum qs / inject_Z (Z.of_nat (length qs)))%Q
  | None => None
  end.

(** [s.rolling(window=w).mean()] with the default [min_periods = w]: at
    row [i] the mean of rows [i-w+1 .. i], NaN while fewer than [w] rows
    are available or one of them is NaN. *)
Definition rolling_mean (w : nat) (s : Series) : Series :=
  map (fun i => if i + 1 <? w then None else mean (take w (drop (i + 1 - w) s)))
      (seq 0 (length s)).

(** ** Exceptions, the heap of frames and the monad of the program *)

Inductive exn :=
| KeyError (k : string)
| IndexError
| ValueError
| NameError (name : string)
| AttributeError (name : string)
| OtherError (msg : string)
| OutOfBoundsDatetime
| DanglingReference.

Inductive result (A : Type) :=
| Ok (a : A)
| Raise (e : exn).
Arguments Ok {A} a.
Arguments Raise {A} e.

(** A reference to a frame is its position in the heap. *)
Abbreviation loc := nat.
Abbreviation heap := (list DataFrame).

(** A computation reads and extends the heap and returns or raises; the
    heap survives an exception. *)
Definition M (A : Type) : Type := heap -> result A * heap.

Definition ret {A} (a : A) : M A := fun h => (Ok a, h).
Definition raise {A} (e : exn) : M A := fun h => (Raise e, h).
Definition bind {A B} (m : M A) (k : A -> M B) : M B :=
  fun h => match m h with
           | (Ok a, h') => k a h'
           | (Raise e, h') => (Raise e, h')
           end.
Definition lift {A} (r : result A) : M A := fun h => (r, h).

(** [try: m except Exception as e: handler e]. *)
Definition try_except {A} (m : M A) (handler : exn -> A) : M A :=
  fun h => match m h with
           | (Ok a, h') => (Ok a, h')
           | (Raise e, h') => (Ok (handler e), h')
           end.

#[global] Instance M_ret : MRet M := @ret.
#[global] Instance M_bind : MBind M := fun A B k m => bind m k.

Definition deref (r : loc) : M DataFrame :=
  fun h => match h !! r with
           | Some d => (Ok d, h)
           | None => (Raise DanglingReference, h)
           end.
Definition alloc (d : DataFrame) : M loc := fun h => (Ok (length h), h ++ [d]).
Definition store (r : loc) (d : DataFrame) : M unit :=
  fun h => (Ok tt, <[r := d]> h).

(** [for x in l: body x]. *)
Fixpoint for_each {A} (l : list A) (body : A -> M unit) : M unit :=
  match l with
  | [] => ret tt
  | x :: l' => body x;; for_each l' body
  end.

(** ** The pandas operations the program uses *)

(** [l[0]] and [l[-1]] (also [s.iloc[-1]]). *)
Definition first_item {A} (l : list A) : M A :=
  match l with
  | x :: _ => ret x
  | [] => raise IndexError
  end.
Definition last_item {A} (l : list A) : M A :=
  match last l with
  | Some x => ret x
  | None => raise IndexError
  end.

(** [ts + pd.Timedelta(...)]: a sum outside the bounds of the type
    raises [OutOfBoundsDatetime]. *)
Definition timestamp_add (ts : Timestamp) (delta : Z) : M Timestamp :=
  let sum := (ts + delta)%Z in
  if ((Timestamp_min <=? sum) && (sum <=? Timestamp_max))%Z then ret sum
  else raise OutOfBoundsDatetime.

Definition df_copy (r : loc) : M loc := d ← deref r; alloc d.
Definition df_iloc_tail (n : nat) (r : loc) : M loc :=
  d ← deref r; alloc (tail_rows n d).
Definition df_index (r : loc) : M (list Timestamp) :=
  d ← deref r; ret (index d).
Definition df_columns (r : loc) : M (list string) :=
  d ← deref r; ret (columns d).
Definition df_getitem (r : loc) (c : string) : M Series :=
  d ← deref r;
  match lookup_col c (cols d) with
  | Some s => ret s
  | None => raise (KeyError c)
  end.
(** [df[[c1; ...; ck]]]; the [KeyError] carries the first missing name,
    where the message of pandas lists every missing one. *)
Definition df_getitem_list (r : loc) (cs : list string) : M loc :=
  d ← deref r;
  match select_cols cs (cols d) with
  | inr l => alloc {| index := index d; cols := l |}
  | inl k => raise (KeyError k)
  end.
(** [df[c] = s], for a series or index over the rows of [df]. *)
Definition df_setitem (r : loc) (c : string) (s : Series) : M unit :=
  d ← deref r; store r {| index := index d; cols := set_col c s (cols d) |}.
(** [df[c] = v] for a scalar, broadcast to every row. *)
Definition df_setitem_scalar (r : loc) (c : string) (v : cell) : M unit :=
  d ← deref r;
  store r {| index := index d; cols := set_col c (replicate (nrows d) v) (cols d) |}.
(** [df.index = idx]; a length mismatch raises. *)
Definition df_set_index (r : loc) (idx : list Timestamp) : M unit :=
  d ← deref r;
  if length idx =? nrows d
  then store r {| index := idx; cols := cols d |}
  else raise ValueError.
Definition pd_concat (a b : loc) : M loc :=
  da ← deref a; db ← deref b; alloc (concat_rows da db).
(** [pd.DataFrame({c1: l1; ...})] over equally long lists, with the
    default index 0, 1, ... *)
Definition pd_DataFrame (l : list (string * Series)) : M loc :=
  match l with
  | [] => alloc {| index := []; cols := [] |}
  | (_, s) :: _ =>
      if forallb (fun cs => length (snd cs) =? length s) l
      then alloc {| index := map Z.of_nat (seq 0 (length s)); cols := l |}
      else raise ValueError
  end.

(** ** Configuration (identical in both servers) *)

Definition TARGET_COLUMN : string := "Phase3_power".
Definition N_LOOKBACK : nat := 72.
Definition FEATURES_LSTM : list string :=
  [ "Phase2_current"; "Phase2_voltage"; "Phase3_frequency";
    "Phase3_pf"; "Phase3_power"; "Phase3_voltage" ].
Definition FEATURES_XGB : list string :=
  [ "Phase2_current"; "Phase2_voltage"; "Phase3_frequency"; "Phase3_pf"; "Phase3_voltage";
    "hour"; "dayofweek"; "month"; "quarter"; "year"; "dayofyear";
    String.append TARGET_COLUMN "_lag_1h"; String.append TARGET_COLUMN "_lag_3h";
    String.append TARGET_COLUMN "_lag_24h";
    String.append TARGET_COLUMN "_roll_avg_3h"; String.append TARGET_COLUMN "_roll_avg_6h";
    String.append TARGET_COLUMN "_roll_avg_24h" ].
Definition CRITICAL_LOAD_THRESHOLD : nat := 500.

(** ** Helper functions *)

(** Creates time and lag/rolling features for XGBoost. *)
Definition create_features_xgb (df : loc) (target_col : string) : M loc :=
  df_copy ← df_copy df;
  idx ← df_index df_copy;
  df_setitem df_copy "hour" (map (fun t => cell_of_Z (Calendar.hour t)) idx);;
  idx ← df_index df_copy;
  df_setitem df_copy "dayofweek" (map (fun t => cell_of_Z (Calendar.dayofweek t)) idx);;
  idx ← df_index df_copy;
  df_setitem df_copy "month" (map (fun t => cell_of_Z (Calendar.month t)) idx);;
  idx ← df_index df_copy;
  df_setitem df_copy "quarter" (map (fun t => cell_of_Z (Calendar.quarter t)) idx);;
  idx ← df_index df_copy;
  df_setitem df_copy "year" (map (fun t => cell_of_Z (Calendar.year t)) idx);;
  idx ← df_index df_copy;
  df_setitem df_copy "dayofyear" (map (fun t => cell_of_Z (Calendar.dayofyear t)) idx);;
  s ← df_getitem df_copy target_col;
  df_setitem df_copy (String.append target_col "_lag_1h") (shift 1 s);;
  s ← df_getitem df_copy target_col;
  df_setitem df_copy (String.append target_col "_lag_3h") (shift 3 s);;
  s ← df_getitem df_copy target_col;
  df_setitem df_copy (String.append target_col "_lag_24h") (shift 24 s);;
  s ← df_getitem df_copy target_col;
  df_setitem df_copy (String.append target_col "_roll_avg_3h") (shift 1 (rolling_mean 3 s));;
  s ← df_getitem df_copy target_col;
  df_setitem df_copy (String.append target_col "_roll_avg_6h") (shift 1 (rolling_mean 6 s));;
  s ← df_getitem df_copy target_col;
  df_setitem df_copy (String.append target_col "_roll_avg_24h") (shift 1 (rolling_mean 24 s));;
  ret df_copy.

(** The trailing window of raw channels handed to the sequence regressor:
    [base_data[FEATURES_LSTM].iloc[-N_LOOKBACK:]]. *)
Definition lstm_window (base_data : loc) : M loc :=
  sel ← df_getitem_list base_data FEATURES_LSTM;
  df_iloc_tail N_LOOKBACK sel.

(** ** Model artifacts *)

(** The fitted artifacts loaded at start-up, by their one operation.  A
    field is [None] when loading failed: the name is then unbound in
    [app.py] and bound to Python's [None] in [app_enhanced.py]. *)
Record Models := {
  model_xgb : option (DataFrame -> result (list cell));
  model_lstm : option (list (list (list cell)) -> result (list (list cell)));
  model_fusion : option (DataFrame -> result (list cell));
  scaler_x : option (DataFrame -> result (list (list cell)));
  scaler_y : option (list (list cell) -> result (list (list cell)))
}.

Record ForecastEntry := {
  timestamp : Timestamp;
  predicted_power : cell
}.

Inductive message :=
| Text (s : string)
| StrOf (e : exn).

Record Alert := {
  alert_timestamp : option Timestamp;
  level : string;
  id : option string;
  alert_message : string
}.

Inductive body :=
| Forecast (results : list ForecastEntry)
| Error (msg : message)
| Alerts (alerts : list Alert).

(** What [jsonify] is given, with the HTTP status. *)
Record response := {
  payload : body;
  status : nat
}.

(** ** The 24-hour forecast *)

Section Rollout.
Variable G : Models.
(** What using an artifact that was not loaded raises, from the name of
    the variable and of the method called on it. *)
Variable unloaded : string -> string -> exn.

Definition use {A} (name method : string) (o : option A) : M A :=
  match o with
  | Some a => ret a
  | None => raise (unloaded name method)
  end.

(** The body of [for _ in range(24)], on the two variables the loop
    carries: [base_data] and [forecast_results]. *)
Definition forecast_iteration (st : loc * list ForecastEntry)
  : M (loc * list ForecastEntry) :=
  let '(base_data, forecast_results) := st in
  feats ← create_features_xgb base_data TARGET_COLUMN;
  current_data_xgb ← df_iloc_tail 1 feats;
  current_data_lstm_raw ← lstm_window base_data;

  X_xgb ← df_getitem_list current_data_xgb FEATURES_XGB;
  predict ← use "model_xgb" "predict" (model_xgb G);
  X ← deref X_xgb;
  preds ← lift (predict X);
  pred_xgb ← first_item preds;

  transform ← use "scaler_x" "transform" (scaler_x G);
  W ← deref current_data_lstm_raw;
  X_lstm_scaled ← lift (transform W);
  let X_lstm_seq := [X_lstm_scaled] in
  predict ← use "model_lstm" "predict" (model_lstm G);
  pred_lstm_scaled ← lift (predict X_lstm_seq);
  inverse_transform ← use "scaler_y" "inverse_transform" (scaler_y G);
  unscaled ← lift (inverse_transform pred_lstm_scaled);
  row0 ← first_item unscaled;
  pred_lstm ← first_item row0;

  X_meta ← pd_DataFrame [("xgb_pred", [pred_xgb]); ("lstm_pred", [pred_lstm])];
  predict ← use "model_fusion" "predict" (model_fusion G);
  X ← deref X_meta;
  preds ← lift (predict X);
  pred_fusion ← first_item preds;

  idx ← df_index base_data;
  last_timestamp ← last_item idx;
  next_timestamp ← timestamp_add last_timestamp HOUR;
  let forecast_results :=
    forecast_results ++ [{| timestamp := next_timestamp;
                            predicted_power := pred_fusion |}] in

  last_row ← df_iloc_tail 1 base_data;
  new_row ← df_copy last_row;
  df_set_index new_row [next_timestamp];;
  df_setitem_scalar new_row TARGET_COLUMN pred_fusion;;

  new_row_columns ← df_columns new_row;
  for_each new_row_columns (fun col =>
    if String.eqb col TARGET_COLUMN then ret tt
    else
      s ← df_getitem base_data col;
      v ← last_item s;
      df_setitem_scalar new_row col v);;

  base_data ← pd_concat base_data new_row;
  ret (base_data, forecast_results).

Fixpoint forecast_loop (n : nat) (st : loc * list ForecastEntry)
  : M (loc * list ForecastEntry) :=
  match n with
  | O => ret st
  | S n' => st' ← forecast_iteration st; forecast_loop n' st'
  end.

(** The rollout up to the end of its [k]-th iteration: the rolling state
    at that point. *)
Definition rollout_prefix (full_data : loc) (k : nat) : M (loc * list ForecastEntry) :=
  tail96 ← df_iloc_tail 96 full_data;
  base_data ← df_copy tail96;
  forecast_loop k (base_data, []).

(** The [try] block of [get_hourly_forecast]. *)
Definition forecast_body (full_data : loc) : M response :=
  tail96 ← df_iloc_tail 96 full_data;
  base_data ← df_copy tail96;
  st ← forecast_loop 24 (base_data, []);
  ret {| payload := Forecast (snd st); status := 200 |}.

Definition forecast_handler (e : exn) : response :=
  {| payload := Error (StrOf e); status := 500 |}.
End Rollout.

Definition decimal (n : nat) : string :=
  DecimalString.NilZero.string_of_uint (Nat.to_uint n).

Definition demo_alert_message : string :=
  String.append "Demo Alert: Predicted load 512.5 MW exceeds "
    (String.append (decimal CRITICAL_LOAD_THRESHOLD) " MW threshold.").

(** [backend_ml/app.py] *)
Module App.
(** A failed load leaves the name unbound. *)
Definition unloaded (name method : string) : exn := NameError name.

Definition get_hourly_forecast (full_data : option loc) (G : Models) : M response :=
  match full_data with
  | None =>
      ret {| payload := Error (Text "Historical data not loaded on server.");
             status := 500 |}
  | Some fd => try_except (forecast_body G unloaded fd) forecast_handler
  end.

(** Check for critical load alerts; [now] is [pd.Timestamp.now()]. *)
Definition check_alerts (now : Timestamp) : response :=
  let alerts :=
    [{| alert_timestamp := Some (now + 4 * HOUR)%Z;
        level := "critical";
        id := Some "alert-1";
        alert_message := demo_alert_message |}] in
  {| payload := Alerts alerts; status := 200 |}.
End App.

(** [backend_ml/app_enhanced.py] *)
Module AppEnhanced.
(** A failed load binds the name to [None], which has no methods. *)
Definition unloaded (name method : string) : exn := AttributeError method.

Definition get_hourly_forecast (full_data : option loc) (G : Models) : M response :=
  match full_data, model_xgb G, model_lstm G, model_fusion G with
  | Some fd, Some _, Some _, Some _ =>
      try_except (forecast_body G unloaded fd) forecast_handler
  | _, _, _, _ =>
      ret {| payload := Error (Text "Data or model files missing. Cannot generate forecast.");
             status := 500 |}
  end.

(** Checks upcoming forecast for critical load alerts. *)
Definition check_alerts (full_data : option loc) (now : Timestamp) : response :=
  match full_data with
  | None =>
      {| payload := Alerts [{| alert_timestamp := None;
                               level := "error";
                               id := None;
                               alert_message := "Cannot check alerts, data not loaded." |}];
         status := 200 |}
  | Some _ =>
      let forecast_data : list ForecastEntry := [] in
      let alerts := [] in
      let alerts :=
        match forecast_data with
        | [] =>
            alerts ++ [{| alert_timestamp := Some (now + 4 * HOUR)%Z;
                          level := "critical";
                          id := None;
                          alert_message := demo_alert_message |}]
        | _ :: _ => alerts
        end in
      {| payload := Alerts alerts; status := 200 |}
  end.
End AppEnhanced.

(** ** What the feature deriver adds *)

(** The columns [create_features_xgb] assigns, in the order it assigns
    them, for a frame with index [idx] whose target column is [s]. *)
Definition derived_columns (target_col : string) (idx : list Timestamp) (s : Series)
  : list (string * Series) :=
  [ ("hour", map (fun t => cell_of_Z (Calendar.hour t)) idx);
    ("dayofweek", map (fun t => cell_of_Z (Calendar.dayofweek t)) idx);
    ("month", map (fun t => cell_of_Z (Calendar.month t)) idx);
    ("quarter", map (fun t => cell_of_Z (Calendar.quarter t)) idx);
    ("year", map (fun t => cell_of_Z (Calendar.year t)) idx);
    ("dayofyear", map (fun t => cell_of_Z (Calendar.dayofyear t)) idx);
    (String.append target_col "_lag_1h", shift 1 s);
    (String.append target_col "_lag_3h", shift 3 s);
    (String.append target_col "_lag_24h", shift 24 s);
    (String.append target_col "_roll_avg_3h", shift 1 (rolling_mean 3 s));
    (String.append target_col "_roll_avg_6h", shift 1 (rolling_mean 6 s));
    (String.append target_col "_roll_avg_24h", shift 1 (rolling_mean 24 s)) ].

Definition assign_all (new : list (string * Series)) (l : list (string * Series))
  : list (string * Series) :=
  foldl (fun acc cs => set_col (fst cs) (snd cs) acc) l new.

Definition enriched (d : DataFrame) (target_col : string) (s : Series) : DataFrame :=
  {| index := index d;
     cols := assign_all (derived_columns target_col (index d) s) (cols d) |}.

(** The calendar fields: the columns assigned from [df_copy.index]. *)
Definition calendar_fields : list (string * (Timestamp -> Z)) :=
  [ ("hour", Calendar.hour); ("dayofweek", Calendar.dayofweek);
    ("month", Calendar.month); ("quarter", Calendar.quarter);
    ("year", Calendar.year); ("dayofyear", Calendar.dayofyear) ].

(** The raw channels among the tree regressor's features. *)
Definition raw_channels : list string :=
  [ "Phase2_current"; "Phase2_voltage"; "Phase3_frequency"; "Phase3_pf"; "Phase3_voltage" ].

(** The lag and rolling features of the target channel. *)
Definition lag_rolling_features (target_col : string) : list string :=
  [ String.append target_col "_lag_1h"; String.append target_col "_lag_3h";
    String.append target_col "_lag_24h";
    String.append target_col "_roll_avg_3h"; String.append target_col "_roll_avg_6h";
    String.append target_col "_roll_avg_24h" ].

Definition roll_avg_name (target_col : string) (w : nat) : string :=
  String.append target_col (String.append "_roll_avg_" (String.append (decimal w) "h")).

(** The [w] rows that end just before row [t]: rows [t-w .. t-1]. *)
Definition window_before {A} (w t : nat) (s : list A) : list A :=
  drop (t - w) (take t s).

(** ** Well-formed tables and the step of the rolling state *)

(** A frame as pandas keeps it: distinct column names, and every column
    as long as the index. *)
Definition wf (d : DataFrame) : Prop :=
  NoDup (columns d) /\ Forall (fun cs => length (snd cs) = nrows d) (cols d).

(** The table carries the configured channels: those of [FEATURES_LSTM],
    which are the target and the raw channels of [FEATURES_XGB]. *)
Definition has_channels (d : DataFrame) : Prop :=
  forall c, c ∈ FEATURES_LSTM -> is_Some (lookup_col c (cols d)).

(** The number of rows of the window the sequence branch is given in
    iteration [k] (from 0) of a rollout on a history of [n] rows. *)
Definition window_rows (n k : nat) : nat := min N_LOOKBACK (min 96 n + k).

(** The numbers of rows of the windows of the 24 iterations. *)
Definition rollout_windows (n : nat) (m : nat) : Prop :=
  exists k, k < 24 /\ m = window_rows n k.

(** Every artifact is loaded and answers on the inputs a rollout gives
    it, the windows being of a number of rows in [rows]: the tree
    regressor gives a prediction for one row of the columns of
    [FEATURES_XGB]; on a window of the columns of [FEATURES_LSTM] the
    feature scaler, the sequence regressor on what the scaler returned
    and the target scaler on what the regressor returned answer in turn,
    the last with an array that has a value; and the fusion regressor
    gives a prediction for one row of the two predictions. *)
Definition models_answer (rows : nat -> Prop) (G : Models) : Prop :=
  (exists f, model_xgb G = Some f /\
     forall X, wf X -> nrows X = 1 -> columns X = FEATURES_XGB ->
               exists p ps, f X = Ok (p :: ps)) /\
  (exists fx fl fy,
     scaler_x G = Some fx /\ model_lstm G = Some fl /\ scaler_y G = Some fy /\
     forall W, wf W -> columns W = FEATURES_LSTM -> rows (nrows W) ->
               exists Y P v r rs,
                 fx W = Ok Y /\ fl [Y] = Ok P /\ fy P = Ok ((v :: r) :: rs)) /\
  (exists f, model_fusion G = Some f /\
     forall X, wf X -> nrows X = 1 -> columns X = ["xgb_pred"; "lstm_pred"] ->
               exists p ps, f X = Ok (p :: ps)).

(** The row the rollout synthesizes from the last row of [d]: [new_row]
    once its index and target are set. *)
Definition synthesized_row (d : DataFrame) (ts : Timestamp) (p : cell) : DataFrame :=
  {| index := [ts];
     cols := set_col TARGET_COLUMN (replicate 1 p)
               (map (fun '(c, s) => (c, slice_tail 1 s)) (cols d)) |}.

(** [d] with one more row at [ts]: [p] in the target channel, and in
    every other channel the value of the last row of [d]. *)
Definition append_row (d : DataFrame) (ts : Timestamp) (p : cell) : DataFrame :=
  {| index := index d ++ [ts];
     cols := map (fun '(c, s) =>
                    (c, s ++ (if String.eqb c TARGET_COLUMN then [p]
                              else slice_tail 1 s)))
                 (cols d) |}.

(** What one iteration of the rollout establishes, from a rolling table
    [d] and the results [acc] so far: on return, one more result and a
    new rolling table, [d] with the synthesized row; and it raises only
    when a channel or a row is missing, a model call fails or the next
    timestamp is out of bounds. *)
Definition iteration_post (G : Models) (d : DataFrame) (acc : list ForecastEntry)
    (h : heap) (o : result (loc * list ForecastEntry) * heap) : Prop :=
  match o with
  | (Ok (base', acc'), h') =>
      exists ts p l,
        last (index d) = Some ts /\
        is_Some (lookup_col TARGET_COLUMN (cols d)) /\
        (exists f X ps, model_fusion G = Some f /\
                        columns X = ["xgb_pred"; "lstm_pred"] /\
                        f X = Ok (p :: ps)) /\
        acc' = acc ++ [{| timestamp := (ts + HOUR)%Z; predicted_power := p |}] /\
        h' = h ++ l /\
        h' !! base' = Some (append_row d (ts + HOUR)%Z p) /\
        (Timestamp_min <= ts + HOUR <= Timestamp_max)%Z
  | (Raise _, _) =>
      forall rows,
        models_answer rows G -> rows (min N_LOOKBACK (nrows d)) ->
        has_channels d -> index d <> [] ->
        (forall ts, last (index d) = Some ts ->
                    (Timestamp_min <= ts + HOUR <= Timestamp_max)%Z) ->
        False
  end.

(** The rolling table after the predictions [ps] were appended one by
    one, starting an hour after [ts]. *)
Fixpoint rolled (d : DataFrame) (ts : Timestamp) (ps : list cell) : DataFrame :=
  match ps with
  | [] => d
  | p :: ps' => rolled (append_row d (ts + HOUR)%Z p) (ts + HOUR)%Z ps'
  end.

(** The forecast results for the predictions [ps]. *)
Fixpoint forecast_of (ts : Timestamp) (ps : list cell) : list ForecastEntry :=
  match ps with
  | [] => []
  | p :: ps' =>
      {| timestamp := (ts + HOUR)%Z; predicted_power := p |}
      :: forecast_of (ts + HOUR)%Z ps'
  end.

(** ** What the alert check is meant to report *)

(** [predicted_power > threshold]; a comparison with NaN is false. *)
Definition exceeds (threshold : nat) (e : ForecastEntry) : bool :=
  match predicted_power e with
  | Some q => negb (Qle_bool q (inject_Z (Z.of_nat threshold)))
  | None => false
  end.

(** The timestamps of the alerts the spec asks for: one for each forecast
    entry above the threshold, in order. *)
Definition expected_alert_timestamps (forecast : list ForecastEntry) (threshold : nat)
  : list Timestamp :=
  map timestamp (List.filter (exceeds threshold) forecast).

(** The forecast a request returned, if it returned one. *)
Definition forecast_results (o : result response * heap) : option (list ForecastEntry) :=
  match fst o with
  | Ok {| payload := Forecast res |} => Some res
  | _ => None
  end.

Definition alerts_of (r : response) : list Alert :=
  match payload r with
  | Alerts l => l
  | _ => []
  end.

(** ** Sample data *)

(** 2021-08-17 00:00 UTC. *)
Definition sample_start : Timestamp := 1629158400000000000%Z.

Definition sample_history : DataFrame :=
  {| index := [sample_start; sample_start + HOUR; sample_start + 2 * HOUR;
               sample_start + 3 * HOUR]%Z;
     cols :=
       [ ("Phase1_power", [cell_of_Z 310; cell_of_Z 320; cell_of_Z 330; cell_of_Z 340]);
         ("Phase2_current", [cell_of_Z 4; cell_of_Z 5; cell_of_Z 6; cell_of_Z 7]);
         ("Phase2_voltage", [cell_of_Z 229; cell_of_Z 230; cell_of_Z 231; cell_of_Z 232]);
         ("Phase3_frequency", [cell_of_Z 50; cell_of_Z 50; cell_of_Z 49; cell_of_Z 50]);
         ("Phase3_pf", [cell_of_Z 1; cell_of_Z 1; cell_of_Z 0; cell_of_Z 1]);
         ("Phase3_power", [cell_of_Z 400; cell_of_Z 410; cell_of_Z 420; cell_of_Z 460]);
         ("Phase3_voltage", [cell_of_Z 230; cell_of_Z 231; cell_of_Z 232; cell_of_Z 233]) ] |}.

(** A history of five hours whose first reading of the target channel is
    missing. *)
Definition sample_gap_history : DataFrame :=
  {| index := [sample_start; sample_start + HOUR; sample_start + 2 * HOUR;
               sample_start + 3 * HOUR; sample_start + 4 * HOUR]%Z;
     cols :=
       [ ("Phase3_power", [None; cell_of_Z 410; cell_of_Z 420; cell_of_Z 430;
                           cell_of_Z 440]);
         ("Phase3_voltage", [cell_of_Z 230; cell_of_Z 231; cell_of_Z 232;
                             cell_of_Z 233; cell_of_Z 234]) ] |}.

(** A history that lacks the target channel. *)
Definition sample_without_target : DataFrame :=
  {| index := [sample_start];
     cols := [ ("Phase2_current", [cell_of_Z 4]); ("Phase2_voltage", [cell_of_Z 229]);
               ("Phase3_frequency", [cell_of_Z 50]); ("Phase3_pf", [cell_of_Z 1]);
               ("Phase3_voltage", [cell_of_Z 230]) ] |}.

(** The sample history moved to the end of the range of timestamps: its
    last row is 2262-04-11 23:00, less than an hour before
    [pd.Timestamp.max]. *)
Definition sample_late_history : DataFrame :=
  {| index := [9223358400000000000; 9223362000000000000;
               9223365600000000000; 9223369200000000000]%Z;
     cols := cols sample_history |}.

(** A history of [N_LOOKBACK] hourly rows of the configured channels. *)
Definition long_history : DataFrame :=
  {| index := map (fun i => (sample_start + Z.of_nat i * HOUR)%Z) (seq 0 N_LOOKBACK);
     cols := map (fun c => (c, map (fun i => cell_of_Z (400 + Z.of_nat i))
                                   (seq 0 N_LOOKBACK)))
                 FEATURES_LSTM |}.

(** Regressors that always answer: 390 from the tree, 0.5 (410 unscaled)
    from the sequence model, and the mean of the two from the fusion. *)
Definition sample_models : Models :=
  {| model_xgb := Some (fun _ => Ok [cell_of_Z 390]);
     model_lstm := Some (fun _ => Ok [[Some (1 # 2)%Q]]);
     model_fusion := Some (fun X =>
       Ok [mean (concat (map snd (cols X)))]);
     scaler_x := Some (fun W => Ok (map snd (cols W)));
     scaler_y := Some (fun Y => Ok (map (map (fun _ => cell_of_Z 410)) Y)) |}.

(** The same, with a sequence regressor that accepts only full windows
    of [N_LOOKBACK] rows, as a network of fixed input shape does. *)
Definition fixed_shape_models : Models :=
  {| model_xgb := model_xgb sample_models;
     model_lstm := Some (fun X =>
       if forallb (fun W => forallb (fun channel => length channel =? N_LOOKBACK) W) X
       then Ok [[Some (1 # 2)%Q]]
       else Raise (OtherError "incompatible input shape"));
     model_fusion := model_fusion sample_models;
     scaler_x := scaler_x sample_models;
     scaler_y := scaler_y sample_models |}.

(** The same, with a tree regressor that fails once the latest value of
    the target channel it is shown (its [lag_1h] feature) is 400: on the
    sample, in the third iteration of the rollout. *)
Definition failing_models : Models :=
  {| model_xgb := Some (fun X =>
       match lookup_col "Phase3_power_lag_1h" (cols X) with
       | Some [Some q] =>
           if Qeq_bool q 400 then Raise (OtherError "numerical failure")
           else Ok [cell_of_Z 390]
       | _ => Ok [cell_of_Z 390]
       end);
     model_lstm := model_lstm sample_models;
     model_fusion := model_fusion sample_models;
     scaler_x := scaler_x sample_models;
     scaler_y := scaler_y sample_models |}.

(** The rolling state a computation returned. *)
Definition the_state (o : result (loc * list ForecastEntry) * heap)
  : loc * list ForecastEntry :=
  match fst o with
  | Ok st => st
  | Raise _ => (0, [])
  end.

(** The exception a computation raised. *)
Definition the_exception {A} (o : result A * heap) : exn :=
  match fst o with
  | Ok _ => DanglingReference
  | Raise e => e
  end.

(** No artifact was loaded. *)
Definition no_models : Models :=
  {| model_xgb := None; model_lstm := None; model_fusion := None;
     scaler_x := None; scaler_y := None |}.


(** A forecast of 24 hours at 400 MW. *)
Definition flat_forecast : list ForecastEntry :=
  map (fun i => {| timestamp := (sample_start + Z.of_nat i * HOUR)%Z;
                   predicted_power := cell_of_Z 400 |}) (seq 1 24).

(** ** Training sequences *)

(** Creates 3D sequences for LSTM: the windows
    [x_data[i : i + n_lookback]] for [i] in
    [range(len(x_data) - n_lookback + 1)], an empty range when the data
    is shorter than the lookback. *)
Definition create_sequences_lstm {A} (x_data : list A) (n_lookback : nat)
  : list (list A) :=
  map (fun i => take n_lookback (drop i x_data))
      (seq 0 (length x_data + 1 - n_lookback)).

Definition lag_name (target_col : string) (k : nat) : string :=
  String.append target_col (String.append "_lag_" (String.append (decimal k) "h")).

(** ** Model status endpoints *)

(** [get_all_models] of [app_enhanced.py]: per regressor, whether the
    object is there. *)
Definition loaded_text {A} (model : option A) : string :=
  match model with
  | Some _ => "Loaded"
  | None => "Not loaded"
  end.

Definition get_all_models (G : Models) : list (string * string) :=
  [ ("xgboost", loaded_text (model_xgb G));
    ("lstm", loaded_text (model_lstm G));
    ("fusion", loaded_text (model_fusion G)) ].

(** ** The cleaning pipeline ([data_processing_pipeline.py])

    The last stage of the script, from the pivoted frame on:
    [resample('1H').mean()], [ffill()], [bfill()].  Timestamps are taken
    as UTC, so that an hour starts at a multiple of [HOUR]. *)

(** The mean of the readings of a group, NaN skipped; NaN when the group
    has no reading.  The division is exact. *)
Fixpoint readings (l : list cell) : list Q :=
  match l with
  | [] => []
  | Some q :: l' => q :: readings l'
  | None :: l' => readings l'
  end.

Definition mean_skipna (l : list cell) : cell :=
  match readings l with
  | [] => None
  | q :: qs => Some (Qsum (q :: qs) / inject_Z (Z.of_nat (length (q :: qs))))%Q
  end.

(** The values of a series in the rows whose key is [k]. *)
Definition group_values (keys : list Z) (s : Series) (k : Z) : list cell :=
  map snd (List.filter (fun p => Z.eqb (fst p) k) (combine keys s)).

(** The start of the hour of a timestamp. *)
Definition floor_hour (t : Timestamp) : Timestamp := (t / HOUR * HOUR)%Z.

(** The labels of the hourly bins: every hour from that of the earliest
    timestamp to that of the latest. *)
Definition hourly_bins (idx : list Timestamp) : list Timestamp :=
  match idx with
  | [] => []
  | t :: rest =>
      let lo := floor_hour (foldr Z.min t rest) in
      let hi := floor_hour (foldr Z.max t rest) in
      map (fun i => (lo + Z.of_nat i * HOUR)%Z)
          (seq 0 (Z.to_nat ((hi - lo) / HOUR) + 1))
  end.

(** The values of a column in the rows of one hour. *)
Definition bin_values (idx : list Timestamp) (s : Series) (b : Timestamp) : list cell :=
  group_values (map floor_hour idx) s b.

(** [df.resample('1H').mean()]. *)
Definition resample_1H_mean (d : DataFrame) : DataFrame :=
  {| index := hourly_bins (index d);
     cols := map (fun '(c, s) =>
                    (c, map (fun b => mean_skipna (bin_values (index d) s b))
                            (hourly_bins (index d))))
                 (cols d) |}.

(** [s.ffill()]: a NaN takes the last reading before it. *)
Fixpoint ffill_from (prev : cell) (s : Series) : Series :=
  match s with
  | [] => []
  | Some q :: s' => Some q :: ffill_from (Some q) s'
  | None :: s' => prev :: ffill_from prev s'
  end.
Definition ffill (s : Series) : Series := ffill_from None s.

(** [s.bfill()]: a NaN takes the next reading after it. *)
Fixpoint bfill (s : Series) : Series :=
  match s with
  | [] => []
  | Some q :: s' => Some q :: bfill s'
  | None :: s' =>
      match bfill s' with
      | [] => [None]
      | y :: r => y :: y :: r
      end
  end.

Definition df_ffill (d : DataFrame) : DataFrame :=
  {| index := index d; cols := map (fun '(c, s) => (c, ffill s)) (cols d) |}.
Definition df_bfill (d : DataFrame) : DataFrame :=
  {| index := index d; cols := map (fun '(c, s) => (c, bfill s)) (cols d) |}.

(** [df_final], from [df_pivoted]. *)
Definition clean_hourly (df_pivoted : DataFrame) : DataFrame :=
  let df_final := resample_1H_mean df_pivoted in
  let df_final := df_ffill df_final in
  let df_final := df_bfill df_final in
  df_final.

(** Raw readings at 00:10, 00:40 and 03:05 of the sample day, some of
    them missing. *)
Definition sample_pivoted : DataFrame :=
  {| index := [sample_start + 600000000000; sample_start + 2400000000000;
               sample_start + 3 * HOUR + 300000000000]%Z;
     cols :=
       [ ("Phase1_power", [cell_of_Z 310; None; cell_of_Z 340]);
         ("Phase2_current", [cell_of_Z 4; cell_of_Z 5; None]);
         ("Phase2_voltage", [None; cell_of_Z 230; cell_of_Z 232]);
         ("Phase3_frequency", [cell_of_Z 50; cell_of_Z 50; cell_of_Z 50]);
         ("Phase3_pf", [None; None; cell_of_Z 1]);
         ("Phase3_power", [cell_of_Z 400; cell_of_Z 420; cell_of_Z 460]);
         ("Phase3_voltage", [None; None; cell_of_Z 233]) ] |}.

(** ** The demand patterns ([backend_ml/app.py])

    [df.groupby(keys)[c].mean()]: one entry for each key that occurs, the
    keys in increasing order. *)
Fixpoint insert_key (k : Z) (l : list Z) : list Z :=
  match l with
  | [] => [k]
  | x :: l' =>
      if (k <? x)%Z then k :: x :: l'
      else if (k =? x)%Z then x :: l'
      else x :: insert_key k l'
  end.
Definition group_keys (keys : list Z) : list Z := foldr insert_key [] keys.

(** A list of integers in strictly increasing order. *)
Definition increasing (l : list Z) : Prop :=
  forall i j a b, i < j -> l !! i = Some a -> l !! j = Some b -> (a < b)%Z.

Definition groupby_mean (keys : list Z) (s : Series) : list (Z * cell) :=
  map (fun k => (k, mean_skipna (group_values keys s k))) (group_keys keys).

Definition df_groupby_mean (r : loc) (key : Timestamp -> Z) (c : string)
  : M (list (Z * cell)) :=
  d ← deref r;
  match lookup_col c (cols d) with
  | Some s => ret (groupby_mean (map key (index d)) s)
  | None => raise (KeyError (String.append "Column not found: " c))
  end.

(** [l[i]] for a Python integer. *)
Definition list_getitem {A} (l : list A) (i : Z) : M A :=
  let n := Z.of_nat (length l) in
  let j := if (i <? 0)%Z then (i + n)%Z else i in
  if ((j <? 0) || (n <=? j))%Z then raise IndexError
  else match l !! Z.to_nat j with
       | Some x => ret x
       | None => raise IndexError
       end.

(** [[f(x) for x in l]]. *)
Fixpoint map_M {A B} (f : A -> M B) (l : list A) : M (list B) :=
  match l with
  | [] => ret []
  | x :: l' => y ← f x; ys ← map_M f l'; ret (y :: ys)
  end.

(** [f"{n:02d}"]. *)
Definition format_02d (n : Z) : string :=
  if (n <? 0)%Z then String.append "-" (decimal (Z.to_nat (- n)))
  else if (n <? 10)%Z then String.append "0" (decimal (Z.to_nat n))
  else decimal (Z.to_nat n).

Record HourlyEntry := {
  hp_hour : Z;
  hp_average_demand : cell;
  hp_timestamp : string
}.

Record DailyEntry := {
  wt_day : string;
  wt_day_num : Z;
  wt_average_demand : cell
}.

Inductive pattern_body :=
| HourlyPattern (result : list HourlyEntry)
| WeeklyTrend (result : list DailyEntry)
| PatternError (msg : message).

Record pattern_response := {
  pattern_payload : pattern_body;
  pattern_status : nat
}.

Definition pattern_handler (e : exn) : pattern_response :=
  {| pattern_payload := PatternError (StrOf e); pattern_status := 500 |}.

Definition get_hourly_pattern (full_data : option loc) : M pattern_response :=
  match full_data with
  | None =>
      ret {| pattern_payload := PatternError (Text "Historical data not loaded.");
             pattern_status := 500 |}
  | Some fd =>
      try_except
        (hourly_avg ← df_groupby_mean fd Calendar.hour TARGET_COLUMN;
         let result :=
           map (fun '(hour, value) =>
                  {| hp_hour := hour;
                     hp_average_demand := value;
                     hp_timestamp := String.append (format_02d hour) ":00" |})
               hourly_avg in
         ret {| pattern_payload := HourlyPattern result; pattern_status := 200 |})
        pattern_handler
  end.

Definition days : list string :=
  ["Monday"; "Tuesday"; "Wednesday"; "Thursday"; "Friday"; "Saturday"; "Sunday"].

Definition get_weekly_trend (full_data : option loc) : M pattern_response :=
  match full_data with
  | None =>
      ret {| pattern_payload := PatternError (Text "Historical data not loaded.");
             pattern_status := 500 |}
  | Some fd =>
      try_except
        (weekly_avg ← df_groupby_mean fd Calendar.dayofweek TARGET_COLUMN;
         result ← map_M (fun '(day, value) =>
                           name ← list_getitem days day;
                           ret {| wt_day := name;
                                  wt_day_num := day;
                                  wt_average_demand := value |})
                        weekly_avg;
         ret {| pattern_payload := WeeklyTrend result; pattern_status := 200 |})
        pattern_handler
  end.

(** ** The frame of a computation

    [framed h0 m φ]: started in any extension of [h0], [m] leaves the
    objects of [h0] as they are, and a value it returns satisfies [φ]. *)

Definition extends (h0 h : heap) : Prop := exists l, h = h0 ++ l.
Definition fresh (h0 : heap) (r : loc) : Prop := length h0 <= r.

Definition framed {A} (h0 : heap) (m : M A) (φ : A -> Prop) : Prop :=
  forall h, extends h0 h ->
    extends h0 (snd (m h)) /\
    match fst (m h) with
    | Ok a => φ a
    | Raise _ => True
    end.

(** * Properties *)

(** ** Frames as values *)

Section FrameLemmas.
Implicit Types (c : string) (s : Series) (l : list (string * Series)).

Lemma lookup_map {A B} (f : A -> B) (xs : list A) (i : nat) :
  map f xs !! i = f <$> xs !! i.
Proof. exact (list_lookup_fmap f xs i). Qed.

Lemma lookup_set_col c c' s l :
  lookup_col c (set_col c' s l)
  = if String.eqb c c' then Some s else lookup_col c l.
Proof.
  induction l as [|[k v] l IH]; simpl.
  - destruct (String.eqb_spec c c'); reflexivity.
  - destruct (String.eqb_spec c' k) as [->|Hne]; simpl.
    + destruct (String.eqb_spec c k); reflexivity.
    + rewrite IH. destruct (String.eqb_spec c k) as [->|]; [|reflexivity].
      destruct (String.eqb_spec k c'); congruence.
Qed.

Lemma set_col_id c s l : lookup_col c l = Some s -> set_col c s l = l.
Proof.
  induction l as [|[k v] l IH]; simpl; [discriminate|].
  destruct (String.eqb_spec c k) as [->|Hne]; intros H.
  - congruence.
  - rewrite IH; auto.
Qed.

Lemma columns_set_col_present c s l :
  is_Some (lookup_col c l) -> map fst (set_col c s l) = map fst l.
Proof.
  induction l as [|[k v] l IH]; simpl; intros [x Hx]; [discriminate|].
  destruct (String.eqb_spec c k); simpl; [reflexivity|].
  rewrite IH; eauto.
Qed.

Lemma lookup_col_Some_elem c s l : lookup_col c l = Some s -> (c, s) ∈ l.
Proof.
  induction l as [|[k v] l IH]; simpl; [discriminate|].
  destruct (String.eqb_spec c k) as [->|]; intros H.
  - injection H as ->. left.
  - right. auto.
Qed.

Lemma lookup_col_is_Some c l : is_Some (lookup_col c l) <-> c ∈ map fst l.
Proof.
  induction l as [|[k v] l IH]; simpl.
  - split; [intros [? ?]; discriminate | intros H; inversion H].
  - destruct (String.eqb_spec c k) as [->|Hne].
    + split; [intros _; left | eauto].
    + rewrite IH. split; [right; auto|].
      intros H. inversion H; subst; [congruence | auto].
Qed.

Lemma lookup_col_NoDup c s l :
  NoDup (map fst l) -> (c, s) ∈ l -> lookup_col c l = Some s.
Proof.
  induction l as [|[k v] l IH]; simpl; intros Hnd Hin; [inversion Hin|].
  apply NoDup_cons in Hnd as [Hk Hnd].
  destruct (String.eqb_spec c k) as [->|Hne].
  - apply elem_of_cons in Hin as [Heq|Hin]; [congruence|].
    exfalso. apply Hk.
    change k with (fst (k, s)). apply (list_elem_of_fmap_2 fst). exact Hin.
  - apply elem_of_cons in Hin as [Heq|Hin]; [congruence | auto].
Qed.

Lemma lookup_col_map_values (f : Series -> Series) c l :
  lookup_col c (map (fun '(k, v) => (k, f v)) l) = f <$> lookup_col c l.
Proof.
  induction l as [|[k v] l IH]; simpl; [reflexivity|].
  destruct (String.eqb c k); [reflexivity | exact IH].
Qed.

Lemma columns_map_values (f : string -> Series -> Series) l :
  map fst (map (fun '(k, v) => (k, f k v)) l) = map fst l.
Proof. induction l as [|[k v] l IH]; simpl; congruence. Qed.

Lemma select_cols_inr cs l r :
  select_cols cs l = inr r ->
  map fst r = cs /\ forall c, c ∈ cs -> lookup_col c r = lookup_col c l.
Proof.
  revert r. induction cs as [|c cs IH]; simpl; intros r H.
  - injection H as <-. split; [reflexivity|]. intros c Hc. inversion Hc.
  - destruct (lookup_col c l) as [s|] eqn:Hs; [|discriminate].
    destruct (select_cols cs l) as [k|r'] eqn:Hr; [discriminate|].
    injection H as <-. destruct (IH r' eq_refl) as [Hfst Hlk].
    split; [simpl; congruence|].
    intros c' Hc'. simpl.
    destruct (String.eqb_spec c' c) as [->|Hne]; [congruence|].
    apply elem_of_cons in Hc' as [?|?]; [congruence | auto].
Qed.

Lemma select_cols_present cs l :
  (forall c, c ∈ cs -> is_Some (lookup_col c l)) ->
  exists r, select_cols cs l = inr r.
Proof.
  induction cs as [|c cs IH]; simpl; intros H; [eauto|].
  destruct (H c) as [s ->]; [left|].
  destruct IH as [r ->]; [intros; apply H; right; auto|]. eauto.
Qed.

Lemma select_cols_inl cs l k :
  select_cols cs l = inl k -> k ∈ cs /\ lookup_col k l = None.
Proof.
  induction cs as [|c cs IH]; simpl; [discriminate|].
  destruct (lookup_col c l) eqn:Hc.
  - destruct (select_cols cs l); [|discriminate].
    intros [= <-]. destruct IH as [? ?]; [reflexivity|]. split; [right|]; auto.
  - intros [= <-]. split; [left | exact Hc].
Qed.
End FrameLemmas.

(** ** Slices and series *)

Section SeriesLemmas.
Context {A : Type}.
Implicit Types (l : list A).

Lemma length_slice_tail n l : 0 < n -> length (slice_tail n l) = min n (length l).
Proof.
  destruct n; [lia|]. intros _. unfold slice_tail. rewrite length_drop. lia.
Qed.

Lemma slice_tail_all n l : length l <= n -> slice_tail n l = l.
Proof.
  destruct n; [reflexivity|]. intros H. unfold slice_tail.
  replace (length l - S n) with 0 by lia. reflexivity.
Qed.

Lemma slice_tail_snoc l x : slice_tail 1 (l ++ [x]) = [x].
Proof.
  unfold slice_tail. rewrite length_app. simpl.
  replace (length l + 1 - 1) with (length l) by lia. apply drop_app_length.
Qed.

Lemma slice_tail_1 l x : last l = Some x -> slice_tail 1 l = [x].
Proof. intros [l' ->]%last_Some. apply slice_tail_snoc. Qed.

Lemma slice_tail_nil n : slice_tail n (@nil A) = [].
Proof. destruct n; reflexivity. Qed.

Lemma last_is_Some l : 0 < length l -> is_Some (last l).
Proof.
  intros H. rewrite last_lookup. apply lookup_lt_is_Some. lia.
Qed.
End SeriesLemmas.

(** ** Running computations *)

Lemma run_bind {A B} (m : M A) (k : A -> M B) (h : heap) :
  (m ≫= k) h = match m h with
               | (Ok a, h') => k a h'
               | (Raise e, h') => (Raise e, h')
               end.
Proof. reflexivity. Qed.

Lemma run_bind_Ok {A B} (m : M A) (k : A -> M B) (h h' : heap) (a : A) :
  m h = (Ok a, h') -> (m ≫= k) h = k a h'.
Proof. intros H. rewrite run_bind, H. reflexivity. Qed.

Lemma run_bind_Raise {A B} (m : M A) (k : A -> M B) (h h' : heap) (e : exn) :
  m h = (Raise e, h') -> (m ≫= k) h = (Raise e, h').
Proof. intros H. rewrite run_bind, H. reflexivity. Qed.

(** A successful sequence ran both of its parts. *)
Lemma bind_Ok_inv {A B} (m : M A) (k : A -> M B) (h h' : heap) (b : B) :
  (m ≫= k) h = (Ok b, h') ->
  exists a h1, m h = (Ok a, h1) /\ k a h1 = (Ok b, h').
Proof.
  rewrite run_bind. destruct (m h) as [[a|e] h1]; [eauto | discriminate].
Qed.

Section RunLemmas.
Variables (h : heap) (r : loc) (d : DataFrame).
Hypothesis Hr : h !! r = Some d.

Lemma run_deref : deref r h = (Ok d, h).
Proof. unfold deref. rewrite Hr. reflexivity. Qed.

Lemma run_df_copy : df_copy r h = (Ok (length h), h ++ [d]).
Proof. unfold df_copy. rewrite (run_bind_Ok _ _ _ _ _ run_deref). reflexivity. Qed.

Lemma run_df_iloc_tail n :
  df_iloc_tail n r h = (Ok (length h), h ++ [tail_rows n d]).
Proof. unfold df_iloc_tail. rewrite (run_bind_Ok _ _ _ _ _ run_deref). reflexivity. Qed.

Lemma run_df_index : df_index r h = (Ok (index d), h).
Proof. unfold df_index. rewrite (run_bind_Ok _ _ _ _ _ run_deref). reflexivity. Qed.

Lemma run_df_columns : df_columns r h = (Ok (columns d), h).
Proof. unfold df_columns. rewrite (run_bind_Ok _ _ _ _ _ run_deref). reflexivity. Qed.

Lemma run_df_getitem c :
  df_getitem r c h = match lookup_col c (cols d) with
                     | Some s => (Ok s, h)
                     | None => (Raise (KeyError c), h)
                     end.
Proof.
  unfold df_getitem. rewrite (run_bind_Ok _ _ _ _ _ run_deref).
  destruct (lookup_col c (cols d)); reflexivity.
Qed.

Lemma run_df_getitem_list cs :
  df_getitem_list r cs h
  = match select_cols cs (cols d) with
    | inr l => (Ok (length h), h ++ [{| index := index d; cols := l |}])
    | inl k => (Raise (KeyError k), h)
    end.
Proof.
  unfold df_getitem_list. rewrite (run_bind_Ok _ _ _ _ _ run_deref).
  destruct (select_cols cs (cols d)); reflexivity.
Qed.

Lemma run_pd_concat b db :
  h !! b = Some db -> pd_concat r b h = (Ok (length h), h ++ [concat_rows d db]).
Proof.
  intros Hb. unfold pd_concat. rewrite (run_bind_Ok _ _ _ _ _ run_deref).
  unfold deref at 1. rewrite run_bind, Hb. reflexivity.
Qed.
End RunLemmas.

(** Updates of the newest object. *)
Section TopLemmas.
Variables (h : heap) (d : DataFrame).

Lemma lookup_top : (h ++ [d]) !! length h = Some d.
Proof. apply list_lookup_middle. reflexivity. Qed.

Lemma store_top d' : store (length h) d' (h ++ [d]) = (Ok tt, h ++ [d']).
Proof.
  unfold store. rewrite insert_app_r_alt by lia.
  replace (length h - length h) with 0 by lia. reflexivity.
Qed.

Lemma run_df_setitem_top c s :
  df_setitem (length h) c s (h ++ [d])
  = (Ok tt, h ++ [{| index := index d; cols := set_col c s (cols d) |}]).
Proof.
  unfold df_setitem. rewrite (run_bind_Ok _ _ _ _ _ (run_deref _ _ _ lookup_top)).
  apply store_top.
Qed.

Lemma run_df_setitem_scalar_top c v :
  df_setitem_scalar (length h) c v (h ++ [d])
  = (Ok tt, h ++ [{| index := index d;
                     cols := set_col c (replicate (nrows d) v) (cols d) |}]).
Proof.
  unfold df_setitem_scalar.
  rewrite (run_bind_Ok _ _ _ _ _ (run_deref _ _ _ lookup_top)). apply store_top.
Qed.

Lemma run_df_set_index_top idx :
  length idx = nrows d ->
  df_set_index (length h) idx (h ++ [d])
  = (Ok tt, h ++ [{| index := idx; cols := cols d |}]).
Proof.
  intros Hl. unfold df_set_index.
  rewrite (run_bind_Ok _ _ _ _ _ (run_deref _ _ _ lookup_top)).
  rewrite (proj2 (Nat.eqb_eq _ _) Hl). apply store_top.
Qed.
End TopLemmas.

Lemma lookup_extension (h l : heap) (k : nat) : (h ++ l) !! (length h + k) = l !! k.
Proof. rewrite lookup_app_r by lia. f_equal. lia. Qed.

Lemma store_extension (h l : heap) (k : nat) (d : DataFrame) :
  store (length h + k) d (h ++ l) = (Ok tt, h ++ <[k := d]> l).
Proof. unfold store. rewrite insert_app_r. reflexivity. Qed.

(** Finds an object in a heap written as a chain of extensions. *)
Ltac heap_lookup :=
  repeat first
    [ eassumption
    | apply lookup_top
    | rewrite lookup_app_l by (rewrite ?length_app; simpl; lia) ].

(** ** Frame lemmas *)

Lemma extends_refl h : extends h h.
Proof. exists []. symmetry. apply app_nil_r. Qed.

Lemma extends_lookup h0 h r : extends h0 h -> r < length h0 -> h !! r = h0 !! r.
Proof. intros [l ->] Hr. apply lookup_app_l, Hr. Qed.

Section Framed.
Variable h0 : heap.

Lemma framed_ret {A} (a : A) (φ : A -> Prop) : φ a -> framed h0 (ret a) φ.
Proof. intros Ha h Hh. split; assumption. Qed.

Lemma framed_raise {A} (e : exn) (φ : A -> Prop) : framed h0 (raise e) φ.
Proof. intros h Hh. split; [assumption | exact I]. Qed.

Lemma framed_lift {A} (r : result A) : framed h0 (lift r) (fun _ => True).
Proof. intros h Hh. split; [assumption | destruct r; exact I]. Qed.

Lemma framed_bind {A B} (m : M A) (k : A -> M B) φ ψ :
  framed h0 m φ -> (forall a, φ a -> framed h0 (k a) ψ) -> framed h0 (m ≫= k) ψ.
Proof.
  intros Hm Hk h Hh. rewrite run_bind.
  destruct (Hm h Hh) as [Hext Hres]. destruct (m h) as [[a|e] h1]; simpl in *.
  - apply Hk; assumption.
  - split; [assumption | exact I].
Qed.

Lemma framed_weaken {A} (m : M A) (φ ψ : A -> Prop) :
  framed h0 m φ -> (forall a, φ a -> ψ a) -> framed h0 m ψ.
Proof.
  intros Hm Himp h Hh. destruct (Hm h Hh) as [Hext Hres].
  split; [assumption|]. destruct (fst (m h)); auto.
Qed.

Lemma framed_try_except {A} (m : M A) (handler : exn -> A) φ :
  framed h0 m φ -> framed h0 (try_except m handler) (fun _ => True).
Proof.
  intros Hm h Hh. unfold try_except. destruct (Hm h Hh) as [Hext _].
  destruct (m h) as [[a|e] h1]; simpl in *; auto.
Qed.

Lemma framed_deref r : framed h0 (deref r) (fun _ => True).
Proof.
  intros h Hh. unfold deref. destruct (h !! r); simpl; auto.
Qed.

Lemma framed_alloc d : framed h0 (alloc d) (fresh h0).
Proof.
  intros h [l ->]. simpl. split.
  - exists (l ++ [d]). symmetry. apply app_assoc.
  - unfold fresh. rewrite length_app. lia.
Qed.

Lemma framed_store r d : fresh h0 r -> framed h0 (store r d) (fun _ => True).
Proof.
  intros Hr h [l ->]. simpl. split; [|exact I].
  rewrite insert_app_r_alt by exact Hr. eexists. reflexivity.
Qed.

Lemma framed_first_item {A} (l : list A) : framed h0 (first_item l) (fun _ => True).
Proof. destruct l; [apply framed_raise | apply framed_ret; exact I]. Qed.

Lemma framed_last_item {A} (l : list A) : framed h0 (last_item l) (fun _ => True).
Proof.
  unfold last_item. destruct (last l); [apply framed_ret; exact I | apply framed_raise].
Qed.

Lemma framed_timestamp_add (ts : Timestamp) (delta : Z) :
  framed h0 (timestamp_add ts delta) (fun _ => True).
Proof.
  unfold timestamp_add. cbv zeta.
  destruct (_ && _); [apply framed_ret; exact I | apply framed_raise].
Qed.

Lemma framed_for_each {A} (l : list A) (body : A -> M unit) :
  (forall x, framed h0 (body x) (fun _ => True)) ->
  framed h0 (for_each l body) (fun _ => True).
Proof.
  intros Hbody. induction l as [|x l IH]; simpl.
  - apply framed_ret. exact I.
  - eapply framed_bind; [apply Hbody | intros _ _; exact IH].
Qed.
End Framed.

Create HintDb framed.

#[local] Hint Resolve framed_ret framed_raise framed_lift framed_deref framed_alloc
  framed_store framed_first_item framed_last_item framed_timestamp_add : framed.

(** Walks through a sequence of operations, one frame lemma each. *)
Ltac framed_steps :=
  repeat first
    [ exact I
    | eassumption
    | eapply framed_bind; [ solve [eauto with framed] | intros ? ? ]
    | solve [eauto with framed] ].

Section FramedPandas.
Variable h0 : heap.

Lemma framed_df_copy r : framed h0 (df_copy r) (fresh h0).
Proof. unfold df_copy. framed_steps. Qed.

Lemma framed_df_iloc_tail n r : framed h0 (df_iloc_tail n r) (fresh h0).
Proof. unfold df_iloc_tail. framed_steps. Qed.

Lemma framed_df_index r : framed h0 (df_index r) (fun _ => True).
Proof. unfold df_index. framed_steps. Qed.

Lemma framed_df_columns r : framed h0 (df_columns r) (fun _ => True).
Proof. unfold df_columns. framed_steps. Qed.

Lemma framed_df_getitem r c : framed h0 (df_getitem r c) (fun _ => True).
Proof.
  unfold df_getitem. eapply framed_bind; [apply framed_deref|].
  intros d _. destruct (lookup_col c (cols d)); framed_steps.
Qed.

Lemma framed_df_getitem_list r cs : framed h0 (df_getitem_list r cs) (fresh h0).
Proof.
  unfold df_getitem_list. eapply framed_bind; [apply framed_deref|].
  intros d _. destruct (select_cols cs (cols d)); framed_steps.
Qed.

Lemma framed_df_setitem r c s :
  fresh h0 r -> framed h0 (df_setitem r c s) (fun _ => True).
Proof. intros Hr. unfold df_setitem. framed_steps. Qed.

Lemma framed_df_setitem_scalar r c v :
  fresh h0 r -> framed h0 (df_setitem_scalar r c v) (fun _ => True).
Proof. intros Hr. unfold df_setitem_scalar. framed_steps. Qed.

Lemma framed_df_set_index r idx :
  fresh h0 r -> framed h0 (df_set_index r idx) (fun _ => True).
Proof.
  intros Hr. unfold df_set_index. eapply framed_bind; [apply framed_deref|].
  intros d _. destruct (length idx =? nrows d); framed_steps.
Qed.

Lemma framed_pd_concat a b : framed h0 (pd_concat a b) (fresh h0).
Proof. unfold pd_concat. framed_steps. Qed.

Lemma framed_pd_DataFrame l : framed h0 (pd_DataFrame l) (fresh h0).
Proof.
  unfold pd_DataFrame. destruct l as [|[c s] l]; [framed_steps|].
  destruct (forallb _ _); framed_steps.
Qed.
End FramedPandas.

#[local] Hint Resolve framed_df_copy framed_df_iloc_tail framed_df_index
  framed_df_columns framed_df_getitem framed_df_getitem_list framed_df_setitem
  framed_df_setitem_scalar framed_df_set_index framed_pd_concat
  framed_pd_DataFrame : framed.

Lemma framed_create_features_xgb h0 df target_col :
  framed h0 (create_features_xgb df target_col) (fresh h0).
Proof. unfold create_features_xgb. framed_steps. Qed.

Lemma framed_lstm_window h0 base_data : framed h0 (lstm_window base_data) (fresh h0).
Proof. unfold lstm_window. framed_steps. Qed.

#[local] Hint Resolve framed_create_features_xgb framed_lstm_window : framed.

(** ** The feature deriver *)

Lemma run_df_index_top (h : heap) (d : DataFrame) :
  df_index (length h) (h ++ [d]) = (Ok (index d), h ++ [d]).
Proof. apply run_df_index, lookup_top. Qed.

Lemma run_df_getitem_top (h : heap) (d : DataFrame) (c : string) :
  df_getitem (length h) c (h ++ [d])
  = match lookup_col c (cols d) with
    | Some s => (Ok s, h ++ [d])
    | None => (Raise (KeyError c), h ++ [d])
    end.
Proof. apply run_df_getitem, lookup_top. Qed.

Lemma lookup_set_col_ne (c c' : string) (s : Series) (l : list (string * Series)) :
  String.eqb c c' = false -> lookup_col c (set_col c' s l) = lookup_col c l.
Proof. intros H. rewrite lookup_set_col, H. reflexivity. Qed.

(** One operation on the newest object. *)
Ltac top_step :=
  rewrite !run_bind;
  first [ rewrite !run_df_index_top
        | rewrite !run_df_setitem_top
        | rewrite !run_df_getitem_top ];
  cbv beta iota.

(** On a frame that has the target channel the deriver returns a new
    object holding the enriched frame. *)
Lemma run_create_features_xgb (h : heap) (df : loc) (d : DataFrame) (s : Series) :
  h !! df = Some d ->
  lookup_col TARGET_COLUMN (cols d) = Some s ->
  create_features_xgb df TARGET_COLUMN h
  = (Ok (length h), h ++ [enriched d TARGET_COLUMN s]).
Proof.
  intros Hdf Hs. unfold create_features_xgb.
  rewrite run_bind, (run_df_copy _ _ _ Hdf). cbv beta iota.
  do 12 (top_step; cbn [cols index]).
  do 6 (top_step; cbn [cols index];
        rewrite !lookup_set_col_ne by reflexivity; rewrite Hs; cbv beta iota;
        top_step; cbn [cols index]).
  reflexivity.
Qed.

(** Two runs on equal frames, wherever the frames live, end alike: both
    raise the same exception or both return a new object, and the new
    objects are equal. *)
Lemma create_features_xgb_two_runs (target_col : string) (h1 h2 : heap)
    (df1 df2 : loc) (d : DataFrame) :
  h1 !! df1 = Some d ->
  h2 !! df2 = Some d ->
  exists d',
    snd (create_features_xgb df1 target_col h1) = h1 ++ [d'] /\
    snd (create_features_xgb df2 target_col h2) = h2 ++ [d'] /\
    match fst (create_features_xgb df1 target_col h1),
          fst (create_features_xgb df2 target_col h2) with
    | Ok out1, Ok out2 => out1 = length h1 /\ out2 = length h2
    | Raise e1, Raise e2 => e1 = e2
    | _, _ => False
    end.
Proof.
  intros H1 H2. unfold create_features_xgb.
  rewrite !run_bind, (run_df_copy _ _ _ H1), (run_df_copy _ _ _ H2). cbv beta iota.
  do 12 (top_step; cbn [cols index]).
  do 6 (top_step;
        match goal with
        | |- context [lookup_col target_col ?l] =>
            destruct (lookup_col target_col l);
            [ top_step; cbn [cols index]
            | eexists; repeat split; reflexivity ]
        end).
  eexists. repeat split; reflexivity.
Qed.

(** Without the target channel the deriver raises [KeyError]. *)
Lemma run_create_features_xgb_missing (h : heap) (df : loc) (d : DataFrame) :
  h !! df = Some d ->
  lookup_col TARGET_COLUMN (cols d) = None ->
  fst (create_features_xgb df TARGET_COLUMN h) = Raise (KeyError TARGET_COLUMN).
Proof.
  intros Hdf Hs. unfold create_features_xgb.
  rewrite run_bind, (run_df_copy _ _ _ Hdf). cbv beta iota.
  do 12 (top_step; cbn [cols index]).
  top_step; cbn [cols index].
  rewrite !lookup_set_col_ne by reflexivity. rewrite Hs. reflexivity.
Qed.

(** Evaluates comparisons of column names that are literals. *)
Ltac eval_eqb :=
  repeat match goal with
         | |- context [String.eqb ?a ?b] =>
             let v := eval vm_compute in (String.eqb a b) in
             change (String.eqb a b) with v; cbv iota
         end.

Lemma lookup_enriched_roll_avg (d : DataFrame) (s : Series) (w : nat) :
  w ∈ [3; 6; 24] ->
  lookup_col (roll_avg_name TARGET_COLUMN w) (cols (enriched d TARGET_COLUMN s))
  = Some (shift 1 (rolling_mean w s)).
Proof.
  intros Hw. unfold enriched, assign_all, derived_columns. cbn [cols foldl fst snd].
  repeat (apply elem_of_cons in Hw as [->|Hw]);
    [ | | | inversion Hw ];
    repeat (rewrite lookup_set_col; eval_eqb); reflexivity.
Qed.

Lemma shift_lookup (k t : nat) (s : Series) :
  t < length s ->
  shift k s !! t = if t <? k then Some None else s !! (t - k).
Proof.
  intros Ht. unfold shift. rewrite lookup_take_lt by exact Ht.
  destruct (Nat.ltb_spec t k) as [Hlt|Hge].
  - rewrite lookup_app_l by (rewrite length_replicate; exact Hlt).
    apply lookup_replicate_2, Hlt.
  - rewrite lookup_app_r by (rewrite length_replicate; exact Hge).
    rewrite length_replicate. reflexivity.
Qed.

Lemma length_shift (k : nat) (s : Series) : length (shift k s) = length s.
Proof.
  unfold shift. rewrite length_take, length_app, length_replicate.
  unfold cell. lia.
Qed.

Lemma length_rolling_mean (w : nat) (s : Series) : length (rolling_mean w s) = length s.
Proof. unfold rolling_mean. rewrite length_map, length_seq. reflexivity. Qed.

Lemma shift_lookup_S (s : Series) (t : nat) :
  S t < length s -> shift 1 s !! S t = s !! t.
Proof.
  intros Ht. unfold shift. rewrite lookup_take_lt by exact Ht. reflexivity.
Qed.

Lemma rolling_mean_lookup (w : nat) (s : Series) (i : nat) :
  i < length s -> w <= i + 1 ->
  rolling_mean w s !! i = Some (mean (take w (drop (i + 1 - w) s))).
Proof.
  intros Hi Hw. unfold rolling_mean.
  rewrite lookup_map, lookup_seq_lt by exact Hi. simpl.
  rewrite (proj2 (Nat.ltb_ge _ _) Hw). reflexivity.
Qed.

Lemma shifted_rolling_mean_lookup (w t : nat) (s : Series) :
  0 < w -> w <= t -> t < length s ->
  shift 1 (rolling_mean w s) !! t = Some (mean (window_before w t s)).
Proof.
  intros Hw Hwt Ht. destruct t as [|t]; [lia|].
  rewrite shift_lookup_S by (rewrite length_rolling_mean; exact Ht).
  rewrite rolling_mean_lookup by lia.
  unfold window_before. rewrite take_drop_commute.
  replace (t + 1 - w + w) with (S t) by lia.
  replace (t + 1 - w) with (S t - w) by lia. reflexivity.
Qed.

Lemma window_before_length {A} (w t : nat) (s : list A) :
  w <= t -> t <= length s -> length (window_before w t s) = w.
Proof.
  intros Hw Ht. unfold window_before. rewrite length_drop, length_take. lia.
Qed.

Lemma window_before_lookup {A} (w t : nat) (s : list A) (j : nat) :
  w <= t -> j < w -> window_before w t s !! j = s !! (t - w + j).
Proof.
  intros Hw Hj. unfold window_before.
  rewrite lookup_drop, lookup_take_lt by lia. reflexivity.
Qed.

Lemma observations_None (l : list cell) : observations l = None <-> None ∈ l.
Proof.
  induction l as [|x l IH]; simpl.
  - split; [discriminate | intros H; inversion H].
  - destruct x as [q|].
    + destruct (observations l) as [qs|].
      * split; [discriminate|]. intros Hin.
        apply elem_of_cons in Hin as [Heq|Hin]; [discriminate|].
        apply IH in Hin. discriminate.
      * split; [|reflexivity]. intros _. right. apply IH. reflexivity.
    + split; [intros _; left | reflexivity].
Qed.

Lemma mean_None (l : list cell) : mean l = None <-> None ∈ l.
Proof.
  unfold mean. rewrite <- observations_None.
  destruct (observations l); split; congruence.
Qed.


(** The rolling-mean feature of window [w] at row [t]: NaN in the first
    [w] rows, then the mean of the [w] rows before [t]. *)
Lemma roll_avg_cell (d : DataFrame) (s : Series) (w t : nat) :
  w ∈ [3; 6; 24] -> t < length s ->
  cell_at (enriched d TARGET_COLUMN s) (roll_avg_name TARGET_COLUMN w) t
  = Some (if t <? w then None else mean (window_before w t s)).
Proof.
  intros Hw Ht.
  assert (0 < w) as Hpos.
  { repeat (apply elem_of_cons in Hw as [->|Hw]); try lia. inversion Hw. }
  unfold cell_at. rewrite lookup_enriched_roll_avg by exact Hw. simpl.
  destruct (Nat.ltb_spec t w) as [Hlt|Hge].
  - rewrite shift_lookup by (rewrite length_rolling_mean; exact Ht).
    destruct (Nat.ltb_spec t 1) as [_|Hge]; [reflexivity|].
    unfold rolling_mean. rewrite lookup_map, lookup_seq_lt by lia. simpl.
    rewrite (proj2 (Nat.ltb_lt (t - 1 + 1) w)) by lia. reflexivity.
  - apply shifted_rolling_mean_lookup; assumption.
Qed.

(** A window holds a NaN exactly when one of its rows does. *)
Lemma window_before_nan (s : Series) (w t : nat) :
  w <= t -> t <= length s ->
  (None ∈ window_before w t s <-> exists j, j < w /\ s !! (t - w + j) = Some None).
Proof.
  intros Hwt Ht. rewrite list_elem_of_lookup. split.
  - intros [j Hj]. pose proof (lookup_lt_Some _ _ _ Hj) as Hjw.
    rewrite window_before_length in Hjw by assumption.
    exists j. split; [exact Hjw|].
    rewrite <- window_before_lookup by assumption. exact Hj.
  - intros (j & Hj & Hnan). exists j.
    rewrite window_before_lookup by assumption. exact Hnan.
Qed.

(** With the raw channels in the table, the last enriched row has every
    feature of the tree regressor. *)
Lemma features_xgb_present (d : DataFrame) (s : Series) :
  (forall c, c ∈ raw_channels -> is_Some (lookup_col c (cols d))) ->
  forall c, c ∈ FEATURES_XGB ->
    is_Some (lookup_col c (cols (tail_rows 1 (enriched d TARGET_COLUMN s)))).
Proof.
  intros Hraw c Hc. unfold tail_rows. cbn [cols].
  rewrite lookup_col_map_values. apply fmap_is_Some.
  unfold enriched, assign_all, derived_columns. cbn [cols foldl fst snd].
  change FEATURES_XGB
    with (raw_channels ++ (map fst calendar_fields ++ lag_rolling_features TARGET_COLUMN))
    in Hc.
  apply elem_of_app in Hc as [Hc|Hc].
  - rewrite !lookup_set_col.
    repeat (apply elem_of_cons in Hc as [->|Hc];
            [eval_eqb; apply Hraw; unfold raw_channels; repeat constructor|]).
    inversion Hc.
  - repeat (apply elem_of_cons in Hc as [->|Hc];
            [repeat (rewrite lookup_set_col; eval_eqb); eauto|]).
    inversion Hc.
Qed.

Lemma has_channels_raw (d : DataFrame) :
  has_channels d -> forall c, c ∈ raw_channels -> is_Some (lookup_col c (cols d)).
Proof.
  intros Hc c Hin. apply Hc. unfold FEATURES_LSTM.
  repeat (apply elem_of_cons in Hin as [->|Hin]; [repeat constructor|]).
  inversion Hin.
Qed.

(** * The claims *)



(** On the sample the 3-hour rolling mean at the fourth row is
    (400 + 410 + 420) / 3 and does not see the 460 of that row. *)
Example rolling_mean_sample :
  (s ← lookup_col "Phase3_power_roll_avg_3h"
         (cols (enriched sample_history TARGET_COLUMN
                  [cell_of_Z 400; cell_of_Z 410; cell_of_Z 420; cell_of_Z 460]));
   s !! 3)
  = Some (Some ((400 + (410 + (420 + 0))) / 3)%Q).
Proof. reflexivity. Qed.

(** On the sample with a gap the 3-hour rolling mean is NaN at the fourth
    row, whose window holds the gap, and (410 + 420 + 430) / 3 at the
    fifth, whose window does not. *)
Example rolling_mean_gap_sample :
  (s ← lookup_col "Phase3_power_roll_avg_3h"
         (cols (enriched sample_gap_history TARGET_COLUMN
                  [None; cell_of_Z 410; cell_of_Z 420; cell_of_Z 430; cell_of_Z 440]));
   Some (s !! 3, s !! 4))
  = Some (Some None, Some (Some ((410 + (420 + (430 + 0))) / 3)%Q)).
Proof. reflexivity. Qed.

(** C8.  The feature deriver is pure.  Whatever the heap and the target
    channel, a call leaves every object that existed before it as it was,
    the input table among them; and two calls on equal tables end alike:
    both raise the same exception, or both return an enriched table and
    the two enriched tables are equal. *)
Theorem create_features_xgb_pure
    (target_col : string) (h1 h2 : heap) (df1 df2 : loc) (d : DataFrame) :
  h1 !! df1 = Some d ->
  h2 !! df2 = Some d ->
  (forall r, r < length h1 ->
     snd (create_features_xgb df1 target_col h1) !! r = h1 !! r) /\
  snd (create_features_xgb df1 target_col h1) !! df1 = Some d /\
  match fst (create_features_xgb df1 target_col h1),
        fst (create_features_xgb df2 target_col h2) with
  | Ok out1, Ok out2 =>
      exists d', snd (create_features_xgb df1 target_col h1) !! out1 = Some d' /\
                 snd (create_features_xgb df2 target_col h2) !! out2 = Some d'
  | Raise e1, Raise e2 => e1 = e2
  | _, _ => False
  end.
Proof.
  intros H1 H2.
  destruct (create_features_xgb_two_runs target_col h1 h2 df1 df2 d H1 H2)
    as (d' & Hh1 & Hh2 & Hres).
  pose proof (lookup_lt_Some _ _ _ H1) as Hlt.
  rewrite Hh1, Hh2. repeat split.
  - intros r Hr. apply lookup_app_l, Hr.
  - rewrite lookup_app_l by exact Hlt. exact H1.
  - destruct (fst (create_features_xgb df1 target_col h1)),
             (fst (create_features_xgb df2 target_col h2)); try exact Hres.
    destruct Hres as [-> ->]. exists d'. split; apply lookup_top.
Qed.

Lemma create_features_xgb_pure_witness :
  (forall r, r < length [sample_history] ->
     snd (create_features_xgb 0 TARGET_COLUMN [sample_history]) !! r
     = [sample_history] !! r) /\
  snd (create_features_xgb 0 TARGET_COLUMN [sample_history]) !! 0 = Some sample_history /\
  match fst (create_features_xgb 0 TARGET_COLUMN [sample_history]),
        fst (create_features_xgb 1 TARGET_COLUMN [sample_without_target; sample_history]) with
  | Ok out1, Ok out2 =>
      exists d',
        snd (create_features_xgb 0 TARGET_COLUMN [sample_history]) !! out1 = Some d' /\
        snd (create_features_xgb 1 TARGET_COLUMN [sample_without_target; sample_history])
          !! out2 = Some d'
  | Raise e1, Raise e2 => e1 = e2
  | _, _ => False
  end.
Proof.
  apply (create_features_xgb_pure TARGET_COLUMN [sample_history]
           [sample_without_target; sample_history] 0 1 sample_history).
  - reflexivity.
  - reflexivity.
Defined.

(** C6, as the claim states it, fails: the calendar fields are not five,
    and the feature vector is not 5 + 5 + 6 = 16 long; six of its entries
    are calendar fields. *)
Lemma five_calendar_fields_counterexample :
  ~ (length calendar_fields = 5 /\ length FEATURES_XGB = 5 + 5 + 6) /\
  length (List.filter (fun c => existsb (String.eqb c) (map fst calendar_fields)) FEATURES_XGB) = 6 /\
  (columns <$> snd (create_features_xgb 0 TARGET_COLUMN [sample_history]) !! 1)
  = Some (columns sample_history
          ++ ["hour"; "dayofweek"; "month"; "quarter"; "year"; "dayofyear"]
          ++ lag_rolling_features TARGET_COLUMN).
Proof.
  split; [|split].
  - intros [H _]. vm_compute in H. discriminate.
  - vm_compute. reflexivity.
  - vm_compute. reflexivity.
Qed.

(** ** The sequence window *)

Lemma run_lstm_window (h : heap) (base_data : loc) (d : DataFrame) :
  h !! base_data = Some d ->
  lstm_window base_data h
  = match select_cols FEATURES_LSTM (cols d) with
    | inr l =>
        (Ok (length h + 1),
         h ++ [ {| index := index d; cols := l |};
                tail_rows N_LOOKBACK {| index := index d; cols := l |} ])
    | inl k => (Raise (KeyError k), h)
    end.
Proof.
  intros Hd. unfold lstm_window.
  rewrite run_bind, (run_df_getitem_list _ _ _ Hd).
  destruct (select_cols FEATURES_LSTM (cols d)) as [k|l]; [reflexivity|].
  rewrite (run_df_iloc_tail _ _ _ (lookup_top h _)).
  rewrite length_app, <- app_assoc. reflexivity.
Qed.

(** C5, as the code has it.  The window extraction has no check on the
    number of rows.  On a table that holds the requested channels it
    always succeeds and returns the trailing rows restricted to those
    channels, in their order: [N_LOOKBACK] = 72 rows when the table has
    at least 72, and all of its rows when it has fewer.  Its only failure
    is the [KeyError] of a requested channel the table lacks. *)
Theorem lstm_window_trailing_rows (h : heap) (base_data : loc) (d : DataFrame) :
  h !! base_data = Some d ->
  match fst (lstm_window base_data h) with
  | Ok out =>
      exists w,
        snd (lstm_window base_data h) !! out = Some w /\
        columns w = FEATURES_LSTM /\
        index w = slice_tail N_LOOKBACK (index d) /\
        nrows w = min N_LOOKBACK (nrows d) /\
        (N_LOOKBACK <= nrows d -> nrows w = N_LOOKBACK) /\
        (forall c, c ∈ FEATURES_LSTM ->
           lookup_col c (cols w) = slice_tail N_LOOKBACK <$> lookup_col c (cols d))
  | Raise e =>
      exists k, e = KeyError k /\ k ∈ FEATURES_LSTM /\ lookup_col k (cols d) = None
  end /\
  ((forall c, c ∈ FEATURES_LSTM -> is_Some (lookup_col c (cols d))) ->
   exists out, fst (lstm_window base_data h) = Ok out).
Proof.
  intros Hd. rewrite (run_lstm_window _ _ _ Hd). split.
  - destruct (select_cols FEATURES_LSTM (cols d)) as [k|l] eqn:Hsel; cbn [fst snd].
    + exists k. split; [reflexivity|]. apply select_cols_inl, Hsel.
    + destruct (select_cols_inr _ _ _ Hsel) as [Hfst Hlk].
      eexists. split.
      { rewrite lookup_extension. reflexivity. }
      assert (nrows (tail_rows N_LOOKBACK {| index := index d; cols := l |})
              = min N_LOOKBACK (nrows d)) as Hn.
      { unfold nrows, tail_rows. cbn [index].
        apply length_slice_tail. unfold N_LOOKBACK. lia. }
      split; [|split; [reflexivity|split; [exact Hn|split]]].
      * unfold columns, tail_rows. cbn [cols].
        rewrite (columns_map_values (fun _ => slice_tail N_LOOKBACK)). exact Hfst.
      * intros Hge. rewrite Hn. lia.
      * intros c Hc. unfold tail_rows. cbn [cols].
        rewrite lookup_col_map_values, Hlk by exact Hc. reflexivity.
  - intros Hall. destruct (select_cols_present _ _ Hall) as [l ->]. eauto.
Qed.

Lemma lstm_window_trailing_rows_witness :
  match fst (lstm_window 0 [sample_history]) with
  | Ok out =>
      exists w,
        snd (lstm_window 0 [sample_history]) !! out = Some w /\
        columns w = FEATURES_LSTM /\
        index w = slice_tail N_LOOKBACK (index sample_history) /\
        nrows w = min N_LOOKBACK (nrows sample_history) /\
        (N_LOOKBACK <= nrows sample_history -> nrows w = N_LOOKBACK) /\
        (forall c, c ∈ FEATURES_LSTM ->
           lookup_col c (cols w)
           = slice_tail N_LOOKBACK <$> lookup_col c (cols sample_history))
  | Raise e =>
      exists k, e = KeyError k /\ k ∈ FEATURES_LSTM /\
                lookup_col k (cols sample_history) = None
  end /\
  ((forall c, c ∈ FEATURES_LSTM -> is_Some (lookup_col c (cols sample_history))) ->
   exists out, fst (lstm_window 0 [sample_history]) = Ok out).
Proof.
  apply (lstm_window_trailing_rows [sample_history] 0 sample_history).
  reflexivity.
Defined.

(** C5, as the claim states it, fails: on a table of 4 rows, fewer than
    [N_LOOKBACK], the window extraction does not fail; it returns a
    window of 4 rows. *)
Lemma lstm_window_short_history_counterexample :
  nrows sample_history < N_LOOKBACK /\
  fst (lstm_window 0 [sample_history]) = Ok 2 /\
  (nrows <$> snd (lstm_window 0 [sample_history]) !! 2) = Some 4.
Proof.
  split; [|split].
  - unfold nrows, N_LOOKBACK. simpl. lia.
  - vm_compute. reflexivity.
  - vm_compute. reflexivity.
Qed.

(** ** The alert check *)

(** C4.  The alert check does not look at any forecast: in both servers
    (with the data loaded) it returns the same single critical demo alert,
    four hours from now, whatever is forecast.  For the flat forecast at
    400 MW, where no entry exceeds [CRITICAL_LOAD_THRESHOLD] and no alert
    is due, it still returns one. *)
Theorem check_alerts_ignores_forecast (now : Timestamp) (full_data : loc) :
  expected_alert_timestamps flat_forecast CRITICAL_LOAD_THRESHOLD = [] /\
  alerts_of (App.check_alerts now)
  = [{| alert_timestamp := Some (now + 4 * HOUR)%Z;
        level := "critical";
        id := Some "alert-1";
        alert_message :=
          "Demo Alert: Predicted load 512.5 MW exceeds 500 MW threshold." |}] /\
  alerts_of (AppEnhanced.check_alerts (Some full_data) now)
  = [{| alert_timestamp := Some (now + 4 * HOUR)%Z;
        level := "critical";
        id := None;
        alert_message :=
          "Demo Alert: Predicted load 512.5 MW exceeds 500 MW threshold." |}].
Proof. repeat split; reflexivity. Qed.

(** The check the spec describes would flag an entry at 512.5 MW. *)
Example expected_alert_sample :
  expected_alert_timestamps
    [ {| timestamp := sample_start; predicted_power := cell_of_Z 400 |};
      {| timestamp := (sample_start + HOUR)%Z; predicted_power := Some (1025 # 2)%Q |};
      {| timestamp := (sample_start + 2 * HOUR)%Z; predicted_power := None |} ]
    CRITICAL_LOAD_THRESHOLD
  = [(sample_start + HOUR)%Z].
Proof. reflexivity. Qed.

(** ** The frame of the rollout *)

Section FramedRollout.
Variables (G : Models) (unloaded : string -> string -> exn) (h0 : heap).

Lemma framed_use {A} (name method : string) (o : option A) :
  framed h0 (use unloaded name method o) (fun _ => True).
Proof. destruct o; [apply framed_ret; exact I | apply framed_raise]. Qed.

Lemma framed_forecast_iteration (st : loc * list ForecastEntry) :
  framed h0 (forecast_iteration G unloaded st) (fun st' => fresh h0 (fst st')).
Proof.
  destruct st as [base_data forecast_results]. unfold forecast_iteration.
  pose proof @framed_use as Huse.
  do 30 (eapply framed_bind; [solve [eauto with framed]|intros ? ?]; cbv zeta).
  eapply framed_bind.
  { apply framed_for_each. intros col.
    destruct (String.eqb col TARGET_COLUMN); framed_steps. }
  intros _ _. framed_steps.
Qed.

Lemma framed_forecast_loop (n : nat) (st : loc * list ForecastEntry) :
  framed h0 (forecast_loop G unloaded n st) (fun _ => True).
Proof.
  revert st. induction n as [|n IH]; intros st; simpl.
  - apply framed_ret. exact I.
  - eapply framed_bind; [apply framed_forecast_iteration|]. intros st' _. apply IH.
Qed.

Lemma framed_forecast_body (full_data : loc) :
  framed h0 (forecast_body G unloaded full_data) (fun _ => True).
Proof.
  unfold forecast_body. pose proof framed_forecast_loop as Hloop. framed_steps.
Qed.
End FramedRollout.

(** C9.  A forecast request never modifies the shared historical table.
    In both servers, whatever the models do and whether the rollout
    completes or fails, the heap after the request is the heap before it
    followed by new objects: every object that existed, the process-wide
    table among them, is unchanged in every row and column.  The rolling
    state is a new object, the copy of the trailing 96-row slice. *)
Theorem forecast_leaves_history_unchanged
    (full_data : option loc) (G : Models) (h : heap) :
  (exists l, snd (App.get_hourly_forecast full_data G h) = h ++ l) /\
  (exists l, snd (AppEnhanced.get_hourly_forecast full_data G h) = h ++ l) /\
  (forall r d, h !! r = Some d ->
     snd (App.get_hourly_forecast full_data G h) !! r = Some d /\
     snd (AppEnhanced.get_hourly_forecast full_data G h) !! r = Some d) /\
  (forall fd d unloaded, h !! fd = Some d ->
     exists l, snd (forecast_body G unloaded fd h)
               = h ++ tail_rows 96 d :: tail_rows 96 d :: l).
Proof.
  assert (exists l, snd (App.get_hourly_forecast full_data G h) = h ++ l) as HA.
  { unfold App.get_hourly_forecast. destruct full_data as [fd|].
    - eapply framed_try_except; [apply framed_forecast_body | apply extends_refl].
    - exists []. symmetry. apply app_nil_r. }
  assert (exists l, snd (AppEnhanced.get_hourly_forecast full_data G h) = h ++ l) as HE.
  { unfold AppEnhanced.get_hourly_forecast.
    destruct full_data as [fd|], (model_xgb G), (model_lstm G), (model_fusion G);
      try (exists []; symmetry; apply app_nil_r).
    eapply framed_try_except; [apply framed_forecast_body | apply extends_refl]. }
  split; [exact HA|]. split; [exact HE|]. split.
  - intros r d Hr. pose proof (lookup_lt_Some _ _ _ Hr) as Hlt.
    destruct HA as [l1 ->], HE as [l2 ->].
    rewrite !lookup_app_l by exact Hlt. auto.
  - intros fd d unloaded Hfd. unfold forecast_body.
    rewrite run_bind, (run_df_iloc_tail _ _ _ Hfd). cbv beta iota.
    rewrite run_bind, (run_df_copy _ _ _ (lookup_top h _)). cbv beta iota.
    match goal with
    | |- context [(?m ≫= ?k) ?h1] =>
        assert (framed h1 (m ≫= k) (fun _ => True)) as Hrest
    end.
    { eapply framed_bind; [apply framed_forecast_loop|].
      intros st _. apply framed_ret. exact I. }
    destruct (Hrest _ (extends_refl _)) as [[l Hl] _].
    exists l. rewrite Hl, <- !app_assoc. reflexivity.
Qed.

(** ** The synthesized row *)

Section AppendRow.
Variables (d : DataFrame) (ts : Timestamp) (p : cell).

Lemma lookup_col_map_keyed (f : string -> Series -> Series) c (l : list (string * Series)) :
  lookup_col c (map (fun '(k, v) => (k, f k v)) l) = f c <$> lookup_col c l.
Proof.
  induction l as [|[k v] l IH]; simpl; [reflexivity|].
  destruct (String.eqb_spec c k) as [->|]; [reflexivity | exact IH].
Qed.

Lemma filter_none {A} (P : A -> Prop) `{forall x, Decision (P x)} (l : list A) :
  (forall x, x ∈ l -> ~ P x) -> filter P l = [].
Proof.
  induction l as [|x l IH]; intros Hall; [reflexivity|].
  rewrite filter_cons_False by (apply Hall; left).
  apply IH. intros y Hy. apply Hall. right. exact Hy.
Qed.

Lemma columns_synthesized_row :
  is_Some (lookup_col TARGET_COLUMN (cols d)) ->
  columns (synthesized_row d ts p) = columns d.
Proof.
  intros Ht. unfold columns, synthesized_row. cbn [cols].
  rewrite columns_set_col_present.
  - apply (columns_map_values (fun _ => slice_tail 1)).
  - rewrite lookup_col_map_values. apply fmap_is_Some, Ht.
Qed.

Lemma lookup_col_synthesized_row c :
  lookup_col c (cols (synthesized_row d ts p))
  = if String.eqb c TARGET_COLUMN then Some (replicate 1 p)
    else slice_tail 1 <$> lookup_col c (cols d).
Proof.
  unfold synthesized_row. cbn [cols].
  rewrite lookup_set_col, lookup_col_map_values. reflexivity.
Qed.

Lemma concat_rows_synthesized_row :
  NoDup (columns d) ->
  is_Some (lookup_col TARGET_COLUMN (cols d)) ->
  concat_rows d (synthesized_row d ts p) = append_row d ts p.
Proof.
  intros Hnd Ht. unfold concat_rows, append_row. f_equal.
  rewrite filter_none, app_nil_r.
  - apply map_ext_in. intros [c s] Hin%list_elem_of_In.
    rewrite lookup_col_synthesized_row.
    destruct (String.eqb c TARGET_COLUMN); [reflexivity|].
    rewrite (lookup_col_NoDup c s (cols d) Hnd Hin). reflexivity.
  - intros [c s] Hin Hnone. cbn [fst] in Hnone.
    assert (c ∈ columns (synthesized_row d ts p)) as Hc.
    { change c with (fst (c, s)). apply (list_elem_of_fmap_2 fst). exact Hin. }
    rewrite (columns_synthesized_row Ht) in Hc.
    apply lookup_col_is_Some in Hc as [x Hx]. congruence.
Qed.

Lemma columns_append_row : columns (append_row d ts p) = columns d.
Proof.
  unfold columns, append_row. cbn [cols].
  apply (columns_map_values
           (fun c s => s ++ (if String.eqb c TARGET_COLUMN then [p] else slice_tail 1 s))).
Qed.

Lemma lookup_col_append_row c :
  lookup_col c (cols (append_row d ts p))
  = (fun s => s ++ (if String.eqb c TARGET_COLUMN then [p] else slice_tail 1 s))
      <$> lookup_col c (cols d).
Proof.
  unfold append_row. cbn [cols].
  apply (lookup_col_map_keyed
           (fun c s => s ++ (if String.eqb c TARGET_COLUMN then [p] else slice_tail 1 s))).
Qed.

Lemma nrows_append_row : nrows (append_row d ts p) = S (nrows d).
Proof. unfold nrows, append_row. cbn [index]. rewrite length_app. simpl. lia. Qed.

Lemma last_index_append_row : last (index (append_row d ts p)) = Some ts.
Proof. unfold append_row. cbn [index]. apply last_snoc. Qed.

Lemma has_channels_append_row : has_channels d -> has_channels (append_row d ts p).
Proof.
  intros Hc c Hin. rewrite lookup_col_append_row. apply fmap_is_Some, Hc, Hin.
Qed.

Lemma wf_lookup_length c s :
  wf d -> lookup_col c (cols d) = Some s -> length s = nrows d.
Proof.
  intros [_ Hlen] Hs. apply lookup_col_Some_elem in Hs.
  rewrite Forall_forall in Hlen. exact (Hlen _ Hs).
Qed.

Lemma wf_append_row : wf d -> index d <> [] -> wf (append_row d ts p).
Proof.
  intros [Hnd Hlen] Hne. split.
  - rewrite columns_append_row. exact Hnd.
  - rewrite nrows_append_row. unfold append_row. cbn [cols].
    apply Forall_forall. intros [c s'] Hin. cbn [snd].
    apply list_elem_of_In, in_map_iff in Hin as [[k s] [Heq Hin]].
    injection Heq as <- <-. apply list_elem_of_In in Hin.
    rewrite Forall_forall in Hlen. pose proof (Hlen _ Hin) as Hs. cbn [snd] in Hs.
    assert (0 < nrows d) by (unfold nrows; destruct (index d); [congruence | simpl; lia]).
    rewrite length_app. destruct (String.eqb k TARGET_COLUMN); [simpl; lia|].
    rewrite length_slice_tail by lia. lia.
Qed.

(** Earlier rows are kept. *)
Lemma cell_at_append_row_old c i :
  wf d -> i < nrows d -> cell_at (append_row d ts p) c i = cell_at d c i.
Proof.
  intros Hwf Hi. unfold cell_at. rewrite lookup_col_append_row.
  destruct (lookup_col c (cols d)) as [s|] eqn:Hs; [|reflexivity]. simpl.
  apply lookup_app_l. rewrite (wf_lookup_length c s Hwf Hs). exact Hi.
Qed.

(** The new row holds the prediction in the target channel. *)
Lemma cell_at_append_row_target :
  wf d -> is_Some (lookup_col TARGET_COLUMN (cols d)) ->
  cell_at (append_row d ts p) TARGET_COLUMN (nrows d) = Some p.
Proof.
  intros Hwf [s Hs]. unfold cell_at. rewrite lookup_col_append_row, Hs. simpl.
  rewrite <- (wf_lookup_length _ s Hwf Hs). apply list_lookup_middle. reflexivity.
Qed.

(** The new row repeats the last row in every other channel. *)
Lemma cell_at_append_row_other c :
  wf d -> index d <> [] -> c <> TARGET_COLUMN -> c ∈ columns d ->
  cell_at (append_row d ts p) c (nrows d) = cell_at d c (nrows d - 1) /\
  is_Some (cell_at d c (nrows d - 1)).
Proof.
  intros Hwf Hne Hc Hin. apply lookup_col_is_Some in Hin as [s Hs].
  unfold cell_at. rewrite lookup_col_append_row, Hs. simpl.
  destruct (String.eqb_spec c TARGET_COLUMN) as [|_]; [contradiction|].
  pose proof (wf_lookup_length c s Hwf Hs) as Hlen.
  assert (0 < length s) as Hpos.
  { rewrite Hlen. unfold nrows. destruct (index d); [congruence | simpl; lia]. }
  destruct (last_is_Some s Hpos) as [v Hv].
  rewrite (slice_tail_1 s v Hv).
  rewrite <- Hlen. rewrite list_lookup_middle by reflexivity.
  rewrite last_lookup in Hv. replace (length s - 1) with (pred (length s)) by lia.
  rewrite Hv. eauto.
Qed.
End AppendRow.

(** ** The trailing slice *)

Lemma last_slice_tail {A} (n : nat) (l : list A) :
  0 < n -> last (slice_tail n l) = last l.
Proof.
  intros Hn. destruct n; [lia|]. unfold slice_tail.
  destruct l as [|x l]; [reflexivity|].
  rewrite !last_lookup, lookup_drop, length_drop. f_equal. simpl. lia.
Qed.

Lemma length_slice_tail_eq {A B} (n : nat) (l : list A) (k : list B) :
  length l = length k -> length (slice_tail n l) = length (slice_tail n k).
Proof.
  intros H. destruct n; [exact H|]. unfold slice_tail. rewrite !length_drop. lia.
Qed.

Section TailRows.
Variables (n : nat) (d : DataFrame).

Lemma lookup_col_tail_rows c :
  lookup_col c (cols (tail_rows n d)) = slice_tail n <$> lookup_col c (cols d).
Proof. unfold tail_rows. cbn [cols]. apply lookup_col_map_values. Qed.

Lemma columns_tail_rows : columns (tail_rows n d) = columns d.
Proof.
  unfold columns, tail_rows. cbn [cols].
  apply (columns_map_values (fun _ => slice_tail n)).
Qed.

Lemma wf_tail_rows : wf d -> wf (tail_rows n d).
Proof.
  intros [Hnd Hlen]. split.
  - rewrite columns_tail_rows. exact Hnd.
  - unfold tail_rows, nrows. cbn [cols index].
    apply Forall_forall. intros [c s'] Hin. cbn [snd].
    apply list_elem_of_In, in_map_iff in Hin as [[k s] [Heq Hin]].
    injection Heq as <- <-. apply list_elem_of_In in Hin.
    rewrite Forall_forall in Hlen. apply length_slice_tail_eq.
    exact (Hlen _ Hin).
Qed.

Lemma has_channels_tail_rows : has_channels d -> has_channels (tail_rows n d).
Proof.
  intros Hc c Hin. rewrite lookup_col_tail_rows. apply fmap_is_Some, Hc, Hin.
Qed.

Lemma last_index_tail_rows :
  0 < n -> last (index (tail_rows n d)) = last (index d).
Proof. intros Hn. unfold tail_rows. cbn [index]. apply last_slice_tail, Hn. Qed.
End TailRows.

(** The last row of a table, channel by channel. *)
Lemma cell_at_last (d : DataFrame) (c : string) :
  wf d -> cell_at d c (nrows d - 1) = (s ← lookup_col c (cols d); last s).
Proof.
  intros Hwf. unfold cell_at.
  destruct (lookup_col c (cols d)) as [s|] eqn:Hs; [|reflexivity]. simpl.
  rewrite last_lookup, (wf_lookup_length d c s Hwf Hs). f_equal. lia.
Qed.

Lemma cell_at_last_tail_rows (n : nat) (d : DataFrame) (c : string) :
  0 < n -> wf d ->
  cell_at (tail_rows n d) c (nrows (tail_rows n d) - 1) = cell_at d c (nrows d - 1).
Proof.
  intros Hn Hwf.
  rewrite (cell_at_last _ c (wf_tail_rows n d Hwf)), (cell_at_last d c Hwf).
  rewrite lookup_col_tail_rows.
  destruct (lookup_col c (cols d)) as [s|]; [|reflexivity]. simpl.
  apply last_slice_tail, Hn.
Qed.

Lemma index_nonempty_tail_rows (n : nat) (d : DataFrame) :
  0 < n -> index d <> [] -> index (tail_rows n d) <> [].
Proof.
  intros Hn Hne Hnil. apply Hne, last_None.
  rewrite <- (last_index_tail_rows n d Hn), Hnil. reflexivity.
Qed.

(** ** One iteration of the rollout *)

Lemma run_df_setitem_scalar (h : heap) (r : loc) (d : DataFrame) (c : string) (v : cell) :
  h !! r = Some d ->
  df_setitem_scalar r c v h
  = (Ok tt, <[r := {| index := index d;
                      cols := set_col c (replicate (nrows d) v) (cols d) |}]> h).
Proof.
  intros Hr. unfold df_setitem_scalar.
  rewrite (run_bind_Ok _ _ _ _ _ (run_deref _ _ _ Hr)). reflexivity.
Qed.

Lemma run_df_set_index (h : heap) (r : loc) (d : DataFrame) (idx : list Timestamp) :
  h !! r = Some d ->
  length idx = nrows d ->
  df_set_index r idx h = (Ok tt, <[r := {| index := idx; cols := cols d |}]> h).
Proof.
  intros Hr Hl. unfold df_set_index.
  rewrite (run_bind_Ok _ _ _ _ _ (run_deref _ _ _ Hr)).
  rewrite (proj2 (Nat.eqb_eq _ _) Hl). reflexivity.
Qed.

Lemma run_pd_DataFrame_pair (h : heap) (c1 c2 : string) (v1 v2 : cell) :
  pd_DataFrame [(c1, [v1]); (c2, [v2])] h
  = (Ok (length h), h ++ [{| index := [0%Z]; cols := [(c1, [v1]); (c2, [v2])] |}]).
Proof. reflexivity. Qed.

(** Carrying the non-target channels forward rewrites each with the value
    it already has: [new_row] was cut from the last row. *)
Lemma run_carry_forward (h : heap) (base_data new_row : loc) (d nr : DataFrame)
    (cs : list string) :
  h !! base_data = Some d ->
  h !! new_row = Some nr ->
  (forall c, c ∈ cs -> c <> TARGET_COLUMN ->
     exists s v, lookup_col c (cols d) = Some s /\ last s = Some v /\
                 lookup_col c (cols nr) = Some (replicate (nrows nr) v)) ->
  for_each cs (fun col =>
    if String.eqb col TARGET_COLUMN then ret tt
    else
      s ← df_getitem base_data col;
      v ← last_item s;
      df_setitem_scalar new_row col v) h
  = (Ok tt, h).
Proof.
  intros Hb Hn. induction cs as [|c cs IH]; intros Hcs; [reflexivity|].
  cbn [for_each]. rewrite run_bind.
  destruct (String.eqb_spec c TARGET_COLUMN) as [->|Hne].
  - cbv beta iota. change (ret tt h) with (Ok tt, h). cbv beta iota.
    apply IH. intros c' Hc'. apply Hcs. right. exact Hc'.
  - destruct (Hcs c) as (s & v & Hs & Hv & Hnr); [left | exact Hne |].
    rewrite run_bind, (run_df_getitem _ _ _ Hb), Hs. cbv beta iota.
    rewrite run_bind. unfold last_item at 1. rewrite Hv.
    change (ret v h) with (Ok v, h). cbv beta iota.
    rewrite (run_df_setitem_scalar _ _ _ _ _ Hn).
    rewrite (set_col_id _ _ _ Hnr). destruct nr as [i l]. cbn [index cols].
    rewrite (list_insert_id _ _ _ Hn).
    apply IH. intros c' Hc'. apply Hcs. right. exact Hc'.
Qed.

(** The columns of the cut row meet what carrying forward expects. *)
Lemma synthesized_row_carries (d : DataFrame) (ts : Timestamp) (p : cell) (c : string) :
  wf d -> index d <> [] ->
  is_Some (lookup_col TARGET_COLUMN (cols d)) ->
  c ∈ columns (synthesized_row d ts p) -> c <> TARGET_COLUMN ->
  exists s v, lookup_col c (cols d) = Some s /\ last s = Some v /\
              lookup_col c (cols (synthesized_row d ts p))
              = Some (replicate (nrows (synthesized_row d ts p)) v).
Proof.
  intros Hwf Hne Ht Hin Hc. rewrite (columns_synthesized_row d ts p Ht) in Hin.
  apply lookup_col_is_Some in Hin as [s Hs].
  assert (0 < length s) as Hpos.
  { rewrite (wf_lookup_length d c s Hwf Hs). unfold nrows.
    destruct (index d); [congruence | simpl; lia]. }
  destruct (last_is_Some s Hpos) as [v Hv].
  exists s, v. split; [exact Hs|]. split; [exact Hv|].
  rewrite lookup_col_synthesized_row, Hs.
  destruct (String.eqb_spec c TARGET_COLUMN); [contradiction|].
  simpl. rewrite (slice_tail_1 s v Hv). reflexivity.
Qed.

Lemma lookup_col_assign_all (c : string) (new : list (string * Series)) :
  forall l, c ∉ map fst new -> lookup_col c (assign_all new l) = lookup_col c l.
Proof.
  unfold assign_all. induction new as [|[k v] new IH]; intros l Hc; [reflexivity|].
  cbn [foldl fst snd]. cbn [map fst] in Hc.
  apply not_elem_of_cons in Hc as [Hne Hc].
  rewrite IH by exact Hc. rewrite lookup_set_col.
  destruct (String.eqb_spec c k); [contradiction | reflexivity].
Qed.

(** ** The inputs of the models *)

Ltac distinct_names :=
  repeat (apply NoDup_cons; split;
          [intros Hin; repeat (apply elem_of_cons in Hin as [Heq|Hin];
                               [discriminate Heq|]); inversion Hin|]);
  apply NoDup_nil; exact I.

Lemma NoDup_FEATURES_XGB : NoDup FEATURES_XGB.
Proof. unfold FEATURES_XGB, TARGET_COLUMN. cbn [String.append]. distinct_names. Qed.

Lemma NoDup_FEATURES_LSTM : NoDup FEATURES_LSTM.
Proof. unfold FEATURES_LSTM. distinct_names. Qed.

Lemma elem_of_columns_set_col (c x : string) (s : Series) (l : list (string * Series)) :
  x ∈ map fst (set_col c s l) -> x = c \/ x ∈ map fst l.
Proof.
  induction l as [|[k v] l IH]; simpl.
  - intros H. apply list_elem_of_singleton in H. auto.
  - destruct (String.eqb_spec c k) as [->|Hne]; simpl; intros H.
    + auto.
    + apply elem_of_cons in H as [->|H]; [right; left|].
      destruct (IH H) as [->|Hin]; [auto | right; right; exact Hin].
Qed.

Lemma wf_set_col (idx : list Timestamp) (l : list (string * Series))
    (c : string) (s : Series) :
  wf {| index := idx; cols := l |} -> length s = length idx ->
  wf {| index := idx; cols := set_col c s l |}.
Proof.
  unfold wf, columns, nrows. cbn [index cols]. intros [Hnd Hlen] Hs.
  induction l as [|[k v] l IH]; simpl.
  - split; [distinct_names | repeat constructor; exact Hs].
  - apply NoDup_cons in Hnd as [Hk Hnd]. apply Forall_cons in Hlen as [Hv Hlen].
    destruct (String.eqb_spec c k) as [->|Hne]; simpl.
    + split; [apply NoDup_cons; auto | constructor; [exact Hs | exact Hlen]].
    + destruct (IH Hnd Hlen) as [Hnd' Hlen'].
      split; [|constructor; assumption].
      apply NoDup_cons. split; [|exact Hnd'].
      intros Hin. apply elem_of_columns_set_col in Hin as [->|Hin]; auto.
Qed.

Lemma wf_enriched (d : DataFrame) (s : Series) :
  wf d -> lookup_col TARGET_COLUMN (cols d) = Some s ->
  wf (enriched d TARGET_COLUMN s).
Proof.
  intros Hwf Hs. pose proof (wf_lookup_length d _ _ Hwf Hs) as Hlen.
  unfold nrows in Hlen.
  unfold enriched, assign_all, derived_columns. cbn [foldl fst snd].
  repeat (apply wf_set_col;
          [|rewrite ?length_shift, ?length_rolling_mean, ?length_map;
            first [reflexivity | exact Hlen]]).
  destruct d. exact Hwf.
Qed.

Lemma select_cols_elem (cs : list string) (l r : list (string * Series))
    (c : string) (s : Series) :
  select_cols cs l = inr r -> (c, s) ∈ r -> lookup_col c l = Some s.
Proof.
  revert r. induction cs as [|k cs IH]; simpl; intros r H Hin.
  - injection H as <-. inversion Hin.
  - destruct (lookup_col k l) as [v|] eqn:Hv; [|discriminate].
    destruct (select_cols cs l) as [?|r'] eqn:Hr; [discriminate|].
    injection H as <-. apply elem_of_cons in Hin as [[= -> ->]|Hin]; eauto.
Qed.

Lemma wf_select (d : DataFrame) (cs : list string) (r : list (string * Series)) :
  wf d -> NoDup cs -> select_cols cs (cols d) = inr r ->
  wf {| index := index d; cols := r |}.
Proof.
  intros Hwf Hnd Hsel. split.
  - unfold columns. cbn [cols]. rewrite (proj1 (select_cols_inr _ _ _ Hsel)). exact Hnd.
  - apply Forall_forall. intros [c s] Hin. cbn [snd]. unfold nrows. cbn [index].
    apply (wf_lookup_length d c s Hwf). eapply select_cols_elem; eauto.
Qed.

(** The frame given to the tree regressor: one row of the columns of
    [FEATURES_XGB]. *)
Lemma xgb_input_shape (d : DataFrame) (s : Series) (xc : list (string * Series)) :
  wf d -> index d <> [] ->
  lookup_col TARGET_COLUMN (cols d) = Some s ->
  select_cols FEATURES_XGB (cols (tail_rows 1 (enriched d TARGET_COLUMN s))) = inr xc ->
  let X := {| index := index (tail_rows 1 (enriched d TARGET_COLUMN s)); cols := xc |} in
  wf X /\ nrows X = 1 /\ columns X = FEATURES_XGB.
Proof.
  intros Hwf Hne Hs Hxc. cbv zeta. split; [|split].
  - apply wf_select with (cs := FEATURES_XGB);
      [apply wf_tail_rows, wf_enriched; assumption
      | apply NoDup_FEATURES_XGB | exact Hxc].
  - unfold nrows, tail_rows, enriched. cbn [index].
    rewrite length_slice_tail by lia.
    destruct (index d); [congruence | simpl; lia].
  - unfold columns. cbn [cols]. apply (select_cols_inr _ _ _ Hxc).
Qed.

(** The window given to the feature scaler: the trailing rows of the
    columns of [FEATURES_LSTM]. *)
Lemma lstm_input_shape (d : DataFrame) (lc : list (string * Series)) :
  wf d ->
  select_cols FEATURES_LSTM (cols d) = inr lc ->
  let W := tail_rows N_LOOKBACK {| index := index d; cols := lc |} in
  wf W /\ columns W = FEATURES_LSTM /\ nrows W = min N_LOOKBACK (nrows d).
Proof.
  intros Hwf Hlc. cbv zeta. split; [|split].
  - apply wf_tail_rows. eapply wf_select; [exact Hwf | apply NoDup_FEATURES_LSTM | exact Hlc].
  - rewrite columns_tail_rows. unfold columns. cbn [cols].
    apply (select_cols_inr _ _ _ Hlc).
  - unfold nrows, tail_rows. cbn [index]. apply length_slice_tail.
    unfold N_LOOKBACK. lia.
Qed.

(** The frame given to the fusion regressor: one row of the two
    predictions. *)
Lemma fusion_input_shape (v1 v2 : cell) :
  let X := {| index := [0%Z]; cols := [("xgb_pred", [v1]); ("lstm_pred", [v2])] |} in
  wf X /\ nrows X = 1 /\ columns X = ["xgb_pred"; "lstm_pred"].
Proof.
  cbv zeta. split; [|split; reflexivity].
  split; [unfold columns; cbn [cols map fst]; distinct_names | repeat constructor].
Qed.

Ltac norm_heap :=
  rewrite ?length_app, <- ?app_assoc; cbn [length app];
  rewrite <- ?Nat.add_assoc; cbn [Nat.add].

Ltac find_obj :=
  first [ eassumption
        | apply lookup_top
        | apply list_lookup_middle; reflexivity
        | rewrite lookup_extension; reflexivity
        | rewrite lookup_app_l by eassumption; eassumption ].

(** Runs the next operation with its run lemma. *)
Ltac step lem :=
  rewrite run_bind; erewrite lem by find_obj; cbv beta iota zeta; norm_heap.

(** Two loads of one artifact gave the same function. *)
Ltac same_artifact :=
  repeat match goal with
         | H1 : ?o = Some ?f, H2 : ?o = Some ?g |- _ =>
             assert (g = f) by congruence; subst g; clear H2
         end.

(** The shapes of the inputs of the models, from the facts at hand. *)
Ltac input_shapes :=
  try match goal with
      | Hwf : wf ?d, HN : index ?d <> [],
        Hs : lookup_col TARGET_COLUMN (cols ?d) = Some ?s,
        Hxc : select_cols FEATURES_XGB _ = inr ?xc |- _ =>
          destruct (xgb_input_shape d s xc Hwf HN Hs Hxc) as (? & ? & ?)
      end;
  try match goal with
      | Hwf : wf ?d, Hlc : select_cols FEATURES_LSTM (cols ?d) = inr ?lc,
        HR : ?rows (min N_LOOKBACK (nrows ?d)) |- _ =>
          let S3 := fresh "Hrows" in
          destruct (lstm_input_shape d lc Hwf Hlc) as (? & ? & S3);
          rewrite <- S3 in HR
      end.

(** A failure is excluded when the models answer, the channels are there,
    the table has a row and the next timestamp is in bounds: every call
    made so far is one the models answer. *)
Ltac refute_failure :=
  cbv beta iota zeta; unfold iteration_post;
  let rows := fresh "rows" in
  let HM := fresh "HM" in
  let HR := fresh "HR" in
  let HC := fresh "HC" in
  let HN := fresh "HN" in
  let HT := fresh "HT" in
  intros rows HM HR HC HN HT;
  destruct HM as ((fx & Hfx & Ax) & (fsx & fl & fsy & Hfsx & Hfl & Hfsy & Al)
                  & (ff & Hff & Af));
  try congruence;
  same_artifact;
  input_shapes;
  repeat match goal with
         | E : ?f ?X = _ |- _ =>
             let HA := fresh "HA" in
             let HB := fresh "HB" in
             let HD := fresh "HD" in
             first
               [ destruct (Ax X) as (? & ? & HA); [assumption..|];
                 rewrite HA in E; clear HA; simplify_eq
               | destruct (Af X) as (? & ? & HA);
                 [apply fusion_input_shape..|];
                 rewrite HA in E; clear HA; simplify_eq
               | destruct (Al X) as (? & ? & ? & ? & ? & HA & HB & HD);
                 [assumption..|];
                 rewrite HA in E; simplify_eq;
                 try match type of HB with
                     | ?call = _ =>
                         match goal with
                         | E2 : call = _ |- _ =>
                             tryif constr_eq E2 HB then fail
                             else (rewrite HB in E2; simplify_eq)
                         end
                     end;
                 try match type of HD with
                     | ?call = _ =>
                         match goal with
                         | E3 : call = _ |- _ =>
                             tryif constr_eq E3 HD then fail
                             else (rewrite HD in E3; simplify_eq)
                         end
                     end;
                 clear HA HB HD ]
         end.

(** Using an artifact: it was loaded, or the failure is excluded. *)
Ltac step_use o :=
  destruct o as [?f|] eqn:?Hload;
  rewrite run_bind; cbn [use ret raise]; cbv beta iota zeta;
  [|refute_failure].

(** A call to a model: it returned, or the failure is excluded. *)
Lemma run_lift {A} (r : result A) (h : heap) : lift r h = (r, h).
Proof. reflexivity. Qed.

Ltac step_call c :=
  rewrite run_bind, run_lift;
  destruct c as [?v|?e] eqn:?Hcall;
  cbv beta iota zeta;
  [|refute_failure].

(** The first item of an array a model returned. *)
Ltac step_first l :=
  destruct l as [|?p ?ps];
  rewrite run_bind; cbn [first_item ret raise]; cbv beta iota zeta;
  [refute_failure|].

Section Iteration.
Variables (G : Models) (unloaded : string -> string -> exn).

Lemma forecast_iteration_spec (h : heap) (base_data : loc)
    (acc : list ForecastEntry) (d : DataFrame) :
  h !! base_data = Some d ->
  wf d ->
  iteration_post G d acc h (forecast_iteration G unloaded (base_data, acc) h).
Proof.
  intros Hb Hwf. pose proof (lookup_lt_Some _ _ _ Hb) as Hlt.
  unfold forecast_iteration.
  destruct (lookup_col TARGET_COLUMN (cols d)) as [s|] eqn:Hs.
  2: { rewrite run_bind.
       pose proof (run_create_features_xgb_missing h base_data d Hb Hs) as Hf.
       destruct (create_features_xgb base_data TARGET_COLUMN h) as [[a|e] h1];
         simpl in Hf; [discriminate|].
       intros _ _ _ Hc _ _.
       assert (TARGET_COLUMN ∈ FEATURES_LSTM) as Hin
         by (unfold FEATURES_LSTM, TARGET_COLUMN; repeat constructor).
       destruct (Hc TARGET_COLUMN Hin) as [x Hx]. congruence. }
  rewrite run_bind, (run_create_features_xgb h base_data d s Hb Hs).
  cbv beta iota zeta.
  set (E := enriched d TARGET_COLUMN s).
  step run_df_iloc_tail.
  rewrite run_bind. erewrite run_lstm_window by find_obj.
  destruct (select_cols FEATURES_LSTM (cols d)) as [k|lc] eqn:Hlc.
  { intros _ _ _ Hc _ _. apply select_cols_inl in Hlc as [Hk Hnone].
    destruct (Hc k Hk). congruence. }
  cbv beta iota zeta. norm_heap.
  rewrite run_bind. erewrite run_df_getitem_list by find_obj.
  destruct (select_cols FEATURES_XGB (cols (tail_rows 1 E))) as [k|xc] eqn:Hxc.
  { intros _ _ _ Hc _ _. apply select_cols_inl in Hxc as [Hk Hnone].
    destruct (features_xgb_present d s (has_channels_raw d Hc) k Hk) as [x Hx].
    unfold E in Hnone. congruence. }
  cbv beta iota zeta. norm_heap.
  step_use (model_xgb G). step run_deref.
  match goal with |- context [lift (?f ?x)] => step_call (f x) end.
  match goal with |- context [first_item ?l] => step_first l end.
  step_use (scaler_x G). step run_deref.
  match goal with |- context [lift (?f ?x)] => step_call (f x) end.
  step_use (model_lstm G).
  match goal with |- context [lift (?f ?x)] => step_call (f x) end.
  step_use (scaler_y G).
  match goal with |- context [lift (?f ?x)] => step_call (f x) end.
  match goal with |- context [first_item ?l] => step_first l end.
  match goal with |- context [first_item ?l] => step_first l end.
  rewrite run_bind, run_pd_DataFrame_pair. cbv beta iota zeta. norm_heap.
  step_use (model_fusion G). step run_deref.
  match goal with |- context [lift (?f ?x)] => step_call (f x) end.
  match goal with |- context [first_item ?l] => step_first l end.
  step run_df_index.
  rewrite run_bind. unfold last_item at 1.
  destruct (last (index d)) as [ts|] eqn:Hlast; cbn [ret raise]; cbv beta iota zeta.
  2: { unfold iteration_post. intros _ _ _ _ HN _. apply HN, last_None, Hlast. }
  assert (is_Some (lookup_col TARGET_COLUMN (cols d))) as Htarget by eauto.
  assert (index d <> []) as Hne by (intros Hnil; rewrite Hnil in Hlast; discriminate).
  rewrite run_bind. unfold timestamp_add. cbv zeta.
  destruct ((Timestamp_min <=? ts + HOUR) && (ts + HOUR <=? Timestamp_max))%Z eqn:Hbound;
    cbn [ret raise]; cbv beta iota zeta.
  2: { unfold iteration_post. intros _ _ _ _ _ HT. specialize (HT ts Hlast).
       apply andb_false_iff in Hbound as [Hb1|Hb1];
         [apply Z.leb_gt in Hb1 | apply Z.leb_gt in Hb1]; lia. }
  step run_df_iloc_tail. step run_df_copy.
  rewrite run_bind.
  erewrite run_df_set_index;
    [ | find_obj
      | unfold nrows, tail_rows; cbn [index];
        rewrite (slice_tail_1 _ _ Hlast); reflexivity ].
  rewrite insert_app_r. cbn [insert list_insert]. cbv beta iota zeta.
  rewrite run_bind. erewrite run_df_setitem_scalar by find_obj.
  rewrite insert_app_r. cbn [insert list_insert nrows index length]. cbv beta iota zeta.
  set (NR := synthesized_row d (ts + HOUR)%Z p1).
  match goal with
  | |- context [h ++ ?l] =>
      match l with
      | context [?x :: nil] =>
          match x with
          | {| index := [(ts + HOUR)%Z]; cols := _ |} => change x with NR
          end
      end
  end.
  step run_df_columns.
  rewrite run_bind.
  rewrite (run_carry_forward _ base_data (length h + 7) d NR);
    [ | find_obj | find_obj
      | intros c Hc Hneq; apply synthesized_row_carries; assumption ].
  cbv beta iota zeta.
  rewrite run_bind. erewrite run_pd_concat by find_obj.
  cbv beta iota zeta. norm_heap.
  change (ret ?x ?h') with (Ok x, h'). unfold iteration_post.
  exists ts, p1. eexists.
  split; [exact Hlast|]. split; [exact Htarget|].
  split; [eexists _, _, _; split; [exact Hload3|]; split; [|exact Hcall3]; reflexivity|].
  split; [reflexivity|]. split; [reflexivity|].
  split.
  - rewrite lookup_extension. cbn [lookup list_lookup]. f_equal.
    apply concat_rows_synthesized_row; [apply Hwf | exact Htarget].
  - apply andb_true_iff in Hbound as [Hb1 Hb2].
    apply Z.leb_le in Hb1, Hb2. lia.
Qed.

(** A successful iteration, read backwards. *)
Lemma forecast_iteration_Ok_inv (h h' : heap) (base_data base' : loc)
    (acc acc' : list ForecastEntry) (d : DataFrame) :
  h !! base_data = Some d ->
  wf d ->
  forecast_iteration G unloaded (base_data, acc) h = (Ok (base', acc'), h') ->
  exists ts p l,
    last (index d) = Some ts /\
    is_Some (lookup_col TARGET_COLUMN (cols d)) /\
    (exists f X ps, model_fusion G = Some f /\
                    columns X = ["xgb_pred"; "lstm_pred"] /\
                    f X = Ok (p :: ps)) /\
    acc' = acc ++ [{| timestamp := (ts + HOUR)%Z; predicted_power := p |}] /\
    h' = h ++ l /\
    h' !! base' = Some (append_row d (ts + HOUR)%Z p).
Proof.
  intros Hb Hwf Hrun.
  pose proof (forecast_iteration_spec h base_data acc d Hb Hwf) as Hpost.
  rewrite Hrun in Hpost.
  destruct Hpost as (ts & p & l & H1 & H2 & H3 & H4 & H5 & H6 & _).
  exists ts, p, l. auto 10.
Qed.

(** An iteration that returned found its next timestamp in bounds. *)
Lemma forecast_iteration_Ok_bound (h h' : heap) (base_data : loc)
    (acc : list ForecastEntry) (st' : loc * list ForecastEntry)
    (d : DataFrame) (ts : Timestamp) :
  h !! base_data = Some d ->
  wf d ->
  last (index d) = Some ts ->
  forecast_iteration G unloaded (base_data, acc) h = (Ok st', h') ->
  (Timestamp_min <= ts + HOUR <= Timestamp_max)%Z.
Proof.
  intros Hb Hwf Hlast Hrun.
  pose proof (forecast_iteration_spec h base_data acc d Hb Hwf) as Hpost.
  rewrite Hrun in Hpost. destruct st' as [b' acc'].
  destruct Hpost as (ts' & p & l & H1 & _ & _ & _ & _ & _ & Hbound).
  assert (ts' = ts) as -> by congruence. exact Hbound.
Qed.

(** With answering models, the channels, a row and the next timestamp
    in bounds, an iteration returns. *)
Lemma forecast_iteration_succeeds (rows : nat -> Prop) (h : heap) (base_data : loc)
    (acc : list ForecastEntry) (d : DataFrame) (ts : Timestamp) :
  h !! base_data = Some d ->
  wf d ->
  models_answer rows G -> rows (min N_LOOKBACK (nrows d)) ->
  has_channels d -> last (index d) = Some ts ->
  (Timestamp_min <= ts + HOUR <= Timestamp_max)%Z ->
  exists st' h', forecast_iteration G unloaded (base_data, acc) h = (Ok st', h').
Proof.
  intros Hb Hwf HM HR HC Hlast HT.
  pose proof (forecast_iteration_spec h base_data acc d Hb Hwf) as Hpost.
  destruct (forecast_iteration G unloaded (base_data, acc) h) as [[st'|e] h'].
  - eauto.
  - destruct (Hpost rows HM HR HC).
    + intros Hnil. rewrite Hnil in Hlast. discriminate.
    + intros ts' Hts'. assert (ts' = ts) as -> by congruence. exact HT.
Qed.

(** The loop on a well-formed table: what it returns when it returns. *)
Lemma forecast_loop_Ok_inv (n : nat) :
  forall (h h' : heap) (base_data base' : loc) (acc acc' : list ForecastEntry)
         (d : DataFrame) (ts : Timestamp),
    h !! base_data = Some d ->
    wf d ->
    last (index d) = Some ts ->
    forecast_loop G unloaded n (base_data, acc) h = (Ok (base', acc'), h') ->
    exists ps l,
      length ps = n /\
      acc' = acc ++ forecast_of ts ps /\
      h' = h ++ l /\
      h' !! base' = Some (rolled d ts ps).
Proof.
  induction n as [|n IH]; intros h h' b b' acc acc' d ts Hb Hwf Hlast Hrun.
  - injection Hrun as <- <- <-. exists [], [].
    rewrite !app_nil_r. repeat split. exact Hb.
  - cbn [forecast_loop] in Hrun.
    apply bind_Ok_inv in Hrun as ([b1 acc1] & h1 & Hit & Hrest).
    destruct (forecast_iteration_Ok_inv _ _ _ _ _ _ _ Hb Hwf Hit)
      as (ts' & p & l1 & Hlast' & _ & _ & -> & -> & Hb1).
    assert (ts' = ts) as -> by congruence.
    assert (index d <> []) as Hne by (intros Hnil; rewrite Hnil in Hlast; discriminate).
    destruct (IH _ _ _ _ _ _ _ (ts + HOUR)%Z Hb1
                (wf_append_row d _ p Hwf Hne) (last_index_append_row d _ p) Hrest)
      as (ps & l2 & Hlen & -> & -> & Hb').
    exists (p :: ps), (l1 ++ l2). cbn [length forecast_of rolled].
    split; [congruence|]. split; [rewrite <- app_assoc; reflexivity|].
    split; [symmetry; apply app_assoc|]. exact Hb'.
Qed.

(** A loop that returned found every timestamp it made in bounds. *)
Lemma forecast_loop_Ok_bound (n : nat) :
  forall (h h' : heap) (base_data : loc) (acc : list ForecastEntry)
         (st' : loc * list ForecastEntry) (d : DataFrame) (ts : Timestamp),
    h !! base_data = Some d ->
    wf d ->
    last (index d) = Some ts ->
    0 < n ->
    forecast_loop G unloaded n (base_data, acc) h = (Ok st', h') ->
    (ts + Z.of_nat n * HOUR <= Timestamp_max)%Z.
Proof.
  induction n as [|n IH]; intros h h' b acc st' d ts Hb Hwf Hlast Hn Hrun; [lia|].
  cbn [forecast_loop] in Hrun.
  apply bind_Ok_inv in Hrun as ([b1 acc1] & h1 & Hit & Hrest).
  pose proof (forecast_iteration_Ok_bound _ _ _ _ _ _ _ Hb Hwf Hlast Hit) as Hbound.
  destruct (forecast_iteration_Ok_inv _ _ _ _ _ _ _ Hb Hwf Hit)
    as (ts' & p & l1 & Hlast' & _ & _ & _ & _ & Hb1).
  assert (ts' = ts) as -> by congruence.
  assert (index d <> []) as Hne by (intros Hnil; rewrite Hnil in Hlast; discriminate).
  destruct n as [|n]; [lia|].
  pose proof (IH _ _ _ _ _ _ (ts + HOUR)%Z Hb1 (wf_append_row d _ p Hwf Hne)
                (last_index_append_row d _ p) ltac:(lia) Hrest).
  lia.
Qed.

(** With models that answer on the windows of its iterations, the
    channels, a row and its timestamps in bounds, the loop returns. *)
Lemma forecast_loop_succeeds (rows : nat -> Prop) (n : nat) :
  forall (h : heap) (base_data : loc) (acc : list ForecastEntry) (d : DataFrame)
         (ts : Timestamp),
    h !! base_data = Some d ->
    wf d ->
    models_answer rows G ->
    (forall k, k < n -> rows (min N_LOOKBACK (nrows d + k))) ->
    has_channels d -> last (index d) = Some ts ->
    (Timestamp_min <= ts)%Z -> (ts + Z.of_nat n * HOUR <= Timestamp_max)%Z ->
    exists st' h', forecast_loop G unloaded n (base_data, acc) h = (Ok st', h').
Proof.
  induction n as [|n IH]; intros h b acc d ts Hb Hwf HM HR HC Hlast Hlo Hhi.
  - cbn [forecast_loop]. eexists _, _. reflexivity.
  - cbn [forecast_loop].
    assert (0 < HOUR)%Z as HH by reflexivity.
    assert (index d <> []) as HN
      by (intros Hnil; rewrite Hnil in Hlast; discriminate).
    destruct (forecast_iteration_succeeds rows h b acc d ts Hb Hwf HM) as ([b1 acc1] & h1 & Hit).
    { specialize (HR 0 ltac:(lia)). rewrite Nat.add_0_r in HR. exact HR. }
    { exact HC. }
    { exact Hlast. }
    { nia. }
    destruct (forecast_iteration_Ok_inv _ _ _ _ _ _ _ Hb Hwf Hit)
      as (ts' & p & l1 & Hlast' & _ & _ & _ & _ & Hb1).
    assert (ts' = ts) as -> by congruence.
    rewrite (run_bind_Ok _ _ _ _ _ Hit).
    apply (IH h1 b1 acc1 (append_row d (ts + HOUR)%Z p) (ts + HOUR)%Z Hb1).
    + apply wf_append_row; assumption.
    + exact HM.
    + intros k Hk. rewrite nrows_append_row.
      replace (S (nrows d) + k) with (nrows d + S k) by lia. apply HR. lia.
    + apply has_channels_append_row, HC.
    + apply last_index_append_row.
    + lia.
    + nia.
Qed.
End Iteration.

(** ** Forecasts and rolled tables *)

Lemma length_forecast_of (ps : list cell) :
  forall ts, length (forecast_of ts ps) = length ps.
Proof. induction ps as [|p ps IH]; intros ts; simpl; [reflexivity | rewrite IH; reflexivity]. Qed.

Lemma lookup_forecast_of (ps : list cell) :
  forall ts i,
    forecast_of ts ps !! i
    = (fun p => {| timestamp := (ts + (Z.of_nat i + 1) * HOUR)%Z;
                   predicted_power := p |}) <$> ps !! i.
Proof.
  induction ps as [|p ps IH]; intros ts i; [reflexivity|].
  destruct i as [|i]; cbn [forecast_of].
  - reflexivity.
  - change ((?x :: ?l) !! S i) with (l !! i). rewrite IH.
    destruct (ps !! i); [|reflexivity].
    cbn [fmap option_fmap option_map]. do 2 f_equal; unfold HOUR; lia.
Qed.

Section Rolled.

Lemma rolled_facts (ps : list cell) :
  forall (d : DataFrame) (ts : Timestamp),
    wf d -> index d <> [] ->
    wf (rolled d ts ps) /\
    nrows (rolled d ts ps) = nrows d + length ps /\
    columns (rolled d ts ps) = columns d /\
    (forall c i, i < nrows d -> cell_at (rolled d ts ps) c i = cell_at d c i).
Proof.
  induction ps as [|p ps IH]; intros d ts Hwf Hne; cbn [rolled length].
  - rewrite Nat.add_0_r. auto.
  - assert (index (append_row d (ts + HOUR)%Z p) <> []) as Hne'.
    { unfold append_row. cbn [index]. intros Hnil.
      apply app_eq_nil in Hnil as [_ Hnil]. discriminate. }
    destruct (IH _ (ts + HOUR)%Z (wf_append_row d (ts + HOUR)%Z p Hwf Hne) Hne')
      as (Hwf' & Hn & Hcols & Hold).
    split; [exact Hwf'|]. split; [rewrite Hn, nrows_append_row; lia|].
    split; [rewrite Hcols; apply columns_append_row|].
    intros c i Hi. rewrite Hold by (rewrite nrows_append_row; lia).
    apply cell_at_append_row_old; assumption.
Qed.

(** Every synthesized row repeats the last row of the table the rollout
    started from, in every channel but the target. *)
Lemma rolled_carries (ps : list cell) :
  forall (d : DataFrame) (ts : Timestamp) (c : string) (i : nat),
    wf d -> index d <> [] ->
    c ∈ columns d -> c <> TARGET_COLUMN ->
    nrows d <= i < nrows d + length ps ->
    cell_at (rolled d ts ps) c i = cell_at d c (nrows d - 1).
Proof.
  induction ps as [|p ps IH]; intros d ts c i Hwf Hne Hc Hneq Hi; cbn [rolled length] in *.
  - lia.
  - set (d1 := append_row d (ts + HOUR)%Z p).
    assert (index d1 <> []) as Hne1.
    { unfold d1, append_row. cbn [index]. intros Hnil.
      apply app_eq_nil in Hnil as [_ Hnil]. discriminate. }
    pose proof (wf_append_row d (ts + HOUR)%Z p Hwf Hne) as Hwf1. fold d1 in Hwf1.
    pose proof (nrows_append_row d (ts + HOUR)%Z p) as Hn1. fold d1 in Hn1.
    destruct (cell_at_append_row_other d (ts + HOUR)%Z p c Hwf Hne Hneq Hc) as [Hnew _].
    fold d1 in Hnew.
    destruct (decide (i = nrows d)) as [->|Hlater].
    + destruct (rolled_facts ps d1 (ts + HOUR)%Z Hwf1 Hne1) as (_ & _ & _ & Hold).
      rewrite Hold by lia. exact Hnew.
    + rewrite (IH d1 (ts + HOUR)%Z c i Hwf1 Hne1).
      * rewrite Hn1. replace (S (nrows d) - 1) with (nrows d) by lia. exact Hnew.
      * unfold d1. rewrite columns_append_row. exact Hc.
      * exact Hneq.
      * lia.
Qed.
End Rolled.

(** ** The rollout as a whole *)

Section RolloutLemmas.
Variables (G : Models) (unloaded : string -> string -> exn).

Lemma run_rollout_prefix (h : heap) (fd : loc) (d : DataFrame) (k : nat) :
  h !! fd = Some d ->
  rollout_prefix G unloaded fd k h
  = forecast_loop G unloaded k (length h + 1, [])
      (h ++ [tail_rows 96 d; tail_rows 96 d]).
Proof.
  intros Hfd. unfold rollout_prefix.
  step run_df_iloc_tail. step run_df_copy. reflexivity.
Qed.

Lemma rollout_prefix_Ok_inv (h hk : heap) (fd : loc) (k : nat)
    (st : loc * list ForecastEntry) :
  rollout_prefix G unloaded fd k h = (Ok st, hk) ->
  exists d, h !! fd = Some d.
Proof.
  intros Hrun. unfold rollout_prefix in Hrun.
  apply bind_Ok_inv in Hrun as (a & h1 & Htail & _).
  unfold df_iloc_tail in Htail. apply bind_Ok_inv in Htail as (d & h2 & Hd & _).
  unfold deref in Hd. destruct (h !! fd) as [d'|]; [eauto | discriminate].
Qed.

Lemma run_forecast_body (h : heap) (fd : loc) :
  forecast_body G unloaded fd h
  = match rollout_prefix G unloaded fd 24 h with
    | (Ok st, h') => (Ok {| payload := Forecast (snd st); status := 200 |}, h')
    | (Raise e, h') => (Raise e, h')
    end.
Proof.
  unfold forecast_body, rollout_prefix. rewrite !run_bind.
  destruct (df_iloc_tail 96 fd h) as [[a|e] h1]; [|reflexivity].
  rewrite !run_bind. destruct (df_copy a h1) as [[b|e] h2]; [|reflexivity].
  rewrite run_bind.
  destruct (forecast_loop G unloaded 24 (b, []) h2) as [[st|e] h3]; reflexivity.
Qed.

Lemma forecast_loop_add (k m : nat) :
  forall st h,
    forecast_loop G unloaded (k + m) st h
    = (forecast_loop G unloaded k st ≫= forecast_loop G unloaded m) h.
Proof.
  induction k as [|k IH]; intros st h; [reflexivity|].
  cbn [Nat.add forecast_loop]. rewrite !run_bind.
  destruct (forecast_iteration G unloaded st h) as [[st1|e] h1]; [|reflexivity].
  rewrite IH, run_bind. reflexivity.
Qed.

(** A failure in the iteration after the [k]-th, [k < 24], is the
    outcome of the whole rollout. *)
Lemma rollout_prefix_failure (h hk hk' : heap) (fd : loc) (k : nat)
    (st : loc * list ForecastEntry) (e : exn) :
  k < 24 ->
  rollout_prefix G unloaded fd k h = (Ok st, hk) ->
  forecast_iteration G unloaded st hk = (Raise e, hk') ->
  rollout_prefix G unloaded fd 24 h = (Raise e, hk').
Proof.
  intros Hk Hrun Hfail. unfold rollout_prefix in *.
  apply bind_Ok_inv in Hrun as (a & h1 & Htail & Hrun).
  apply bind_Ok_inv in Hrun as (b & h2 & Hcopy & Hrun).
  rewrite (run_bind_Ok _ _ _ _ _ Htail), (run_bind_Ok _ _ _ _ _ Hcopy).
  replace 24 with (k + S (23 - k)) by lia.
  rewrite forecast_loop_add, (run_bind_Ok _ _ _ _ _ Hrun).
  cbn [forecast_loop]. apply run_bind_Raise, Hfail.
Qed.

(** An iteration that returns has added one result. *)
Lemma forecast_iteration_appends (h h' : heap) (st st' : loc * list ForecastEntry) :
  forecast_iteration G unloaded st h = (Ok st', h') ->
  exists e, snd st' = snd st ++ [e].
Proof.
  destruct st as [b acc]. unfold forecast_iteration. intros H.
  repeat (apply bind_Ok_inv in H as (? & ? & _ & H); cbv beta zeta in H).
  injection H as <- _. eauto.
Qed.

Lemma forecast_loop_length (n : nat) :
  forall (h h' : heap) (st st' : loc * list ForecastEntry),
    forecast_loop G unloaded n st h = (Ok st', h') ->
    length (snd st') = length (snd st) + n.
Proof.
  induction n as [|n IH]; intros h h' st st' Hrun.
  - injection Hrun as <- _. lia.
  - cbn [forecast_loop] in Hrun.
    apply bind_Ok_inv in Hrun as (st1 & h1 & Hit & Hrest).
    apply forecast_iteration_appends in Hit as [e He].
    rewrite (IH _ _ _ _ Hrest), He, length_app. simpl. lia.
Qed.

(** A returned forecast holds the results of all 24 iterations. *)
Lemma forecast_body_complete (h h' : heap) (fd : loc) (r : response) :
  forecast_body G unloaded fd h = (Ok r, h') ->
  exists res, r = {| payload := Forecast res; status := 200 |} /\ length res = 24.
Proof.
  rewrite run_forecast_body.
  destruct (rollout_prefix G unloaded fd 24 h) as [[st|e] h1] eqn:Hrun; [|discriminate].
  intros [= <- <-]. exists (snd st). split; [reflexivity|].
  unfold rollout_prefix in Hrun.
  apply bind_Ok_inv in Hrun as (a & h2 & _ & Hrun).
  apply bind_Ok_inv in Hrun as (b & h3 & _ & Hrun).
  apply forecast_loop_length in Hrun. exact Hrun.
Qed.
End RolloutLemmas.

Section RolloutState.
Variables (G : Models) (unloaded : string -> string -> exn).

(** The rolling state after [k] iterations of a rollout that got that
    far: the trailing slice of the history with [k] synthesized rows, and
    [k] results.  A rollout on a table without rows gets nowhere. *)
Lemma rollout_prefix_state (h hk : heap) (fd : loc) (d : DataFrame) (k : nat)
    (st : loc * list ForecastEntry) :
  h !! fd = Some d ->
  wf d ->
  rollout_prefix G unloaded fd k h = (Ok st, hk) ->
  exists ps l,
    length ps = k /\
    hk = h ++ l /\
    (k = 0 \/ index d <> []) /\
    snd st = forecast_of (default 0%Z (last (index d))) ps /\
    hk !! fst st = Some (rolled (tail_rows 96 d) (default 0%Z (last (index d))) ps) /\
    wf (rolled (tail_rows 96 d) (default 0%Z (last (index d))) ps) /\
    nrows (rolled (tail_rows 96 d) (default 0%Z (last (index d))) ps)
    = nrows (tail_rows 96 d) + k /\
    columns (rolled (tail_rows 96 d) (default 0%Z (last (index d))) ps) = columns d.
Proof.
  intros Hfd Hwf Hrun. rewrite (run_rollout_prefix G unloaded h fd d k Hfd) in Hrun.
  pose proof (wf_tail_rows 96 d Hwf) as HwfT.
  assert ((h ++ [tail_rows 96 d; tail_rows 96 d]) !! (length h + 1)
          = Some (tail_rows 96 d)) as Hbase
    by (rewrite lookup_extension; reflexivity).
  destruct st as [b acc].
  destruct (last (index d)) as [ts|] eqn:Hlast.
  - assert (index d <> []) as Hne
      by (intros Hnil; rewrite Hnil in Hlast; discriminate).
    assert (last (index (tail_rows 96 d)) = Some ts) as HlastT
      by (rewrite last_index_tail_rows by lia; exact Hlast).
    destruct (forecast_loop_Ok_inv G unloaded k _ _ _ _ _ _ _ ts Hbase HwfT HlastT Hrun)
      as (ps & l & Hlen & Hacc & -> & Hb).
    exists ps, ([tail_rows 96 d; tail_rows 96 d] ++ l). cbn [fst snd].
    change (default 0%Z (Some ts)) with ts.
    split; [exact Hlen|]. split; [symmetry; apply app_assoc|].
    split; [right; exact Hne|]. split; [exact Hacc|]. split; [exact Hb|].
    destruct (rolled_facts ps (tail_rows 96 d) ts HwfT) as (Hwfk & Hn & Hcols & _).
    { apply index_nonempty_tail_rows; [lia | exact Hne]. }
    split; [exact Hwfk|]. split; [rewrite Hn, Hlen; reflexivity|].
    rewrite Hcols. apply columns_tail_rows.
  - destruct k as [|k].
    + injection Hrun as <- <- <-. exists [], [tail_rows 96 d; tail_rows 96 d].
      cbn [fst snd rolled forecast_of length]. rewrite Nat.add_0_r.
      pose proof (columns_tail_rows 96 d). auto 12.
    + cbn [forecast_loop] in Hrun.
      apply bind_Ok_inv in Hrun as ([b1 acc1] & h1 & Hit & _).
      destruct (forecast_iteration_Ok_inv G unloaded _ _ _ _ _ _ _ Hbase HwfT Hit)
        as (ts & _ & _ & HlastT & _).
      rewrite last_index_tail_rows in HlastT by lia. congruence.
Qed.

(** What a returned forecast looks like. *)
Lemma forecast_body_results (h h' : heap) (fd : loc) (d : DataFrame) (r : response) :
  h !! fd = Some d ->
  wf d ->
  forecast_body G unloaded fd h = (Ok r, h') ->
  exists ts ps,
    last (index d) = Some ts /\ length ps = 24 /\
    r = {| payload := Forecast (forecast_of ts ps); status := 200 |}.
Proof.
  intros Hfd Hwf. rewrite run_forecast_body.
  destruct (rollout_prefix G unloaded fd 24 h) as [[st|e] h1] eqn:Hrun; [|discriminate].
  intros [= <- <-].
  destruct (rollout_prefix_state _ _ _ _ _ _ Hfd Hwf Hrun)
    as (ps & l & Hlen & _ & [Hk|Hne] & Hacc & _); [discriminate|].
  destruct (last (index d)) as [ts|] eqn:Hlast.
  - exists ts, ps. rewrite Hacc. auto.
  - apply last_None in Hlast. contradiction.
Qed.

(** A forecast was returned only with 24 more hours in bounds. *)
Lemma forecast_body_Ok_bound (h h' : heap) (fd : loc) (d : DataFrame)
    (r : response) (ts : Timestamp) :
  h !! fd = Some d ->
  wf d ->
  last (index d) = Some ts ->
  forecast_body G unloaded fd h = (Ok r, h') ->
  (ts + 24 * HOUR <= Timestamp_max)%Z.
Proof.
  intros Hfd Hwf Hlast. rewrite run_forecast_body.
  rewrite (run_rollout_prefix G unloaded h fd d 24 Hfd).
  destruct (forecast_loop G unloaded 24 (length h + 1, [])
              (h ++ [tail_rows 96 d; tail_rows 96 d])) as [[st|e] h1] eqn:Hrun;
    [|discriminate].
  intros _.
  apply (forecast_loop_Ok_bound G unloaded 24 _ _ _ _ _ (tail_rows 96 d) ts) in Hrun.
  - exact Hrun.
  - rewrite lookup_extension. reflexivity.
  - apply wf_tail_rows, Hwf.
  - rewrite last_index_tail_rows by lia. exact Hlast.
  - lia.
Qed.

(** With models that answer on the windows of the rollout, the channels,
    a row and 24 more hours in bounds, the [try] block returns a
    forecast. *)
Lemma forecast_body_succeeds (h : heap) (fd : loc) (d : DataFrame) (ts : Timestamp) :
  h !! fd = Some d ->
  wf d ->
  models_answer (rollout_windows (nrows d)) G -> has_channels d ->
  last (index d) = Some ts ->
  (Timestamp_min <= ts)%Z -> (ts + 24 * HOUR <= Timestamp_max)%Z ->
  exists r h', forecast_body G unloaded fd h = (Ok r, h').
Proof.
  intros Hfd Hwf HM HC Hlast Hlo Hhi. rewrite run_forecast_body.
  rewrite (run_rollout_prefix G unloaded h fd d 24 Hfd).
  destruct (forecast_loop_succeeds G unloaded (rollout_windows (nrows d)) 24
              (h ++ [tail_rows 96 d; tail_rows 96 d]) (length h + 1) []
              (tail_rows 96 d) ts) as (st & h' & ->).
  - rewrite lookup_extension. reflexivity.
  - apply wf_tail_rows, Hwf.
  - exact HM.
  - intros k Hk. exists k. split; [exact Hk|]. unfold window_rows.
    unfold nrows, tail_rows. cbn [index]. rewrite length_slice_tail by lia.
    reflexivity.
  - apply has_channels_tail_rows, HC.
  - rewrite last_index_tail_rows by lia. exact Hlast.
  - exact Hlo.
  - exact Hhi.
  - eauto.
Qed.
End RolloutState.

(** The timestamps of a forecast: hourly from one hour after [ts]. *)
Lemma forecast_of_timestamps (ts : Timestamp) (ps : list cell) :
  length (forecast_of ts ps) = length ps /\
  (forall i, i < length ps ->
     timestamp <$> forecast_of ts ps !! i = Some (ts + (Z.of_nat i + 1) * HOUR)%Z) /\
  (forall i e1 e2,
     forecast_of ts ps !! i = Some e1 ->
     forecast_of ts ps !! S i = Some e2 ->
     timestamp e2 = (timestamp e1 + HOUR)%Z /\ (timestamp e1 < timestamp e2)%Z).
Proof.
  split; [apply length_forecast_of|]. split.
  - intros i Hi. rewrite lookup_forecast_of.
    destruct (lookup_lt_is_Some_2 ps i Hi) as [p ->]. reflexivity.
  - intros i e1 e2. rewrite !lookup_forecast_of.
    destruct (ps !! i) as [p1|]; [|discriminate].
    destruct (ps !! S i) as [p2|]; [|discriminate].
    intros [= <-] [= <-]. cbn [timestamp]. unfold HOUR. lia.
Qed.

(** ** The sample data *)

Lemma wf_sample_history : wf sample_history.
Proof.
  split.
  - unfold columns, sample_history. cbn [cols map fst].
    repeat (apply NoDup_cons; split;
            [intros Hin; repeat (apply elem_of_cons in Hin as [Heq|Hin];
                                 [discriminate Heq|]); inversion Hin|]).
    apply NoDup_nil. exact I.
  - unfold sample_history, nrows. cbn [cols index]. repeat constructor.
Qed.

Lemma has_channels_sample_history : has_channels sample_history.
Proof.
  intros c Hc. unfold FEATURES_LSTM in Hc.
  repeat (apply elem_of_cons in Hc as [->|Hc]; [vm_compute; eauto|]).
  inversion Hc.
Qed.

Lemma models_answer_sample_models (rows : nat -> Prop) :
  models_answer rows sample_models.
Proof.
  unfold models_answer, sample_models.
  cbn [model_xgb model_lstm model_fusion scaler_x scaler_y].
  split; [|split].
  - eexists. split; [reflexivity|]. intros. eauto.
  - eexists _, _, _. do 3 (split; [reflexivity|]). intros W _ _ _.
    eexists _, _, _, _, _. split; [reflexivity|]. split; reflexivity.
  - eexists. split; [reflexivity|]. intros. eauto.
Qed.

(** The regressor of fixed input shape answers on full windows, and so
    on a rollout over a history of at least [N_LOOKBACK] rows. *)
Lemma models_answer_fixed_shape_models (n : nat) :
  N_LOOKBACK <= n -> models_answer (rollout_windows n) fixed_shape_models.
Proof.
  intros Hn. unfold models_answer, fixed_shape_models, sample_models.
  cbn [model_xgb model_lstm model_fusion scaler_x scaler_y].
  split; [|split].
  - eexists. split; [reflexivity|]. intros. eauto.
  - eexists _, _, _. do 3 (split; [reflexivity|]). intros W [_ Hlen] _ (k & Hk & Hrows).
    assert (nrows W = N_LOOKBACK) as Hfull
      by (rewrite Hrows; unfold window_rows, N_LOOKBACK in *; lia).
    eexists _, _, _, _, _. split; [reflexivity|].
    cbn [forallb]. rewrite andb_true_r.
    assert (forallb (fun channel : Series => length channel =? N_LOOKBACK)
                    (map snd (cols W)) = true) as ->.
    { apply forallb_forall. intros ch Hch.
      apply in_map_iff in Hch as (cs & <- & Hcs).
      rewrite Forall_forall in Hlen. apply list_elem_of_In in Hcs.
      rewrite (Hlen cs Hcs), Hfull. apply Nat.eqb_refl. }
    split; reflexivity.
  - eexists. split; [reflexivity|]. intros. eauto.
Qed.

Lemma wf_long_history : wf long_history.
Proof.
  split.
  - unfold columns, long_history. cbn [cols]. rewrite map_map. cbn [fst].
    rewrite map_id. apply NoDup_FEATURES_LSTM.
  - unfold long_history, nrows. cbn [cols index]. repeat constructor.
Qed.

Lemma has_channels_long_history : has_channels long_history.
Proof.
  intros c Hc. unfold FEATURES_LSTM in Hc.
  repeat (apply elem_of_cons in Hc as [->|Hc];
          [unfold long_history, FEATURES_LSTM; cbn [cols map lookup_col String.eqb];
           simpl; eauto|]).
  inversion Hc.
Qed.

(** ** The two servers *)

Lemma forecast_results_try (G : Models) (unloaded : string -> string -> exn)
    (h : heap) (fd : loc) (res : list ForecastEntry) :
  forecast_results (try_except (forecast_body G unloaded fd) forecast_handler h) = Some res ->
  exists r h', forecast_body G unloaded fd h = (Ok r, h') /\ payload r = Forecast res.
Proof.
  unfold forecast_results, try_except.
  destruct (forecast_body G unloaded fd h) as [[r|e] h']; cbn [fst].
  - destruct r as [[res'|msg|al] st]; intros [= <-]. eauto.
  - discriminate.
Qed.

Lemma forecast_results_App (G : Models) (h : heap) (full_data : option loc)
    (res : list ForecastEntry) :
  forecast_results (App.get_hourly_forecast full_data G h) = Some res ->
  exists fd r h',
    full_data = Some fd /\
    forecast_body G App.unloaded fd h = (Ok r, h') /\ payload r = Forecast res.
Proof.
  unfold App.get_hourly_forecast. destruct full_data as [fd|]; [|discriminate].
  intros (r & h' & Hrun & Hres)%forecast_results_try. eauto 6.
Qed.

Lemma forecast_results_AppEnhanced (G : Models) (h : heap) (full_data : option loc)
    (res : list ForecastEntry) :
  forecast_results (AppEnhanced.get_hourly_forecast full_data G h) = Some res ->
  exists fd r h',
    full_data = Some fd /\
    forecast_body G AppEnhanced.unloaded fd h = (Ok r, h') /\ payload r = Forecast res.
Proof.
  unfold AppEnhanced.get_hourly_forecast.
  destruct full_data as [fd|], (model_xgb G), (model_lstm G), (model_fusion G);
    try discriminate.
  intros (resp & h' & Hrun & Hres)%forecast_results_try. eauto 6.
Qed.

(** C1, as the code has it.  For every historical table with at least
    one row: whenever the hourly forecast operation returns a forecast,
    in either server, it holds exactly 24 results whose timestamps are
    one hour apart and strictly increasing, the first an hour after the
    last historical timestamp, and the last no later than
    [pd.Timestamp.max]; and it does return one when the table carries
    the configured channels, the models answer on the inputs the rollout
    gives them (one-row feature frames, and windows of the sizes of its
    24 iterations) and the 24 hours after the last historical timestamp
    are within the bounds of a timestamp.  (Otherwise a step of the
    rollout may raise, and the response is an error.) *)
Theorem hourly_forecast_24_results (G : Models) (h : heap) (fd : loc) (d : DataFrame) :
  h !! fd = Some d ->
  wf d ->
  index d <> [] ->
  exists ts,
    last (index d) = Some ts /\
    (forall res,
       forecast_results (App.get_hourly_forecast (Some fd) G h) = Some res \/
       forecast_results (AppEnhanced.get_hourly_forecast (Some fd) G h) = Some res ->
       length res = 24 /\
       (forall i, i < 24 ->
          timestamp <$> res !! i = Some (ts + (Z.of_nat i + 1) * HOUR)%Z) /\
       (forall i e1 e2,
          res !! i = Some e1 -> res !! S i = Some e2 ->
          timestamp e2 = (timestamp e1 + HOUR)%Z /\ (timestamp e1 < timestamp e2)%Z) /\
       (ts + 24 * HOUR <= Timestamp_max)%Z) /\
    (has_channels d -> models_answer (rollout_windows (nrows d)) G ->
     (Timestamp_min <= ts)%Z -> (ts + 24 * HOUR <= Timestamp_max)%Z ->
     (exists res,
        fst (App.get_hourly_forecast (Some fd) G h)
        = Ok {| payload := Forecast res; status := 200 |}) /\
     (exists res,
        fst (AppEnhanced.get_hourly_forecast (Some fd) G h)
        = Ok {| payload := Forecast res; status := 200 |})).
Proof.
  intros Hfd Hwf Hne.
  destruct (last (index d)) as [ts|] eqn:Hlast;
    [|apply last_None in Hlast; contradiction].
  exists ts. split; [reflexivity|]. split.
  - intros res Hres.
    assert (exists unloaded r h',
              forecast_body G unloaded fd h = (Ok r, h') /\ payload r = Forecast res)
      as (unloaded & r & h' & Hrun & Hpay).
    { destruct Hres as [Hres|Hres].
      - apply forecast_results_App in Hres as (fd' & r & h' & [= <-] & Hrun & Hpay).
        eauto.
      - apply forecast_results_AppEnhanced in Hres as (fd' & r & h' & [= <-] & Hrun & Hpay).
        eauto. }
    pose proof (forecast_body_Ok_bound G unloaded h h' fd d r ts Hfd Hwf Hlast Hrun)
      as Hbound.
    destruct (forecast_body_results G unloaded h h' fd d r Hfd Hwf Hrun)
      as (ts' & ps & Hlast' & Hlen & ->).
    cbn [payload] in Hpay. injection Hpay as <-.
    assert (ts' = ts) as -> by congruence.
    destruct (forecast_of_timestamps ts ps) as (Hl & Hts & Hstep).
    rewrite Hlen in *. auto.
  - intros HC HM Hlo Hhi.
    destruct (forecast_body_succeeds G App.unloaded h fd d ts Hfd Hwf HM HC Hlast Hlo Hhi)
      as (r1 & h1 & Hrun1).
    destruct (forecast_body_succeeds G AppEnhanced.unloaded h fd d ts
                Hfd Hwf HM HC Hlast Hlo Hhi)
      as (r2 & h2 & Hrun2).
    destruct (forecast_body_complete _ _ _ _ _ _ Hrun1) as (res1 & -> & _).
    destruct (forecast_body_complete _ _ _ _ _ _ Hrun2) as (res2 & -> & _).
    split.
    + exists res1. unfold App.get_hourly_forecast, try_except. rewrite Hrun1. reflexivity.
    + exists res2. unfold AppEnhanced.get_hourly_forecast.
      destruct HM as ((fx & -> & _) & (fsx & fl & fsy & _ & -> & _) & (ff & -> & _)).
      unfold try_except. rewrite Hrun2. reflexivity.
Qed.

Lemma hourly_forecast_24_results_witness :
  exists ts,
    last (index sample_history) = Some ts /\
    (forall res,
       forecast_results (App.get_hourly_forecast (Some 0) sample_models [sample_history])
       = Some res \/
       forecast_results (AppEnhanced.get_hourly_forecast (Some 0) sample_models [sample_history])
       = Some res ->
       length res = 24 /\
       (forall i, i < 24 ->
          timestamp <$> res !! i = Some (ts + (Z.of_nat i + 1) * HOUR)%Z) /\
       (forall i e1 e2,
          res !! i = Some e1 -> res !! S i = Some e2 ->
          timestamp e2 = (timestamp e1 + HOUR)%Z /\ (timestamp e1 < timestamp e2)%Z) /\
       (ts + 24 * HOUR <= Timestamp_max)%Z) /\
    (has_channels sample_history ->
     models_answer (rollout_windows (nrows sample_history)) sample_models ->
     (Timestamp_min <= ts)%Z -> (ts + 24 * HOUR <= Timestamp_max)%Z ->
     (exists res,
        fst (App.get_hourly_forecast (Some 0) sample_models [sample_history])
        = Ok {| payload := Forecast res; status := 200 |}) /\
     (exists res,
        fst (AppEnhanced.get_hourly_forecast (Some 0) sample_models [sample_history])
        = Ok {| payload := Forecast res; status := 200 |})).
Proof.
  apply (hourly_forecast_24_results sample_models [sample_history] 0 sample_history).
  - reflexivity.
  - exact wf_sample_history.
  - simpl. discriminate.
Defined.

(** The regressor of fixed input shape, which rejects the windows of the
    4-row sample, answers on a history of [N_LOOKBACK] rows: both servers
    return a forecast. *)
Example fixed_shape_models_long_history :
  (exists res,
     fst (App.get_hourly_forecast (Some 0) fixed_shape_models [long_history])
     = Ok {| payload := Forecast res; status := 200 |}) /\
  (exists res,
     fst (AppEnhanced.get_hourly_forecast (Some 0) fixed_shape_models [long_history])
     = Ok {| payload := Forecast res; status := 200 |}).
Proof.
  assert (forall unloaded,
            exists res h',
              forecast_body fixed_shape_models unloaded 0 [long_history]
              = (Ok {| payload := Forecast res; status := 200 |}, h')) as Hbody.
  { intros unloaded.
    destruct (forecast_body_succeeds fixed_shape_models unloaded [long_history] 0
                long_history (sample_start + 71 * HOUR)%Z) as (r & h' & Hrun).
    - reflexivity.
    - exact wf_long_history.
    - apply models_answer_fixed_shape_models. unfold nrows, long_history.
      cbn [index]. rewrite length_map, length_seq. lia.
    - exact has_channels_long_history.
    - reflexivity.
    - vm_compute. discriminate.
    - vm_compute. discriminate.
    - destruct (forecast_body_complete _ _ _ _ _ _ Hrun) as (res & -> & _). eauto. }
  split.
  - destruct (Hbody App.unloaded) as (res & h' & Hrun). exists res.
    unfold App.get_hourly_forecast, try_except. rewrite Hrun. reflexivity.
  - destruct (Hbody AppEnhanced.unloaded) as (res & h' & Hrun). exists res.
    unfold AppEnhanced.get_hourly_forecast, fixed_shape_models, sample_models.
    cbn [model_xgb model_lstm model_fusion]. unfold try_except.
    change (forecast_body _ AppEnhanced.unloaded 0 [long_history])
      with (forecast_body fixed_shape_models AppEnhanced.unloaded 0 [long_history]).
    rewrite Hrun. reflexivity.
Qed.

(** C1, as the claim states it, fails: a table with at least one row does
    not always get 24 results.  On the 4-row sample a sequence regressor
    of fixed input shape rejects the short window; on a one-row table
    without the target channel the feature deriver raises [KeyError];
    and on the sample moved to end at 2262-04-11 23:00 the next timestamp
    is past [pd.Timestamp.max] although every model answers.  In each
    case, in both servers, the response is an error and holds no
    result. *)
Lemma hourly_forecast_counterexample :
  index sample_history <> [] /\
  index sample_without_target <> [] /\
  index sample_late_history <> [] /\
  fst (App.get_hourly_forecast (Some 0) fixed_shape_models [sample_history])
  = Ok {| payload := Error (StrOf (OtherError "incompatible input shape"));
          status := 500 |} /\
  fst (AppEnhanced.get_hourly_forecast (Some 0) fixed_shape_models [sample_history])
  = Ok {| payload := Error (StrOf (OtherError "incompatible input shape"));
          status := 500 |} /\
  fst (App.get_hourly_forecast (Some 0) sample_models [sample_without_target])
  = Ok {| payload := Error (StrOf (KeyError "Phase3_power")); status := 500 |} /\
  fst (AppEnhanced.get_hourly_forecast (Some 0) sample_models [sample_without_target])
  = Ok {| payload := Error (StrOf (KeyError "Phase3_power")); status := 500 |} /\
  fst (App.get_hourly_forecast (Some 0) sample_models [sample_late_history])
  = Ok {| payload := Error (StrOf OutOfBoundsDatetime); status := 500 |} /\
  fst (AppEnhanced.get_hourly_forecast (Some 0) sample_models [sample_late_history])
  = Ok {| payload := Error (StrOf OutOfBoundsDatetime); status := 500 |}.
Proof.
  split; [simpl; discriminate|]. split; [simpl; discriminate|].
  split; [simpl; discriminate|].
  repeat split; vm_compute; reflexivity.
Qed.

(** ** The frame given to the tree regressor *)

Lemma elem_of_columns_assign_all (x : string) (new : list (string * Series)) :
  forall l, x ∈ map fst (assign_all new l) -> x ∈ map fst new \/ x ∈ map fst l.
Proof.
  unfold assign_all. induction new as [|[k v] new IH]; intros l Hx; [right; exact Hx|].
  cbn [foldl fst snd] in Hx. destruct (IH _ Hx) as [Hin|Hin].
  - left. right. exact Hin.
  - apply elem_of_columns_set_col in Hin as [->|Hin]; [left; left | right; exact Hin].
Qed.

Section TreeCall.
Variables (G : Models) (unloaded : string -> string -> exn).

(** An iteration hands the selected last row of the enriched table to the
    tree regressor, and goes on only with a prediction. *)
Lemma forecast_iteration_tree_call (h : heap) (base_data : loc)
    (acc : list ForecastEntry) (d : DataFrame) (s : Series)
    (lc xc : list (string * Series)) (predict : DataFrame -> result (list cell)) :
  h !! base_data = Some d ->
  lookup_col TARGET_COLUMN (cols d) = Some s ->
  select_cols FEATURES_LSTM (cols d) = inr lc ->
  select_cols FEATURES_XGB (cols (tail_rows 1 (enriched d TARGET_COLUMN s))) = inr xc ->
  model_xgb G = Some predict ->
  match predict {| index := index (tail_rows 1 (enriched d TARGET_COLUMN s));
                   cols := xc |} with
  | Raise e => fst (forecast_iteration G unloaded (base_data, acc) h) = Raise e
  | Ok [] => fst (forecast_iteration G unloaded (base_data, acc) h) = Raise IndexError
  | Ok (_ :: _) => True
  end.
Proof.
  intros Hb Hs Hlc Hxc Hxgb. pose proof (lookup_lt_Some _ _ _ Hb) as Hlt.
  unfold forecast_iteration.
  rewrite run_bind, (run_create_features_xgb h base_data d s Hb Hs).
  cbv beta iota zeta.
  set (E := enriched d TARGET_COLUMN s) in *.
  step run_df_iloc_tail.
  rewrite run_bind. erewrite run_lstm_window by find_obj.
  rewrite Hlc. cbv beta iota zeta. norm_heap.
  rewrite run_bind. erewrite run_df_getitem_list by find_obj.
  rewrite Hxc. cbv beta iota zeta. norm_heap.
  rewrite run_bind, Hxgb. cbn [use ret]. cbv beta iota zeta.
  step run_deref.
  rewrite run_bind, run_lift.
  destruct (predict {| index := index (tail_rows 1 E); cols := xc |}) as [[|p ps]|e];
    cbv beta iota zeta; [|exact I|reflexivity].
  rewrite run_bind. reflexivity.
Qed.
End TreeCall.

(** C6, as the code has it.  In an iteration of the rollout on a
    well-formed table with the configured channels, the feature deriver
    computes six calendar fields from the timestamps (hour, dayofweek,
    month, quarter, year, dayofyear), each column the accessor applied to
    the index, and adds no other column but the six lag and rolling
    features; and the frame the tree regressor is called on is the last
    row of the enriched table restricted to the columns of
    [FEATURES_XGB] in that order: the 5 raw channels, the 6 calendar
    fields of the last timestamp, the 6 lag and rolling features, 17 in
    all.  That this frame is the one the regressor is called on shows in
    what the iteration does with any regressor: it raises what the
    regressor raises on the frame, and returns only if the regressor
    gave a prediction for it. *)
Theorem tree_features_six_calendar_fields
    (h : heap) (base_data : loc) (d : DataFrame) (ts : Timestamp) :
  h !! base_data = Some d ->
  wf d ->
  has_channels d ->
  last (index d) = Some ts ->
  exists d' X,
    create_features_xgb base_data TARGET_COLUMN h = (Ok (length h), h ++ [d']) /\
    index d' = index d /\
    (forall c f, (c, f) ∈ calendar_fields ->
       lookup_col c (cols d') = Some (map (fun t => cell_of_Z (f t)) (index d))) /\
    (forall c, c ∈ columns d' ->
       c ∈ columns d \/ c ∈ map fst calendar_fields \/
       c ∈ lag_rolling_features TARGET_COLUMN) /\
    length calendar_fields = 6 /\
    columns X = FEATURES_XGB /\
    columns X
    = raw_channels ++ map fst calendar_fields ++ lag_rolling_features TARGET_COLUMN /\
    length raw_channels = 5 /\
    length (lag_rolling_features TARGET_COLUMN) = 6 /\
    length (columns X) = 17 /\
    index X = [ts] /\
    (forall c, c ∈ FEATURES_XGB ->
       lookup_col c (cols X) = slice_tail 1 <$> lookup_col c (cols d')) /\
    (forall c f, (c, f) ∈ calendar_fields ->
       cell_at X c 0 = Some (cell_of_Z (f ts))) /\
    forall (G : Models) (unloaded : string -> string -> exn)
           (acc : list ForecastEntry) (predict : DataFrame -> result (list cell)),
      model_xgb G = Some predict ->
      (forall e, predict X = Raise e ->
         fst (forecast_iteration G unloaded (base_data, acc) h) = Raise e) /\
      (predict X = Ok [] ->
         fst (forecast_iteration G unloaded (base_data, acc) h) = Raise IndexError) /\
      (forall st h',
         forecast_iteration G unloaded (base_data, acc) h = (Ok st, h') ->
         exists p ps, predict X = Ok (p :: ps)).
Proof.
  intros Hb Hwf HC Hlast.
  destruct (HC TARGET_COLUMN) as [s Hs];
    [unfold FEATURES_LSTM, TARGET_COLUMN; repeat constructor|].
  destruct (select_cols_present _ _ HC) as [lc Hlc].
  set (d' := enriched d TARGET_COLUMN s).
  pose proof (features_xgb_present d s (has_channels_raw d HC)) as Hpresent.
  fold d' in Hpresent.
  destruct (select_cols_present _ _ Hpresent) as [xc Hxc].
  destruct (select_cols_inr _ _ _ Hxc) as [Hnames Hlookup].
  assert (forall c f, (c, f) ∈ calendar_fields ->
            lookup_col c (cols d') = Some (map (fun t => cell_of_Z (f t)) (index d)))
    as Hcal.
  { intros c f Hcf. unfold d', enriched, assign_all, derived_columns.
    cbn [cols foldl fst snd].
    repeat (apply elem_of_cons in Hcf as [[= -> ->]|Hcf];
            [repeat (rewrite lookup_set_col; eval_eqb); reflexivity|]).
    inversion Hcf. }
  assert (forall c, c ∈ FEATURES_XGB ->
            lookup_col c xc = slice_tail 1 <$> lookup_col c (cols d')) as Hrow.
  { intros c Hc. rewrite (Hlookup c Hc). unfold tail_rows. cbn [cols].
    apply lookup_col_map_values. }
  exists d', {| index := index (tail_rows 1 d'); cols := xc |}.
  split; [apply run_create_features_xgb; assumption|].
  split; [reflexivity|]. split; [exact Hcal|].
  split.
  { intros c Hc. unfold columns, d', enriched in Hc. cbn [cols] in Hc.
    apply elem_of_columns_assign_all in Hc as [Hc|Hc]; [|left; exact Hc].
    right. apply elem_of_app. exact Hc. }
  split; [reflexivity|].
  split; [exact Hnames|]. split; [exact Hnames|].
  do 2 (split; [reflexivity|]).
  split; [unfold columns; cbn [cols]; rewrite Hnames; reflexivity|].
  split.
  { unfold tail_rows, d', enriched. cbn [index]. apply slice_tail_1, Hlast. }
  split; [exact Hrow|].
  split.
  { intros c f Hcf. unfold cell_at. cbn [cols].
    rewrite Hrow, (Hcal c f Hcf).
    - cbn [fmap option_fmap option_map mbind option_bind].
      rewrite (slice_tail_1 _ (cell_of_Z (f ts))); [reflexivity|].
      change (map ?g ?l) with (g <$> l). rewrite fmap_last, Hlast. reflexivity.
    - change FEATURES_XGB
        with (raw_channels ++ (map fst calendar_fields
                               ++ lag_rolling_features TARGET_COLUMN)).
      apply elem_of_app. right. apply elem_of_app. left.
      apply list_elem_of_fmap. exists (c, f). split; [reflexivity | exact Hcf]. }
  intros G unloaded acc predict Hxgb.
  pose proof (forecast_iteration_tree_call G unloaded h base_data acc d s lc xc predict
                Hb Hs Hlc Hxc Hxgb) as Hcall.
  fold d' in Hcall.
  split; [|split].
  - intros e He. rewrite He in Hcall. exact Hcall.
  - intros He. rewrite He in Hcall. exact Hcall.
  - intros st h' Hrun.
    destruct (predict {| index := index (tail_rows 1 d'); cols := xc |})
      as [[|p ps]|e]; [| eauto |]; rewrite Hrun in Hcall; discriminate Hcall.
Qed.

Lemma tree_features_six_calendar_fields_witness :
  exists d' X,
    create_features_xgb 0 TARGET_COLUMN [sample_history]
    = (Ok (length [sample_history]), [sample_history] ++ [d']) /\
    index d' = index sample_history /\
    (forall c f, (c, f) ∈ calendar_fields ->
       lookup_col c (cols d')
       = Some (map (fun t => cell_of_Z (f t)) (index sample_history))) /\
    (forall c, c ∈ columns d' ->
       c ∈ columns sample_history \/ c ∈ map fst calendar_fields \/
       c ∈ lag_rolling_features TARGET_COLUMN) /\
    length calendar_fields = 6 /\
    columns X = FEATURES_XGB /\
    columns X
    = raw_channels ++ map fst calendar_fields ++ lag_rolling_features TARGET_COLUMN /\
    length raw_channels = 5 /\
    length (lag_rolling_features TARGET_COLUMN) = 6 /\
    length (columns X) = 17 /\
    index X = [(sample_start + 3 * HOUR)%Z] /\
    (forall c, c ∈ FEATURES_XGB ->
       lookup_col c (cols X) = slice_tail 1 <$> lookup_col c (cols d')) /\
    (forall c f, (c, f) ∈ calendar_fields ->
       cell_at X c 0 = Some (cell_of_Z (f (sample_start + 3 * HOUR)%Z))) /\
    forall (G : Models) (unloaded : string -> string -> exn)
           (acc : list ForecastEntry) (predict : DataFrame -> result (list cell)),
      model_xgb G = Some predict ->
      (forall e, predict X = Raise e ->
         fst (forecast_iteration G unloaded (0, acc) [sample_history]) = Raise e) /\
      (predict X = Ok [] ->
         fst (forecast_iteration G unloaded (0, acc) [sample_history]) = Raise IndexError) /\
      (forall st h',
         forecast_iteration G unloaded (0, acc) [sample_history] = (Ok st, h') ->
         exists p ps, predict X = Ok (p :: ps)).
Proof.
  apply (tree_features_six_calendar_fields [sample_history] 0 sample_history
           (sample_start + 3 * HOUR)%Z).
  - reflexivity.
  - exact wf_sample_history.
  - exact has_channels_sample_history.
  - reflexivity.
Defined.

(** C7.  The rollout is all or nothing.  If an iteration of the rollout
    raises (in the feature derivation, the window extraction, a regressor
    or a scaler) after [k < 24] iterations succeeded, the response of the
    forecast operation is the error of that failure and carries none of
    the [k] results computed so far; and any forecast either server ever
    returns holds the results of all 24 iterations. *)
Theorem rollout_all_or_nothing
    (G : Models) (unloaded : string -> string -> exn) (h hk hk' : heap) (fd : loc)
    (k : nat) (st : loc * list ForecastEntry) (e : exn) :
  k < 24 ->
  rollout_prefix G unloaded fd k h = (Ok st, hk) ->
  forecast_iteration G unloaded st hk = (Raise e, hk') ->
  try_except (forecast_body G unloaded fd) forecast_handler h
  = (Ok {| payload := Error (StrOf e); status := 500 |}, hk') /\
  (unloaded = App.unloaded ->
   fst (App.get_hourly_forecast (Some fd) G h)
   = Ok {| payload := Error (StrOf e); status := 500 |}) /\
  (unloaded = AppEnhanced.unloaded ->
   exists msg,
     fst (AppEnhanced.get_hourly_forecast (Some fd) G h)
     = Ok {| payload := Error msg; status := 500 |}) /\
  (forall full_data res,
     forecast_results (App.get_hourly_forecast full_data G h) = Some res \/
     forecast_results (AppEnhanced.get_hourly_forecast full_data G h) = Some res ->
     length res = 24).
Proof.
  intros Hk Hrun Hfail.
  assert (try_except (forecast_body G unloaded fd) forecast_handler h
          = (Ok {| payload := Error (StrOf e); status := 500 |}, hk')) as Htry.
  { unfold try_except. rewrite run_forecast_body.
    rewrite (rollout_prefix_failure G unloaded h hk hk' fd k st e Hk Hrun Hfail).
    reflexivity. }
  split; [exact Htry|]. split; [|split].
  - intros ->. unfold App.get_hourly_forecast. rewrite Htry. reflexivity.
  - intros ->. unfold AppEnhanced.get_hourly_forecast.
    destruct (model_xgb G), (model_lstm G), (model_fusion G); eauto.
    rewrite Htry. eauto.
  - intros full_data res [Hres|Hres].
    + apply forecast_results_App in Hres as (fd' & r & h' & _ & Hbody & Hpay).
      destruct (forecast_body_complete _ _ _ _ _ _ Hbody) as (res' & -> & Hlen).
      cbn [payload] in Hpay. congruence.
    + apply forecast_results_AppEnhanced in Hres as (fd' & r & h' & _ & Hbody & Hpay).
      destruct (forecast_body_complete _ _ _ _ _ _ Hbody) as (res' & -> & Hlen).
      cbn [payload] in Hpay. congruence.
Qed.

Lemma rollout_all_or_nothing_witness :
  try_except (forecast_body failing_models App.unloaded 0) forecast_handler [sample_history]
  = (Ok {| payload :=
             Error (StrOf (the_exception
                             (forecast_iteration failing_models App.unloaded
                                (the_state (rollout_prefix failing_models App.unloaded 0 2
                                              [sample_history]))
                                (snd (rollout_prefix failing_models App.unloaded 0 2
                                        [sample_history])))));
           status := 500 |},
     snd (forecast_iteration failing_models App.unloaded
            (the_state (rollout_prefix failing_models App.unloaded 0 2 [sample_history]))
            (snd (rollout_prefix failing_models App.unloaded 0 2 [sample_history])))) /\
  (App.unloaded = App.unloaded ->
   fst (App.get_hourly_forecast (Some 0) failing_models [sample_history])
   = Ok {| payload :=
             Error (StrOf (the_exception
                             (forecast_iteration failing_models App.unloaded
                                (the_state (rollout_prefix failing_models App.unloaded 0 2
                                              [sample_history]))
                                (snd (rollout_prefix failing_models App.unloaded 0 2
                                        [sample_history])))));
           status := 500 |}) /\
  (App.unloaded = AppEnhanced.unloaded ->
   exists msg,
     fst (AppEnhanced.get_hourly_forecast (Some 0) failing_models [sample_history])
     = Ok {| payload := Error msg; status := 500 |}) /\
  (forall full_data res,
     forecast_results (App.get_hourly_forecast full_data failing_models [sample_history])
     = Some res \/
     forecast_results (AppEnhanced.get_hourly_forecast full_data failing_models [sample_history])
     = Some res ->
     length res = 24).
Proof.
  apply (rollout_all_or_nothing failing_models App.unloaded [sample_history]
           (snd (rollout_prefix failing_models App.unloaded 0 2 [sample_history]))
           _ 0 2
           (the_state (rollout_prefix failing_models App.unloaded 0 2 [sample_history]))).
  - lia.
  - vm_compute. reflexivity.
  - vm_compute. reflexivity.
Defined.

(** On the sample the third iteration fails, and the two results of the
    first two iterations are not returned. *)
Example rollout_failure_sample :
  length (snd (the_state (rollout_prefix failing_models App.unloaded 0 2 [sample_history]))) = 2 /\
  fst (App.get_hourly_forecast (Some 0) failing_models [sample_history])
  = Ok {| payload := Error (StrOf (OtherError "numerical failure")); status := 500 |}.
Proof. split; vm_compute; reflexivity. Qed.

(** C2.  Naive persistence, step by step.  Start the rollout on a
    well-formed table and take any iteration of it that returns, after
    any number [k] of iterations.  The rolling table it leaves is the one
    it found with one more row, the synthesized one: its target channel
    holds the fused prediction of that step (the first value the fusion
    regressor returned, which is also the result appended to the
    forecast), and every other channel holds the value of the row just
    before it; the earlier rows are unchanged. *)
Theorem synthesized_row_persistence
    (G : Models) (unloaded : string -> string -> exn) (h hk hk' : heap) (fd : loc)
    (d : DataFrame) (k : nat) (st st' : loc * list ForecastEntry) :
  h !! fd = Some d ->
  wf d ->
  rollout_prefix G unloaded fd k h = (Ok st, hk) ->
  forecast_iteration G unloaded st hk = (Ok st', hk') ->
  exists dk dk' e,
    hk !! fst st = Some dk /\
    hk' !! fst st' = Some dk' /\
    snd st' = snd st ++ [e] /\
    (exists f X ps, model_fusion G = Some f /\
                    columns X = ["xgb_pred"; "lstm_pred"] /\
                    f X = Ok (predicted_power e :: ps)) /\
    nrows dk = nrows (tail_rows 96 d) + k /\
    nrows dk' = S (nrows dk) /\
    columns dk' = columns dk /\
    last (index dk') = Some (timestamp e) /\
    cell_at dk' TARGET_COLUMN (nrows dk) = Some (predicted_power e) /\
    (forall c, c ∈ columns dk -> c <> TARGET_COLUMN ->
       cell_at dk' c (nrows dk) = cell_at dk c (nrows dk - 1) /\
       is_Some (cell_at dk c (nrows dk - 1))) /\
    (forall c i, i < nrows dk -> cell_at dk' c i = cell_at dk c i).
Proof.
  intros Hfd Hwf Hrun Hit.
  destruct (rollout_prefix_state G unloaded h hk fd d k st Hfd Hwf Hrun)
    as (ps & l & Hlen & -> & _ & Hacc & Hst & Hwfk & Hn & _).
  set (dk := rolled (tail_rows 96 d) (default 0%Z (last (index d))) ps) in *.
  destruct st as [b acc], st' as [b' acc']. cbn [fst snd] in *.
  destruct (forecast_iteration_Ok_inv G unloaded _ _ _ _ _ _ _ Hst Hwfk Hit)
    as (ts & p & l' & Hlast & Htarget & Hfusion & -> & -> & Hb').
  assert (index dk <> []) as Hne
    by (intros Hnil; rewrite Hnil in Hlast; discriminate).
  exists dk, (append_row dk (ts + HOUR)%Z p),
         {| timestamp := (ts + HOUR)%Z; predicted_power := p |}.
  cbn [timestamp predicted_power].
  split; [exact Hst|]. split; [exact Hb'|]. split; [reflexivity|].
  split; [exact Hfusion|]. split; [exact Hn|].
  split; [apply nrows_append_row|]. split; [apply columns_append_row|].
  split; [apply last_index_append_row|].
  split; [apply cell_at_append_row_target; assumption|]. split.
  - intros c Hc Hneq. apply cell_at_append_row_other; assumption.
  - intros c i Hi. apply cell_at_append_row_old; assumption.
Qed.

Lemma synthesized_row_persistence_witness :
  exists dk dk' e,
    snd (rollout_prefix sample_models App.unloaded 0 2 [sample_history])
      !! fst (the_state (rollout_prefix sample_models App.unloaded 0 2 [sample_history]))
    = Some dk /\
    snd (rollout_prefix sample_models App.unloaded 0 3 [sample_history])
      !! fst (the_state (rollout_prefix sample_models App.unloaded 0 3 [sample_history]))
    = Some dk' /\
    snd (the_state (rollout_prefix sample_models App.unloaded 0 3 [sample_history]))
    = snd (the_state (rollout_prefix sample_models App.unloaded 0 2 [sample_history]))
      ++ [e] /\
    (exists f X ps, model_fusion sample_models = Some f /\
                    columns X = ["xgb_pred"; "lstm_pred"] /\
                    f X = Ok (predicted_power e :: ps)) /\
    nrows dk = nrows (tail_rows 96 sample_history) + 2 /\
    nrows dk' = S (nrows dk) /\
    columns dk' = columns dk /\
    last (index dk') = Some (timestamp e) /\
    cell_at dk' TARGET_COLUMN (nrows dk) = Some (predicted_power e) /\
    (forall c, c ∈ columns dk -> c <> TARGET_COLUMN ->
       cell_at dk' c (nrows dk) = cell_at dk c (nrows dk - 1) /\
       is_Some (cell_at dk c (nrows dk - 1))) /\
    (forall c i, i < nrows dk -> cell_at dk' c i = cell_at dk c i).
Proof.
  apply (synthesized_row_persistence sample_models App.unloaded [sample_history]
           (snd (rollout_prefix sample_models App.unloaded 0 2 [sample_history]))
           (snd (rollout_prefix sample_models App.unloaded 0 3 [sample_history]))
           0 sample_history 2
           (the_state (rollout_prefix sample_models App.unloaded 0 2 [sample_history]))
           (the_state (rollout_prefix sample_models App.unloaded 0 3 [sample_history]))).
  - reflexivity.
  - exact wf_sample_history.
  - vm_compute. reflexivity.
  - vm_compute. reflexivity.
Defined.

(** C10.  The exogenous channels are constant over the horizon.  After
    any number [k] of iterations of a rollout started on a well-formed
    table, the rolling table is the trailing slice of the history
    followed by [k] synthesized rows, and in every synthesized row every
    channel but the target holds exactly the value of the last row of the
    historical table. *)
Theorem exogenous_channels_constant
    (G : Models) (unloaded : string -> string -> exn) (h hk : heap) (fd : loc)
    (d : DataFrame) (k : nat) (st : loc * list ForecastEntry) :
  h !! fd = Some d ->
  wf d ->
  rollout_prefix G unloaded fd k h = (Ok st, hk) ->
  exists dk,
    hk !! fst st = Some dk /\
    nrows dk = nrows (tail_rows 96 d) + k /\
    columns dk = columns d /\
    (forall c i, i < nrows (tail_rows 96 d) ->
       cell_at dk c i = cell_at (tail_rows 96 d) c i) /\
    (forall c i,
       c ∈ columns d -> c <> TARGET_COLUMN ->
       nrows (tail_rows 96 d) <= i < nrows (tail_rows 96 d) + k ->
       cell_at dk c i = cell_at d c (nrows d - 1)).
Proof.
  intros Hfd Hwf Hrun.
  destruct (rollout_prefix_state G unloaded h hk fd d k st Hfd Hwf Hrun)
    as (ps & l & Hlen & -> & Hk & Hacc & Hst & Hwfk & Hn & Hcols).
  eexists. split; [exact Hst|]. split; [exact Hn|]. split; [exact Hcols|].
  pose proof (wf_tail_rows 96 d Hwf) as HwfT.
  destruct Hk as [->|Hne].
  - destruct ps; [|discriminate]. cbn [rolled]. split; [reflexivity|]. intros; lia.
  - assert (index (tail_rows 96 d) <> []) as HneT
      by (apply index_nonempty_tail_rows; [lia | exact Hne]).
    split.
    + intros c i Hi.
      destruct (rolled_facts ps (tail_rows 96 d) (default 0%Z (last (index d))) HwfT HneT)
        as (_ & _ & _ & Hold).
      apply Hold, Hi.
    + intros c i Hc Hneq Hi.
      rewrite rolled_carries; try assumption.
      * apply cell_at_last_tail_rows; [lia | exact Hwf].
      * rewrite columns_tail_rows. exact Hc.
      * rewrite Hlen. exact Hi.
Qed.

Lemma exogenous_channels_constant_witness :
  exists dk,
    snd (rollout_prefix sample_models App.unloaded 0 24 [sample_history])
      !! fst (the_state (rollout_prefix sample_models App.unloaded 0 24 [sample_history]))
    = Some dk /\
    nrows dk = nrows (tail_rows 96 sample_history) + 24 /\
    columns dk = columns sample_history /\
    (forall c i, i < nrows (tail_rows 96 sample_history) ->
       cell_at dk c i = cell_at (tail_rows 96 sample_history) c i) /\
    (forall c i,
       c ∈ columns sample_history -> c <> TARGET_COLUMN ->
       nrows (tail_rows 96 sample_history) <= i < nrows (tail_rows 96 sample_history) + 24 ->
       cell_at dk c i = cell_at sample_history c (nrows sample_history - 1)).
Proof.
  apply (exogenous_channels_constant sample_models App.unloaded [sample_history]
           (snd (rollout_prefix sample_models App.unloaded 0 24 [sample_history]))
           0 sample_history 24
           (the_state (rollout_prefix sample_models App.unloaded 0 24 [sample_history]))).
  - reflexivity.
  - exact wf_sample_history.
  - vm_compute. reflexivity.
Defined.

(** On the sample, the last synthesized row of the 24 still carries the
    voltage of the last historical row, and the target carries the
    prediction. *)
Example rollout_sample_last_row :
  (dk ← snd (rollout_prefix sample_models App.unloaded 0 24 [sample_history])
         !! fst (the_state (rollout_prefix sample_models App.unloaded 0 24 [sample_history]));
   Some (cell_at dk "Phase3_voltage" 27, cell_at dk TARGET_COLUMN 27, nrows dk))
  = Some (Some (cell_of_Z 233), Some (Some (800 # 2)%Q), 28).
Proof. vm_compute. reflexivity. Qed.

(** * Further properties of the code *)

(** ** Training sequences *)

(** X1.  [create_sequences_lstm] returns [len(x_data) - n_lookback + 1]
    windows, and none at all when the data has fewer rows than the
    lookback. *)
Theorem create_sequences_lstm_count {A} (x_data : list A) (n_lookback : nat) :
  length (create_sequences_lstm x_data n_lookback) = length x_data + 1 - n_lookback /\
  (length x_data < n_lookback -> create_sequences_lstm x_data n_lookback = []).
Proof.
  unfold create_sequences_lstm. split.
  - rewrite length_map, length_seq. reflexivity.
  - intros Hlt. replace (length x_data + 1 - n_lookback) with 0 by lia. reflexivity.
Qed.

(** X2.  The [i]-th window holds exactly [n_lookback] rows, the rows
    [i .. i + n_lookback - 1] of the data in their order; consecutive
    windows are one row apart. *)
Theorem create_sequences_lstm_windows {A} (x_data : list A) (n_lookback i : nat) :
  i + n_lookback <= length x_data ->
  exists w,
    create_sequences_lstm x_data n_lookback !! i = Some w /\
    length w = n_lookback /\
    (forall j, j < n_lookback -> w !! j = x_data !! (i + j)) /\
    (forall w', create_sequences_lstm x_data n_lookback !! S i = Some w' ->
       drop 1 w = take (n_lookback - 1) w').
Proof.
  intros Hi. unfold create_sequences_lstm.
  exists (take n_lookback (drop i x_data)).
  split; [|split; [|split]].
  - rewrite lookup_map, lookup_seq_lt by lia. reflexivity.
  - rewrite length_take, length_drop. lia.
  - intros j Hj. rewrite lookup_take_lt, lookup_drop by exact Hj. reflexivity.
  - intros w'. rewrite lookup_map.
    destruct (seq 0 (length x_data + 1 - n_lookback) !! S i) as [i'|] eqn:Hseq;
      [|discriminate].
    apply lookup_seq in Hseq as [-> Hlt]. intros [= <-]. cbn [Nat.add].
    apply list_eq. intros j.
    rewrite lookup_drop.
    destruct (decide (j < n_lookback - 1)) as [Hj|Hj].
    + rewrite !lookup_take_lt, !lookup_drop by lia. f_equal. lia.
    + rewrite !lookup_take_ge by lia. reflexivity.
Qed.

Lemma create_sequences_lstm_windows_witness :
  exists w,
    create_sequences_lstm [10; 11; 12; 13; 14] 3 !! 1 = Some w /\
    length w = 3 /\
    (forall j, j < 3 -> w !! j = [10; 11; 12; 13; 14] !! (1 + j)) /\
    (forall w', create_sequences_lstm [10; 11; 12; 13; 14] 3 !! 2 = Some w' ->
       drop 1 w = take (3 - 1) w').
Proof.
  apply (create_sequences_lstm_windows [10; 11; 12; 13; 14] 3 1). simpl. lia.
Defined.

(** X3.  The last training window is the trailing slice
    [x_data[-n_lookback:]]: the window the rollout cuts for the sequence
    regressor is the last one [create_sequences_lstm] would build. *)
Theorem create_sequences_lstm_last {A} (x_data : list A) (n_lookback : nat) :
  0 < n_lookback ->
  n_lookback <= length x_data ->
  last (create_sequences_lstm x_data n_lookback) = Some (slice_tail n_lookback x_data).
Proof.
  intros Hpos Hle. unfold create_sequences_lstm.
  rewrite last_lookup, length_map, length_seq, lookup_map.
  rewrite lookup_seq_lt by lia. cbn [fmap option_fmap option_map Nat.add].
  f_equal. destruct n_lookback as [|n]; [lia|]. unfold slice_tail.
  replace (Init.Nat.pred (length x_data + 1 - S n)) with (length x_data - S n) by lia.
  apply take_ge. rewrite length_drop. lia.
Qed.

Lemma create_sequences_lstm_last_witness :
  last (create_sequences_lstm [10; 11; 12; 13; 14] 3) = Some (slice_tail 3 [10; 11; 12; 13; 14]).
Proof.
  apply (create_sequences_lstm_last [10; 11; 12; 13; 14] 3); simpl; lia.
Defined.

(** ** More on the feature deriver *)

Lemma lookup_enriched_lag (d : DataFrame) (s : Series) (k : nat) :
  k ∈ [1; 3; 24] ->
  lookup_col (lag_name TARGET_COLUMN k) (cols (enriched d TARGET_COLUMN s))
  = Some (shift k s).
Proof.
  intros Hk. unfold enriched, assign_all, derived_columns. cbn [cols foldl fst snd].
  repeat (apply elem_of_cons in Hk as [->|Hk]);
    [ | | | inversion Hk ];
    repeat (rewrite lookup_set_col; eval_eqb); reflexivity.
Qed.

(** X4.  Lag features.  For [k] = 1, 3, 24 the feature deriver writes at
    row [t] of the lag column the target channel's value exactly [k] rows
    earlier, and NaN in the first [k] rows, which have no such row. *)
Theorem lag_features_look_back
    (h : heap) (df : loc) (d : DataFrame) (s : Series) (k t : nat) :
  h !! df = Some d ->
  lookup_col TARGET_COLUMN (cols d) = Some s ->
  k ∈ [1; 3; 24] ->
  t < length s ->
  exists out d',
    create_features_xgb df TARGET_COLUMN h = (Ok out, h ++ [d']) /\
    (h ++ [d']) !! out = Some d' /\
    (t < k -> cell_at d' (lag_name TARGET_COLUMN k) t = Some None) /\
    (k <= t -> cell_at d' (lag_name TARGET_COLUMN k) t = s !! (t - k) /\
               is_Some (s !! (t - k))).
Proof.
  intros Hdf Hs Hk Ht.
  exists (length h), (enriched d TARGET_COLUMN s).
  split; [apply run_create_features_xgb; assumption|].
  split; [apply lookup_top|].
  unfold cell_at. rewrite lookup_enriched_lag by exact Hk. simpl.
  rewrite shift_lookup by exact Ht. split.
  - intros Hlt. rewrite (proj2 (Nat.ltb_lt _ _) Hlt). reflexivity.
  - intros Hge. rewrite (proj2 (Nat.ltb_ge _ _) Hge).
    split; [reflexivity|]. apply lookup_lt_is_Some. lia.
Qed.

Lemma lag_features_look_back_witness :
  exists out d',
    create_features_xgb 0 TARGET_COLUMN [sample_history]
    = (Ok out, [sample_history] ++ [d']) /\
    ([sample_history] ++ [d']) !! out = Some d' /\
    (3 < 3 -> cell_at d' (lag_name TARGET_COLUMN 3) 3 = Some None) /\
    (3 <= 3 ->
     cell_at d' (lag_name TARGET_COLUMN 3) 3
     = [cell_of_Z 400; cell_of_Z 410; cell_of_Z 420; cell_of_Z 460] !! (3 - 3) /\
     is_Some ([cell_of_Z 400; cell_of_Z 410; cell_of_Z 420; cell_of_Z 460] !! (3 - 3))).
Proof.
  apply (lag_features_look_back [sample_history] 0 sample_history
           [cell_of_Z 400; cell_of_Z 410; cell_of_Z 420; cell_of_Z 460] 3 3).
  - reflexivity.
  - reflexivity.
  - right. left.
  - simpl. lia.
Defined.

(** X5.  Rolling features are NaN without a full, clean window.  For a
    window [w] of 3, 6 or 24 the rolling-mean feature at a row [t] is NaN
    exactly when [t] is one of the first [w] rows or one of the rows
    [t-w .. t-1] of the target channel is NaN. *)
Theorem rolling_features_nan
    (h : heap) (df : loc) (d : DataFrame) (s : Series) (w : nat) :
  h !! df = Some d ->
  lookup_col TARGET_COLUMN (cols d) = Some s ->
  w ∈ [3; 6; 24] ->
  exists out d',
    create_features_xgb df TARGET_COLUMN h = (Ok out, h ++ [d']) /\
    (h ++ [d']) !! out = Some d' /\
    forall t, t < length s ->
      (cell_at d' (roll_avg_name TARGET_COLUMN w) t = Some None <->
       t < w \/ exists j, j < w /\ s !! (t - w + j) = Some None).
Proof.
  intros Hdf Hs Hw.
  exists (length h), (enriched d TARGET_COLUMN s).
  split; [apply run_create_features_xgb; assumption|].
  split; [apply lookup_top|].
  intros t Ht. rewrite roll_avg_cell by assumption.
  destruct (Nat.ltb_spec t w) as [Hlt|Hge].
  - split; [intros _; left; exact Hlt | reflexivity].
  - split.
    + intros [= Hmean]. right. apply mean_None in Hmean.
      apply window_before_nan; [lia | lia | exact Hmean].
    + intros [Hlt|Hnan]; [lia|]. f_equal. apply mean_None.
      apply window_before_nan; [lia | lia | exact Hnan].
Qed.

Lemma rolling_features_nan_witness :
  exists out d',
    create_features_xgb 0 TARGET_COLUMN [sample_gap_history]
    = (Ok out, [sample_gap_history] ++ [d']) /\
    ([sample_gap_history] ++ [d']) !! out = Some d' /\
    forall t,
      t < length [None; cell_of_Z 410; cell_of_Z 420; cell_of_Z 430; cell_of_Z 440] ->
      (cell_at d' (roll_avg_name TARGET_COLUMN 3) t = Some None <->
       t < 3 \/
       exists j, j < 3 /\
         [None; cell_of_Z 410; cell_of_Z 420; cell_of_Z 430; cell_of_Z 440] !! (t - 3 + j)
         = Some None).
Proof.
  apply (rolling_features_nan [sample_gap_history] 0 sample_gap_history
           [None; cell_of_Z 410; cell_of_Z 420; cell_of_Z 430; cell_of_Z 440] 3).
  - reflexivity.
  - reflexivity.
  - left.
Defined.

(** X6.  The feature deriver only adds.  The enriched table has the
    index of the input, every input column that does not bear the name of
    a derived feature is kept as it is, and each of the twelve derived
    columns has one value per row. *)
Theorem create_features_xgb_keeps_columns
    (h : heap) (df : loc) (d : DataFrame) (s : Series) :
  h !! df = Some d ->
  lookup_col TARGET_COLUMN (cols d) = Some s ->
  length s = nrows d ->
  exists out d',
    create_features_xgb df TARGET_COLUMN h = (Ok out, h ++ [d']) /\
    (h ++ [d']) !! out = Some d' /\
    index d' = index d /\
    (forall c, c ∉ map fst calendar_fields ++ lag_rolling_features TARGET_COLUMN ->
       lookup_col c (cols d') = lookup_col c (cols d)) /\
    (forall c, c ∈ map fst calendar_fields ++ lag_rolling_features TARGET_COLUMN ->
       exists v, lookup_col c (cols d') = Some v /\ length v = nrows d).
Proof.
  intros Hdf Hs Hlen.
  exists (length h), (enriched d TARGET_COLUMN s).
  split; [apply run_create_features_xgb; assumption|].
  split; [apply lookup_top|]. split; [reflexivity|]. split.
  - intros c Hc. unfold enriched. cbn [cols].
    apply lookup_col_assign_all. exact Hc.
  - intros c Hc. unfold enriched, assign_all, derived_columns.
    cbn [cols foldl fst snd]. unfold nrows.
    repeat (apply elem_of_cons in Hc as [->|Hc];
            [ repeat (rewrite lookup_set_col; eval_eqb);
              eexists; split; [reflexivity|];
              rewrite ?length_map, ?length_shift, ?length_rolling_mean;
              first [reflexivity | exact Hlen] |]).
    inversion Hc.
Qed.

Lemma create_features_xgb_keeps_columns_witness :
  exists out d',
    create_features_xgb 0 TARGET_COLUMN [sample_history]
    = (Ok out, [sample_history] ++ [d']) /\
    ([sample_history] ++ [d']) !! out = Some d' /\
    index d' = index sample_history /\
    (forall c, c ∉ map fst calendar_fields ++ lag_rolling_features TARGET_COLUMN ->
       lookup_col c (cols d') = lookup_col c (cols sample_history)) /\
    (forall c, c ∈ map fst calendar_fields ++ lag_rolling_features TARGET_COLUMN ->
       exists v, lookup_col c (cols d') = Some v /\ length v = nrows sample_history).
Proof.
  apply (create_features_xgb_keeps_columns [sample_history] 0 sample_history
           [cell_of_Z 400; cell_of_Z 410; cell_of_Z 420; cell_of_Z 460]).
  - reflexivity.
  - reflexivity.
  - reflexivity.
Defined.

(** X7.  The feature deriver fails exactly when the target channel is
    missing: it raises [KeyError] of the target's name when the table
    lacks that column (having already copied the table), and returns an
    enriched table otherwise. *)
Theorem create_features_xgb_key_error (h : heap) (df : loc) (d : DataFrame) :
  h !! df = Some d ->
  (lookup_col TARGET_COLUMN (cols d) = None <->
   fst (create_features_xgb df TARGET_COLUMN h) = Raise (KeyError TARGET_COLUMN)) /\
  (is_Some (lookup_col TARGET_COLUMN (cols d)) <->
   exists out, fst (create_features_xgb df TARGET_COLUMN h) = Ok out) /\
  length (snd (create_features_xgb df TARGET_COLUMN h)) = S (length h).
Proof.
  intros Hdf.
  destruct (lookup_col TARGET_COLUMN (cols d)) as [s|] eqn:Hs.
  - rewrite (run_create_features_xgb h df d s Hdf Hs). cbn [fst snd].
    split; [split; discriminate|]. split; [split; eauto|].
    rewrite length_app. simpl. lia.
  - pose proof (run_create_features_xgb_missing h df d Hdf Hs) as Hraise.
    rewrite Hraise. split; [split; reflexivity|]. split.
    + split; [intros [x Hx]; discriminate | intros [out Hout]; discriminate].
    + destruct (create_features_xgb_two_runs TARGET_COLUMN h h df df d Hdf Hdf)
        as (d' & Hh & _). rewrite Hh, length_app. simpl. lia.
Qed.

Lemma create_features_xgb_key_error_witness :
  (lookup_col TARGET_COLUMN (cols sample_without_target) = None <->
   fst (create_features_xgb 0 TARGET_COLUMN [sample_without_target])
   = Raise (KeyError TARGET_COLUMN)) /\
  (is_Some (lookup_col TARGET_COLUMN (cols sample_without_target)) <->
   exists out, fst (create_features_xgb 0 TARGET_COLUMN [sample_without_target]) = Ok out) /\
  length (snd (create_features_xgb 0 TARGET_COLUMN [sample_without_target]))
  = S (length [sample_without_target]).
Proof.
  apply (create_features_xgb_key_error [sample_without_target] 0 sample_without_target).
  reflexivity.
Defined.

(** ** More on the rolling state *)

Lemma index_rolled (ps : list cell) :
  forall (d : DataFrame) (ts : Timestamp),
    index (rolled d ts ps) = index d ++ map timestamp (forecast_of ts ps).
Proof.
  induction ps as [|p ps IH]; intros d ts; cbn [rolled forecast_of map].
  - symmetry. apply app_nil_r.
  - rewrite IH. unfold append_row. cbn [index timestamp].
    rewrite <- app_assoc. reflexivity.
Qed.

Lemma rolled_target (ps : list cell) :
  forall (d : DataFrame) (ts : Timestamp) (i : nat) (p : cell),
    wf d -> index d <> [] ->
    is_Some (lookup_col TARGET_COLUMN (cols d)) ->
    ps !! i = Some p ->
    cell_at (rolled d ts ps) TARGET_COLUMN (nrows d + i) = Some p.
Proof.
  induction ps as [|p0 ps IH]; intros d ts i p Hwf Hne Ht Hi; [discriminate|].
  cbn [rolled].
  set (d1 := append_row d (ts + HOUR)%Z p0).
  assert (index d1 <> []) as Hne1.
  { unfold d1, append_row. cbn [index]. intros Hnil.
    apply app_eq_nil in Hnil as [_ Hnil]. discriminate. }
  pose proof (wf_append_row d (ts + HOUR)%Z p0 Hwf Hne) as Hwf1. fold d1 in Hwf1.
  pose proof (nrows_append_row d (ts + HOUR)%Z p0) as Hn1. fold d1 in Hn1.
  destruct i as [|i].
  - injection Hi as <-. rewrite Nat.add_0_r.
    destruct (rolled_facts ps d1 (ts + HOUR)%Z Hwf1 Hne1) as (_ & _ & _ & Hold).
    rewrite Hold by lia. apply cell_at_append_row_target; assumption.
  - replace (nrows d + S i) with (nrows d1 + i) by lia.
    apply IH; try assumption.
    unfold d1. rewrite lookup_col_append_row. apply fmap_is_Some, Ht.
Qed.

(** X8.  Predictions are fed back.  After [k] iterations of a rollout on
    a well-formed table, the target channel of the [i]-th synthesized row
    of the rolling table holds the [i]-th forecast result, for every
    result produced so far: later iterations see earlier predictions as
    if they were observations. *)
Theorem predictions_fed_back
    (G : Models) (unloaded : string -> string -> exn) (h hk : heap) (fd : loc)
    (d : DataFrame) (k : nat) (st : loc * list ForecastEntry) :
  h !! fd = Some d ->
  wf d ->
  rollout_prefix G unloaded fd k h = (Ok st, hk) ->
  exists dk,
    hk !! fst st = Some dk /\
    length (snd st) = k /\
    (forall i e, snd st !! i = Some e ->
       cell_at dk TARGET_COLUMN (nrows (tail_rows 96 d) + i) = Some (predicted_power e)).
Proof.
  intros Hfd Hwf Hrun.
  destruct (rollout_prefix_state G unloaded h hk fd d k st Hfd Hwf Hrun)
    as (ps & l & Hlen & -> & Hk & Hacc & Hst & _).
  eexists. split; [exact Hst|].
  split; [rewrite Hacc, length_forecast_of; exact Hlen|].
  intros i e Hi. rewrite Hacc, lookup_forecast_of in Hi.
  destruct (ps !! i) as [p|] eqn:Hp; [|discriminate]. injection Hi as <-.
  cbn [predicted_power].
  destruct k as [|k]; [destruct ps; discriminate|].
  destruct Hk as [Hk|Hne]; [discriminate|].
  rewrite (run_rollout_prefix G unloaded h fd d (S k) Hfd) in Hrun.
  cbn [forecast_loop] in Hrun.
  apply bind_Ok_inv in Hrun as ([b1 acc1] & h1 & Hit & _).
  assert ((h ++ [tail_rows 96 d; tail_rows 96 d]) !! (length h + 1)
          = Some (tail_rows 96 d)) as Hbase
    by (rewrite lookup_extension; reflexivity).
  destruct (forecast_iteration_Ok_inv G unloaded _ _ _ _ _ _ _ Hbase
              (wf_tail_rows 96 d Hwf) Hit) as (_ & _ & _ & _ & Htarget & _).
  apply rolled_target; try assumption.
  - apply wf_tail_rows, Hwf.
  - apply index_nonempty_tail_rows; [lia | exact Hne].
Qed.

Lemma predictions_fed_back_witness :
  exists dk,
    snd (rollout_prefix sample_models App.unloaded 0 3 [sample_history])
      !! fst (the_state (rollout_prefix sample_models App.unloaded 0 3 [sample_history]))
    = Some dk /\
    length (snd (the_state (rollout_prefix sample_models App.unloaded 0 3 [sample_history])))
    = 3 /\
    (forall i e,
       snd (the_state (rollout_prefix sample_models App.unloaded 0 3 [sample_history])) !! i
       = Some e ->
       cell_at dk TARGET_COLUMN (nrows (tail_rows 96 sample_history) + i)
       = Some (predicted_power e)).
Proof.
  apply (predictions_fed_back sample_models App.unloaded [sample_history]
           (snd (rollout_prefix sample_models App.unloaded 0 3 [sample_history]))
           0 sample_history 3
           (the_state (rollout_prefix sample_models App.unloaded 0 3 [sample_history]))).
  - reflexivity.
  - exact wf_sample_history.
  - vm_compute. reflexivity.
Defined.

(** X9.  The rolling table stays an hourly series.  After [k]
    iterations its index is the index of the trailing 96-row slice of the
    history followed by the timestamps of the [k] results, and the slice
    holds [min 96 n] rows of a history of [n]. *)
Theorem rolling_table_index
    (G : Models) (unloaded : string -> string -> exn) (h hk : heap) (fd : loc)
    (d : DataFrame) (k : nat) (st : loc * list ForecastEntry) :
  h !! fd = Some d ->
  wf d ->
  rollout_prefix G unloaded fd k h = (Ok st, hk) ->
  exists dk,
    hk !! fst st = Some dk /\
    index dk = slice_tail 96 (index d) ++ map timestamp (snd st) /\
    nrows dk = min 96 (nrows d) + k.
Proof.
  intros Hfd Hwf Hrun.
  destruct (rollout_prefix_state G unloaded h hk fd d k st Hfd Hwf Hrun)
    as (ps & l & Hlen & -> & Hk & Hacc & Hst & _ & Hn & _).
  eexists. split; [exact Hst|]. split.
  - rewrite index_rolled, Hacc. reflexivity.
  - rewrite Hn. unfold nrows, tail_rows. cbn [index].
    rewrite length_slice_tail by lia. reflexivity.
Qed.

Lemma rolling_table_index_witness :
  exists dk,
    snd (rollout_prefix sample_models App.unloaded 0 3 [sample_history])
      !! fst (the_state (rollout_prefix sample_models App.unloaded 0 3 [sample_history]))
    = Some dk /\
    index dk
    = slice_tail 96 (index sample_history)
      ++ map timestamp
           (snd (the_state (rollout_prefix sample_models App.unloaded 0 3 [sample_history]))) /\
    nrows dk = min 96 (nrows sample_history) + 3.
Proof.
  apply (rolling_table_index sample_models App.unloaded [sample_history]
           (snd (rollout_prefix sample_models App.unloaded 0 3 [sample_history]))
           0 sample_history 3
           (the_state (rollout_prefix sample_models App.unloaded 0 3 [sample_history]))).
  - reflexivity.
  - exact wf_sample_history.
  - vm_compute. reflexivity.
Defined.

(** X10.  The window of every iteration.  On a well-formed table with
    the configured channels, the window cut for the sequence regressor
    after [k] iterations has the columns of [FEATURES_LSTM] and
    [min 72 (min 96 n + k)] rows: a full window of 72 rows at every
    iteration once the history has 72 rows, a shorter one before. *)
Theorem rollout_window_rows
    (G : Models) (unloaded : string -> string -> exn) (h hk : heap) (fd : loc)
    (d : DataFrame) (k : nat) (st : loc * list ForecastEntry) :
  h !! fd = Some d ->
  wf d ->
  has_channels d ->
  rollout_prefix G unloaded fd k h = (Ok st, hk) ->
  exists out w,
    fst (lstm_window (fst st) hk) = Ok out /\
    snd (lstm_window (fst st) hk) !! out = Some w /\
    columns w = FEATURES_LSTM /\
    nrows w = min N_LOOKBACK (min 96 (nrows d) + k) /\
    (N_LOOKBACK <= nrows d -> nrows w = N_LOOKBACK).
Proof.
  intros Hfd Hwf HC Hrun.
  destruct (rollout_prefix_state G unloaded h hk fd d k st Hfd Hwf Hrun)
    as (ps & l & Hlen & -> & Hk & Hacc & Hst & _ & Hn & Hcols).
  set (dk := rolled (tail_rows 96 d) (default 0%Z (last (index d))) ps) in *.
  assert (forall c, c ∈ FEATURES_LSTM -> is_Some (lookup_col c (cols dk))) as Hpresent.
  { intros c Hc. apply lookup_col_is_Some. fold (columns dk). rewrite Hcols.
    apply lookup_col_is_Some, HC, Hc. }
  destruct (select_cols_present _ _ Hpresent) as [lc Hlc].
  rewrite (run_lstm_window _ _ _ Hst), Hlc. cbn [fst snd].
  destruct (select_cols_inr _ _ _ Hlc) as [Hfst _].
  assert (nrows (tail_rows N_LOOKBACK {| index := index dk; cols := lc |})
          = min N_LOOKBACK (min 96 (nrows d) + k)) as Hrows.
  { unfold nrows at 1, tail_rows. cbn [index].
    rewrite length_slice_tail by (unfold N_LOOKBACK; lia).
    fold (nrows dk). rewrite Hn. unfold nrows at 1, tail_rows. cbn [index].
    rewrite length_slice_tail by lia. reflexivity. }
  eexists _, _. split; [reflexivity|].
  split; [rewrite lookup_extension; reflexivity|].
  split; [|split; [exact Hrows|]].
  - unfold columns, tail_rows. cbn [cols].
    rewrite (columns_map_values (fun _ => slice_tail N_LOOKBACK)). exact Hfst.
  - intros Hge. rewrite Hrows. unfold N_LOOKBACK in *. lia.
Qed.

Lemma rollout_window_rows_witness :
  exists out w,
    fst (lstm_window
           (fst (the_state (rollout_prefix sample_models App.unloaded 0 3 [sample_history])))
           (snd (rollout_prefix sample_models App.unloaded 0 3 [sample_history])))
    = Ok out /\
    snd (lstm_window
           (fst (the_state (rollout_prefix sample_models App.unloaded 0 3 [sample_history])))
           (snd (rollout_prefix sample_models App.unloaded 0 3 [sample_history])))
      !! out = Some w /\
    columns w = FEATURES_LSTM /\
    nrows w = min N_LOOKBACK (min 96 (nrows sample_history) + 3) /\
    (N_LOOKBACK <= nrows sample_history -> nrows w = N_LOOKBACK).
Proof.
  apply (rollout_window_rows sample_models App.unloaded [sample_history]
           (snd (rollout_prefix sample_models App.unloaded 0 3 [sample_history]))
           0 sample_history 3
           (the_state (rollout_prefix sample_models App.unloaded 0 3 [sample_history]))).
  - reflexivity.
  - exact wf_sample_history.
  - exact has_channels_sample_history.
  - vm_compute. reflexivity.
Defined.

(** ** Artifacts that were not loaded *)

Section Unloaded.
Variables (G : Models) (unloaded : string -> string -> exn).

(** Without the tree regressor an iteration derives the features, cuts
    the window, and then fails at the first use of the regressor. *)
Lemma forecast_iteration_unloaded_xgb (h : heap) (base_data : loc)
    (acc : list ForecastEntry) (d : DataFrame) :
  h !! base_data = Some d ->
  has_channels d ->
  model_xgb G = None ->
  fst (forecast_iteration G unloaded (base_data, acc) h)
  = Raise (unloaded "model_xgb" "predict").
Proof.
  intros Hb HC Hnone. pose proof (lookup_lt_Some _ _ _ Hb) as Hlt.
  unfold forecast_iteration.
  destruct (HC TARGET_COLUMN) as [s Hs];
    [unfold FEATURES_LSTM, TARGET_COLUMN; repeat constructor|].
  rewrite run_bind, (run_create_features_xgb h base_data d s Hb Hs).
  cbv beta iota zeta.
  set (E := enriched d TARGET_COLUMN s).
  step run_df_iloc_tail.
  rewrite run_bind. erewrite run_lstm_window by find_obj.
  destruct (select_cols_present _ _ HC) as [lc ->].
  cbv beta iota zeta. norm_heap.
  rewrite run_bind. erewrite run_df_getitem_list by find_obj.
  destruct (select_cols_present _ _ (features_xgb_present d s (has_channels_raw d HC)))
    as [xc Hxc].
  fold E in Hxc. rewrite Hxc. cbv beta iota zeta. norm_heap.
  rewrite run_bind, Hnone. reflexivity.
Qed.


Lemma forecast_body_first_failure (h : heap) (fd : loc) (d : DataFrame) (e : exn) :
  h !! fd = Some d ->
  fst (forecast_iteration G unloaded (length h + 1, [])
         (h ++ [tail_rows 96 d; tail_rows 96 d])) = Raise e ->
  fst (try_except (forecast_body G unloaded fd) forecast_handler h)
  = Ok {| payload := Error (StrOf e); status := 500 |}.
Proof.
  intros Hfd Hfail. unfold try_except. rewrite run_forecast_body.
  rewrite (run_rollout_prefix G unloaded h fd d 24 Hfd).
  cbn [forecast_loop]. rewrite run_bind.
  destruct (forecast_iteration G unloaded (length h + 1, [])
              (h ++ [tail_rows 96 d; tail_rows 96 d])) as [[st|e'] h'];
    cbn [fst] in Hfail; [discriminate|].
  injection Hfail as ->. reflexivity.
Qed.
End Unloaded.

(** X11.  A tree regressor that failed to load.  On a table with the
    configured channels, [app.py] runs into the unbound name at the first
    iteration and answers 500 with the text of [NameError] for
    [model_xgb]; [app_enhanced.py] stops at its guard, answers 500 with
    the guard's message and creates no object; and its status endpoint
    reports the regressor as not loaded. *)
Theorem unloaded_tree_regressor (G : Models) (h : heap) (fd : loc) (d : DataFrame) :
  h !! fd = Some d ->
  has_channels d ->
  model_xgb G = None ->
  fst (App.get_hourly_forecast (Some fd) G h)
  = Ok {| payload := Error (StrOf (NameError "model_xgb")); status := 500 |} /\
  AppEnhanced.get_hourly_forecast (Some fd) G h
  = (Ok {| payload := Error (Text "Data or model files missing. Cannot generate forecast.");
           status := 500 |}, h) /\
  get_all_models G !! 0 = Some ("xgboost", "Not loaded").
Proof.
  intros Hfd HC Hnone. split; [|split].
  - unfold App.get_hourly_forecast.
    apply (forecast_body_first_failure G App.unloaded h fd d _ Hfd).
    apply (forecast_iteration_unloaded_xgb G App.unloaded _ _ _ (tail_rows 96 d)).
    + rewrite lookup_extension. reflexivity.
    + apply has_channels_tail_rows, HC.
    + exact Hnone.
  - unfold AppEnhanced.get_hourly_forecast. rewrite Hnone. reflexivity.
  - unfold get_all_models. rewrite Hnone. reflexivity.
Qed.

Lemma unloaded_tree_regressor_witness :
  fst (App.get_hourly_forecast (Some 0) no_models [sample_history])
  = Ok {| payload := Error (StrOf (NameError "model_xgb")); status := 500 |} /\
  AppEnhanced.get_hourly_forecast (Some 0) no_models [sample_history]
  = (Ok {| payload := Error (Text "Data or model files missing. Cannot generate forecast.");
           status := 500 |}, [sample_history]) /\
  get_all_models no_models !! 0 = Some ("xgboost", "Not loaded").
Proof.
  apply (unloaded_tree_regressor no_models [sample_history] 0 sample_history).
  - reflexivity.
  - exact has_channels_sample_history.
  - reflexivity.
Defined.



(** X13.  The guard of [app_enhanced.py] and its status endpoint agree.
    The forecast gets past the guard exactly when the data is loaded and
    [get_all_models] reports all three regressors as loaded; otherwise
    the answer is 500 with the guard's message and the heap is as it
    was. *)
Theorem enhanced_guard_matches_status (full_data : option loc) (G : Models) (h : heap) :
  (is_Some full_data /\
   get_all_models G = [("xgboost", "Loaded"); ("lstm", "Loaded"); ("fusion", "Loaded")] ->
   exists fd,
     full_data = Some fd /\
     AppEnhanced.get_hourly_forecast full_data G h
     = try_except (forecast_body G AppEnhanced.unloaded fd) forecast_handler h) /\
  (~ (is_Some full_data /\
      get_all_models G = [("xgboost", "Loaded"); ("lstm", "Loaded"); ("fusion", "Loaded")]) ->
   AppEnhanced.get_hourly_forecast full_data G h
   = (Ok {| payload := Error (Text "Data or model files missing. Cannot generate forecast.");
            status := 500 |}, h)).
Proof.
  unfold AppEnhanced.get_hourly_forecast, get_all_models, loaded_text.
  destruct full_data as [fd|], (model_xgb G), (model_lstm G), (model_fusion G);
    split; intros Hst;
    try reflexivity;
    try (destruct Hst as [[x Hx] Heq]; discriminate);
    try (exists fd; split; reflexivity);
    try (exfalso; apply Hst; split; [eauto | reflexivity]).
Qed.

(** ** Grouping *)

Lemma increasing_cons (x : Z) (l : list Z) :
  increasing (x :: l) <-> Forall (Z.lt x) l /\ increasing l.
Proof.
  split.
  - intros H. split.
    + apply Forall_lookup. intros i y Hy. apply (H 0 (S i) x y); [lia|done|done].
    + intros i j a b Hij Ha Hb. apply (H (S i) (S j)); [lia|done|done].
  - intros [Hx Hl] [|i] [|j] a b Hij Ha Hb; simpl in *; simplify_eq; try lia.
    + eapply Forall_lookup in Hx; eauto.
    + eapply Hl; [|eauto|eauto]. lia.
Qed.

Lemma elem_of_insert_key (k x : Z) (l : list Z) :
  x ∈ insert_key k l <-> x = k \/ x ∈ l.
Proof.
  induction l as [|y l IH]; simpl.
  - rewrite list_elem_of_singleton, elem_of_nil. tauto.
  - destruct (Z.ltb_spec k y); [rewrite elem_of_cons; tauto|].
    destruct (Z.eqb_spec k y) as [->|Hne].
    + rewrite elem_of_cons. tauto.
    + rewrite !elem_of_cons, IH. tauto.
Qed.

Lemma increasing_insert_key (k : Z) (l : list Z) :
  increasing l -> increasing (insert_key k l).
Proof.
  induction l as [|y l IH]; simpl; intros H.
  - apply increasing_cons. split; [constructor|]. intros i j a b _ Ha; done.
  - apply increasing_cons in H as [Hy Hl].
    destruct (Z.ltb_spec k y).
    + apply increasing_cons. split; [|apply increasing_cons; done].
      constructor; [done|]. eapply Forall_impl; [exact Hy|]. simpl; lia.
    + destruct (Z.eqb_spec k y) as [->|Hne]; [apply increasing_cons; done|].
      apply increasing_cons. split; [|auto].
      apply Forall_forall. intros x Hx. apply elem_of_insert_key in Hx as [->|Hx]; [lia|].
      eapply Forall_forall in Hy; eauto.
Qed.

Lemma increasing_group_keys (keys : list Z) : increasing (group_keys keys).
Proof.
  induction keys as [|k keys IH]; simpl.
  - intros i j a b _ Ha; done.
  - apply increasing_insert_key, IH.
Qed.

Lemma elem_of_group_keys (keys : list Z) (x : Z) :
  x ∈ group_keys keys <-> x ∈ keys.
Proof.
  induction keys as [|k keys IH]; simpl; [done|].
  rewrite elem_of_insert_key, elem_of_cons, IH. done.
Qed.

(** An increasing list within [lo, hi) has at most [hi - lo] items. *)
Lemma increasing_length (l : list Z) (lo hi : Z) :
  increasing l -> Forall (fun x => (lo <= x < hi)%Z) l ->
  (Z.of_nat (length l) <= Z.max 0 (hi - lo))%Z.
Proof.
  revert lo; induction l as [|x l IH]; intros lo Hinc Hr; simpl; [lia|].
  apply increasing_cons in Hinc as [Hx Hl].
  apply Forall_cons in Hr as [Hx0 Hr].
  specialize (IH (x + 1)%Z Hl).
  assert (Forall (fun y => (x + 1 <= y < hi)%Z) l) as Hr'.
  { apply Forall_forall. intros y Hy.
    eapply Forall_forall in Hx; eauto. eapply Forall_forall in Hr; eauto.
    simpl in *. lia. }
  specialize (IH Hr'). lia.
Qed.

Lemma group_values_row (keys : list Z) (s : Series) (i : nat) (k : Z) (x : cell) :
  keys !! i = Some k -> s !! i = Some x -> x ∈ group_values keys s k.
Proof.
  unfold group_values.
  revert s i; induction keys as [|k' keys IH]; intros [|x' s] [|i] Hk Hx;
    simpl in *; simplify_eq.
  - rewrite Z.eqb_refl. left.
  - destruct (Z.eqb _ _); simpl; [right|]; eapply IH; eauto.
Qed.

Lemma group_values_inv (keys : list Z) (s : Series) (k : Z) (x : cell) :
  x ∈ group_values keys s k ->
  exists i, keys !! i = Some k /\ s !! i = Some x.
Proof.
  unfold group_values.
  revert s; induction keys as [|k' keys IH]; intros [|x' s] Hx;
    simpl in *; try (inversion Hx; fail).
  destruct (Z.eqb_spec k' k) as [->|Hne]; simpl in Hx.
  - apply elem_of_cons in Hx as [->|Hx]; [exists 0; done|].
    destruct (IH s Hx) as (i & Hk & Hs). exists (S i). done.
  - destruct (IH s Hx) as (i & Hk & Hs). exists (S i). done.
Qed.

Lemma readings_nonempty (l : list cell) (q : Q) :
  Some q ∈ l -> readings l <> [].
Proof.
  induction l as [|[x|] l IH]; intros H; simpl; [inversion H|done|].
  apply elem_of_cons in H as [H|H]; [discriminate|auto].
Qed.

Lemma readings_empty (l : list cell) :
  readings l = [] -> forall q, Some q ∉ l.
Proof.
  intros H q Hq. exact (readings_nonempty l q Hq H).
Qed.

Lemma mean_skipna_reading (l : list cell) :
  readings l <> [] -> exists q, mean_skipna l = Some q.
Proof.
  unfold mean_skipna. destruct (readings l); [done|eauto].
Qed.

Lemma mean_skipna_None (l : list cell) :
  mean_skipna l = None <-> forall q, Some q ∉ l.
Proof.
  split.
  - intros H. apply readings_empty. unfold mean_skipna in H.
    destruct (readings l); [done|discriminate].
  - intros H. unfold mean_skipna.
    destruct (readings l) as [|q qs] eqn:E; [done|]. exfalso.
    revert E. induction l as [|[x|] l IH]; simpl; intros E.
    + discriminate.
    + apply (H x). left.
    + apply IH; [|done]. intros q' Hq'. apply (H q'). right. done.
Qed.

(** ** Filling gaps *)

Lemma length_ffill_from (prev : cell) (s : Series) :
  length (ffill_from prev s) = length s.
Proof.
  revert prev; induction s as [|[q|] s IH]; intros prev; simpl; auto.
Qed.

Lemma length_bfill (s : Series) : length (bfill s) = length s.
Proof.
  induction s as [|[q|] s IH]; simpl; auto.
  destruct (bfill s) as [|y r]; simpl in *; lia.
Qed.

Lemma ffill_from_reading (prev : cell) (s : Series) (i : nat) (q : Q) :
  s !! i = Some (Some q) -> ffill_from prev s !! i = Some (Some q).
Proof.
  revert prev i; induction s as [|[x|] s IH]; intros prev [|i] H;
    simpl in *; simplify_eq; auto.
Qed.

Lemma ffill_from_gap (prev : cell) (s : Series) (i : nat) :
  i < length s ->
  (forall j, j <= i -> s !! j = Some None) ->
  ffill_from prev s !! i = Some prev.
Proof.
  revert prev i; induction s as [|x s IH]; intros prev i Hi H; simpl in *; [lia|].
  pose proof (H 0 ltac:(lia)) as H0; simpl in H0; simplify_eq; simpl.
  destruct i as [|i]; simpl; [done|].
  apply IH; [lia|]. intros j Hj. apply (H (S j)); lia.
Qed.

Lemma ffill_from_previous (prev : cell) (s : Series) (i j : nat) (q : Q) :
  i < length s -> j <= i ->
  s !! j = Some (Some q) ->
  (forall j', j < j' <= i -> s !! j' = Some None) ->
  ffill_from prev s !! i = Some (Some q).
Proof.
  revert prev i j; induction s as [|x s IH]; intros prev i j Hi Hj Hq H;
    simpl in *; [lia|].
  destruct j as [|j]; simpl in Hq.
  - simplify_eq; simpl. destruct i as [|i]; simpl; [done|].
    apply ffill_from_gap; [lia|]. intros j' Hj'. apply (H (S j')); lia.
  - destruct i as [|i]; [lia|].
    assert (ffill_from (match x with Some _ => x | None => prev end) s !! i
            = Some (Some q)) as R.
    { apply (IH _ i j); [lia|lia|done|]. intros j' Hj'. apply (H (S j')); lia. }
    destruct x; simpl; exact R.
Qed.

Lemma bfill_reading (s : Series) (i : nat) (q : Q) :
  s !! i = Some (Some q) -> bfill s !! i = Some (Some q).
Proof.
  revert i; induction s as [|[x|] s IH]; intros [|i] H;
    simpl in *; simplify_eq; auto.
  apply IH in H. destruct (bfill s) as [|y r]; simpl in *; [done|exact H].
Qed.

Lemma bfill_next (s : Series) (i j : nat) (q : Q) :
  i <= j ->
  s !! j = Some (Some q) ->
  (forall j', i <= j' < j -> s !! j' = Some None) ->
  bfill s !! i = Some (Some q).
Proof.
  revert i j; induction s as [|x s IH]; intros i j Hij Hq H; simpl in *;
    [done|].
  destruct i as [|i].
  - destruct j as [|j]; simpl in Hq.
    + simplify_eq; done.
    + pose proof (H 0 ltac:(lia)) as H0; simpl in H0; simplify_eq.
      assert (bfill s !! 0 = Some (Some q)) as R.
      { apply (IH 0 j); [lia|done|]. intros j' Hj'. apply (H (S j')); lia. }
      destruct (bfill s) as [|y r]; simpl in *; [done|exact R].
  - destruct j as [|j]; [lia|]; simpl in Hq.
    assert (bfill s !! i = Some (Some q)) as R.
    { apply (IH i j); [lia|done|]. intros j' Hj'. apply (H (S j')); lia. }
    destruct x; simpl; [exact R|].
    destruct (bfill s) as [|y r]; simpl in *; [done|exact R].
Qed.

Lemma bfill_all_nan (s : Series) :
  (forall i, i < length s -> s !! i = Some None) -> bfill s = s.
Proof.
  induction s as [|x s IH]; intros H; [done|].
  pose proof (H 0 ltac:(simpl; lia)) as H0; simpl in H0; simplify_eq; simpl.
  rewrite IH; [|intros i Hi; apply (H (S i)); simpl; lia].
  destruct s as [|y r]; [done|].
  pose proof (H 1 ltac:(simpl; lia)) as H1; simpl in H1; simplify_eq; done.
Qed.

Lemma ffill_all_nan (s : Series) :
  (forall i, i < length s -> s !! i = Some None) -> ffill s = s.
Proof.
  unfold ffill. induction s as [|x s IH]; intros H; [done|].
  pose proof (H 0 ltac:(simpl; lia)) as H0; simpl in H0; simplify_eq; simpl.
  rewrite IH; [done|intros i Hi; apply (H (S i)); simpl; lia].
Qed.

(** The first reading at or after a row, when there is one. *)
Lemma next_reading (s : Series) (i j : nat) (q : Q) :
  i <= j -> s !! j = Some (Some q) ->
  exists j0 q0, i <= j0 <= j /\ s !! j0 = Some (Some q0) /\
                forall j', i <= j' < j0 -> s !! j' = Some None.
Proof.
  intros Hij Hq.
  remember (j - i) as n eqn:En. revert i Hij En.
  induction n as [n IH] using lt_wf_ind; intros i Hij En.
  destruct (s !! i) as [[q0|]|] eqn:Ei.
  - exists i, q0. split; [lia|]. split; [done|]. intros; lia.
  - destruct (decide (i = j)) as [->|Hne]; [exfalso; assert (Some (Some q) = Some None :> option cell) as X by (rewrite <- Hq; exact Ei); discriminate X|].
    destruct (IH (j - S i) ltac:(lia) (S i) ltac:(lia) eq_refl)
      as (j0 & q0 & Hr & Hq0 & Hgap).
    exists j0, q0. split; [lia|]. split; [done|].
    intros j' Hj'. destruct (decide (j' = i)) as [->|]; [done|].
    apply Hgap; lia.
  - apply lookup_ge_None in Ei. apply lookup_lt_Some in Hq. unfold cell in *. lia.
Qed.

(** The last reading at or before a row, when there is one. *)
Lemma previous_reading (s : Series) (i j : nat) (q : Q) :
  j <= i -> i < length s -> s !! j = Some (Some q) ->
  exists j0 q0, j <= j0 <= i /\ s !! j0 = Some (Some q0) /\
                forall j', j0 < j' <= i -> s !! j' = Some None.
Proof.
  intros Hji Hi Hq.
  induction i as [|i IH].
  - assert (j = 0) as -> by lia. exists 0, q. split; [lia|]. split; [done|].
    intros; lia.
  - destruct (s !! S i) as [[q0|]|] eqn:Ei.
    + exists (S i), q0. split; [lia|]. split; [done|]. intros; lia.
    + destruct (decide (j = S i)) as [->|Hne]; [exfalso; assert (Some (Some q) = Some None :> option cell) as X by (rewrite <- Hq; exact Ei); discriminate X|].
      destruct IH as (j0 & q0 & Hr & Hq0 & Hgap); [lia|lia|].
      exists j0, q0. split; [lia|]. split; [done|].
      intros j' Hj'. destruct (decide (j' = S i)) as [->|]; [done|].
      apply Hgap; lia.
    + apply lookup_ge_None in Ei. unfold cell in *. lia.
Qed.

(** Once a series has a reading, no row is left empty. *)
Lemma filled_has_reading (s : Series) (i j : nat) (q : Q) :
  s !! j = Some (Some q) -> i < length s ->
  exists q', bfill (ffill s) !! i = Some (Some q').
Proof.
  intros Hq Hi.
  destruct (le_lt_dec j i) as [Hji|Hij].
  - destruct (previous_reading s i j q Hji Hi Hq) as (j0 & q0 & Hr & Hq0 & Hgap).
    exists q0. apply bfill_reading.
    apply (ffill_from_previous None s i j0 q0); [done|lia|done|done].
  - apply (ffill_from_reading None) in Hq. fold (ffill s) in Hq.
    destruct (next_reading (ffill s) i j q ltac:(lia) Hq)
      as (j0 & q0 & Hr & Hq0 & Hgap).
    exists q0. apply (bfill_next _ i j0); [lia|done|done].
Qed.

(** X14.  [ffill] followed by [bfill] keeps the length and every reading of
    a series; if the series has a reading at all, no row is left NaN; a
    series of NaN only comes back unchanged. *)
Theorem fill_gaps_complete (s : Series) :
  let filled := bfill (ffill s) in
  length filled = length s /\
  (forall i q, s !! i = Some (Some q) -> filled !! i = Some (Some q)) /\
  (forall j q, s !! j = Some (Some q) ->
     forall i, i < length s -> exists q', filled !! i = Some (Some q')) /\
  ((forall i, i < length s -> s !! i = Some None) -> filled = s).
Proof.
  cbv zeta. split; [|split; [|split]].
  - rewrite length_bfill. apply length_ffill_from.
  - intros i q H. apply bfill_reading, ffill_from_reading, H.
  - intros j q Hq i Hi. exact (filled_has_reading s i j q Hq Hi).
  - intros H. rewrite (ffill_all_nan s H). apply bfill_all_nan, H.
Qed.
(** ** The hourly grid *)

Lemma HOUR_positive : (0 < HOUR)%Z.
Proof. reflexivity. Qed.

Lemma foldr_min_spec (t0 : Z) (rest : list Z) :
  foldr Z.min t0 rest ∈ t0 :: rest /\
  forall t, t ∈ t0 :: rest -> (foldr Z.min t0 rest <= t)%Z.
Proof.
  induction rest as [|x rest [IHin IHle]]; simpl.
  - split; [left|]. intros t Ht. apply list_elem_of_singleton in Ht. lia.
  - split.
    + destruct (Z.min_spec x (foldr Z.min t0 rest)) as [[_ ->]|[_ ->]].
      * right; left.
      * apply elem_of_cons in IHin as [Heq|Hin]; [rewrite Heq; left|right; right; done].
    + intros t Ht. apply elem_of_cons in Ht as [Heq|Ht].
      * pose proof (IHle t0 ltac:(left)). lia.
      * apply elem_of_cons in Ht as [Heq|Ht]; [lia|].
        pose proof (IHle t ltac:(right; done)). lia.
Qed.

Lemma foldr_max_spec (t0 : Z) (rest : list Z) :
  foldr Z.max t0 rest ∈ t0 :: rest /\
  forall t, t ∈ t0 :: rest -> (t <= foldr Z.max t0 rest)%Z.
Proof.
  induction rest as [|x rest [IHin IHle]]; simpl.
  - split; [left|]. intros t Ht. apply list_elem_of_singleton in Ht. lia.
  - split.
    + destruct (Z.max_spec x (foldr Z.max t0 rest)) as [[_ ->]|[_ ->]].
      * apply elem_of_cons in IHin as [Heq|Hin]; [rewrite Heq; left|right; right; done].
      * right; left.
    + intros t Ht. apply elem_of_cons in Ht as [Heq|Ht].
      * pose proof (IHle t0 ltac:(left)). lia.
      * apply elem_of_cons in Ht as [Heq|Ht]; [lia|].
        pose proof (IHle t ltac:(right; done)). lia.
Qed.

(** The bins of a non-empty index, by the hours of its earliest and its
    latest timestamp. *)
Lemma hourly_bins_cons (t0 : Z) (rest : list Z) :
  let a := (foldr Z.min t0 rest / HOUR)%Z in
  let b := (foldr Z.max t0 rest / HOUR)%Z in
  (a <= b)%Z /\
  hourly_bins (t0 :: rest)
  = map (fun i => (a * HOUR + Z.of_nat i * HOUR)%Z) (seq 0 (Z.to_nat (b - a) + 1)).
Proof.
  cbv zeta. pose proof HOUR_positive as HH.
  destruct (foldr_min_spec t0 rest) as [Hin Hle].
  destruct (foldr_max_spec t0 rest) as [_ Hge].
  split.
  - apply Z.div_le_mono; [done|]. apply Hge, Hin.
  - unfold hourly_bins, floor_hour.
    rewrite <- Z.mul_sub_distr_r, Z.div_mul by lia. done.
Qed.

Lemma hourly_bins_lookup (t0 : Z) (rest : list Z) (r : nat) :
  r < length (hourly_bins (t0 :: rest)) ->
  hourly_bins (t0 :: rest) !! r
  = Some (floor_hour (foldr Z.min t0 rest) + Z.of_nat r * HOUR)%Z.
Proof.
  destruct (hourly_bins_cons t0 rest) as [Hab ->].
  rewrite length_map, length_seq. intros Hr.
  rewrite lookup_map, lookup_seq_lt by lia. done.
Qed.

Lemma hourly_bins_covers (idx : list Z) (t : Z) :
  t ∈ idx -> exists r, hourly_bins idx !! r = Some (floor_hour t).
Proof.
  destruct idx as [|t0 rest]; [intros H; inversion H|]. intros Ht.
  pose proof HOUR_positive as HH.
  destruct (foldr_min_spec t0 rest) as [_ Hle].
  destruct (foldr_max_spec t0 rest) as [_ Hge].
  destruct (hourly_bins_cons t0 rest) as [Hab E].
  pose proof (Z.div_le_mono _ _ HOUR HH (Hle t Ht)) as Ha.
  pose proof (Z.div_le_mono _ _ HOUR HH (Hge t Ht)) as Hb.
  exists (Z.to_nat (t / HOUR - foldr Z.min t0 rest / HOUR)).
  rewrite hourly_bins_lookup.
  - unfold floor_hour. f_equal. rewrite Z2Nat.id by lia. lia.
  - rewrite E, length_map, length_seq. lia.
Qed.

Lemma hourly_bins_head (t0 : Z) (rest : list Z) :
  head (hourly_bins (t0 :: rest)) = Some (floor_hour (foldr Z.min t0 rest)).
Proof.
  destruct (hourly_bins_cons t0 rest) as [Hab E].
  rewrite head_lookup, hourly_bins_lookup
    by (rewrite E, length_map, length_seq; lia).
  f_equal. lia.
Qed.

Lemma hourly_bins_last (t0 : Z) (rest : list Z) :
  last (hourly_bins (t0 :: rest)) = Some (floor_hour (foldr Z.max t0 rest)).
Proof.
  pose proof HOUR_positive as HH.
  destruct (hourly_bins_cons t0 rest) as [Hab E].
  assert (length (hourly_bins (t0 :: rest))
          = Z.to_nat (foldr Z.max t0 rest / HOUR - foldr Z.min t0 rest / HOUR) + 1)
    as Hlen by (rewrite E, length_map, length_seq; reflexivity).
  rewrite last_lookup, hourly_bins_lookup by lia. f_equal.
  rewrite Hlen. unfold floor_hour.
  replace (Init.Nat.pred (Z.to_nat (foldr Z.max t0 rest / HOUR
                                    - foldr Z.min t0 rest / HOUR) + 1))
    with (Z.to_nat (foldr Z.max t0 rest / HOUR - foldr Z.min t0 rest / HOUR))
    by lia.
  rewrite Z2Nat.id by lia. lia.
Qed.

(** X15.  Resampling a frame that has rows gives the grid of hours from
    the hour of the earliest timestamp to the hour of the latest one:
    consecutive rows are one hour apart, the hour of every input row is
    on the grid, and every column has a value for every hour. *)
Theorem resample_hourly_grid (d : DataFrame) (t0 : Timestamp) (rest : list Timestamp)
    (Hindex : index d = t0 :: rest) :
  let out := index (resample_1H_mean d) in
  head out = Some (floor_hour (foldr Z.min t0 rest)) /\
  last out = Some (floor_hour (foldr Z.max t0 rest)) /\
  (forall r t, out !! r = Some t -> r + 1 < length out ->
               out !! (r + 1) = Some (t + HOUR)%Z) /\
  (forall t, t ∈ index d -> floor_hour t ∈ out) /\
  Forall (fun cs => length (snd cs) = length out) (cols (resample_1H_mean d)).
Proof.
  cbv zeta. simpl. rewrite Hindex.
  pose proof HOUR_positive as HH.
  destruct (hourly_bins_cons t0 rest) as [Hab E].
  assert (0 < length (hourly_bins (t0 :: rest))) as Hlen
    by (rewrite E, length_map, length_seq; lia).
  split; [|split; [|split; [|split]]].
  - apply hourly_bins_head.
  - apply hourly_bins_last.
  - intros r t Hr Hnext.
    rewrite hourly_bins_lookup in Hr by lia. rewrite hourly_bins_lookup by lia.
    simplify_eq. f_equal. lia.
  - intros t Ht. destruct (hourly_bins_covers _ t Ht) as [r Hr].
    eapply list_elem_of_lookup_2, Hr.
  - apply Forall_forall. intros [c s] Hin.
    apply list_elem_of_fmap in Hin as ([c' s'] & Heq & _).
    simplify_eq. simpl. apply length_map.
Qed.

Lemma resample_hourly_grid_witness :
  let t0 := hd 0%Z (index sample_pivoted) in
  let rest := tl (index sample_pivoted) in
  let out := index (resample_1H_mean sample_pivoted) in
  head out = Some (floor_hour (foldr Z.min t0 rest)) /\
  last out = Some (floor_hour (foldr Z.max t0 rest)) /\
  (forall r t, out !! r = Some t -> r + 1 < length out ->
               out !! (r + 1) = Some (t + HOUR)%Z) /\
  (forall t, t ∈ index sample_pivoted -> floor_hour t ∈ out) /\
  Forall (fun cs => length (snd cs) = length out)
         (cols (resample_1H_mean sample_pivoted)).
Proof.
  exact (resample_hourly_grid sample_pivoted
           (hd 0%Z (index sample_pivoted)) (tl (index sample_pivoted)) eq_refl).
Defined.

(** X16.  Which reading fills a gap: a row takes the latest reading at or
    before it, and a row before the first reading takes that first
    reading. *)
Theorem fill_gaps_values (s : Series) :
  let filled := bfill (ffill s) in
  (forall i j q, j <= i -> i < length s -> s !! j = Some (Some q) ->
     (forall j', j < j' <= i -> s !! j' = Some None) ->
     filled !! i = Some (Some q)) /\
  (forall i j q, i <= j -> s !! j = Some (Some q) ->
     (forall j', j' < j -> s !! j' = Some None) ->
     filled !! i = Some (Some q)).
Proof.
  cbv zeta. split.
  - intros i j q Hji Hi Hq Hgap.
    apply bfill_reading, (ffill_from_previous None s i j q); done.
  - intros i j q Hij Hq Hgap.
    apply (bfill_next _ i j); [done|apply ffill_from_reading, Hq|].
    intros j' Hj'. apply ffill_from_gap.
    + apply lookup_lt_Some in Hq. unfold cell in *. lia.
    + intros k Hk. apply Hgap. lia.
Qed.

(** ** The cleaned table *)

Lemma bin_values_row (idx : list Timestamp) (s : Series) (i : nat)
    (t : Timestamp) (x : cell) :
  idx !! i = Some t -> s !! i = Some x -> x ∈ bin_values idx s (floor_hour t).
Proof.
  intros Ht Hx. unfold bin_values. apply (group_values_row _ _ i); [|exact Hx].
  rewrite lookup_map, Ht. reflexivity.
Qed.

Lemma lookup_col_clean_hourly (d : DataFrame) (c : string) :
  lookup_col c (cols (clean_hourly d))
  = (fun s => bfill (ffill (map (fun b => mean_skipna (bin_values (index d) s b))
                                (hourly_bins (index d)))))
    <$> lookup_col c (cols d).
Proof.
  unfold clean_hourly, df_bfill, df_ffill, resample_1H_mean; simpl.
  rewrite (lookup_col_map_values bfill), (lookup_col_map_values ffill).
  rewrite (lookup_col_map_values
             (fun s => map (fun b => mean_skipna (bin_values (index d) s b))
                           (hourly_bins (index d)))).
  destruct (lookup_col c (cols d)); done.
Qed.

Lemma columns_clean_hourly (d : DataFrame) :
  columns (clean_hourly d) = columns d.
Proof.
  unfold columns, clean_hourly, df_bfill, df_ffill, resample_1H_mean; simpl.
  rewrite !map_map. apply map_ext. intros [c s]; done.
Qed.

Lemma wf_clean_hourly (d : DataFrame) :
  NoDup (columns d) -> wf (clean_hourly d).
Proof.
  intros Hcols. split; [rewrite columns_clean_hourly; done|].
  apply Forall_forall. intros [c s] Hin.
  unfold clean_hourly, df_bfill, df_ffill, resample_1H_mean in Hin; simpl in Hin.
  rewrite !map_map in Hin.
  apply list_elem_of_fmap in Hin as ([c' s'] & Heq & _). simplify_eq. simpl.
  unfold nrows; simpl.
  rewrite length_bfill. unfold ffill. rewrite length_ffill_from. apply length_map.
Qed.

(** X17.  The cleaned table keeps the columns of the pivoted frame, is
    well formed over the hourly grid and has no NaN in a channel that had
    a reading; and the filling leaves the hours that had a reading as the
    resampling made them. *)
Theorem clean_hourly_table (d : DataFrame) (Hcols : NoDup (columns d)) :
  let out := clean_hourly d in
  wf out /\ columns out = columns d /\ index out = hourly_bins (index d) /\
  (forall c s i t q,
     lookup_col c (cols d) = Some s ->
     index d !! i = Some t -> s !! i = Some (Some q) ->
     forall r, r < nrows out -> exists q', cell_at out c r = Some (Some q')) /\
  (forall c s i t q r,
     lookup_col c (cols d) = Some s ->
     index d !! i = Some t -> s !! i = Some (Some q) ->
     hourly_bins (index d) !! r = Some (floor_hour t) ->
     cell_at out c r = cell_at (resample_1H_mean d) c r).
Proof.
  cbv zeta.
  split; [|split; [apply columns_clean_hourly|split; [done|split]]].
  - apply wf_clean_hourly, Hcols.
  - intros c s i t q Hc Ht Hq r Hr.
    unfold cell_at. rewrite lookup_col_clean_hourly, Hc. simpl.
    set (col := map _ (hourly_bins (index d))).
    destruct (hourly_bins_covers (index d) t) as [r0 Hr0];
      [eapply list_elem_of_lookup_2, Ht|].
    destruct (mean_skipna_reading (bin_values (index d) s (floor_hour t)))
      as [q0 Hq0];
      [eapply readings_nonempty, bin_values_row; eauto|].
    assert (col !! r0 = Some (Some q0)) as Hcol
      by (unfold col; rewrite lookup_map, Hr0; simpl; rewrite Hq0; done).
    apply (filled_has_reading col r r0 q0 Hcol).
    unfold col. rewrite length_map. exact Hr.
  - intros c s i t q r Hc Ht Hq Hb.
    unfold cell_at. rewrite lookup_col_clean_hourly.
    unfold resample_1H_mean. cbn [cols].
    rewrite (lookup_col_map_values
               (fun s => map (fun b => mean_skipna (bin_values (index d) s b))
                             (hourly_bins (index d)))).
    rewrite Hc. simpl.
    destruct (mean_skipna_reading (bin_values (index d) s (floor_hour t)))
      as [q0 Hq0];
      [eapply readings_nonempty, bin_values_row; eauto|].
    rewrite lookup_map, Hb. simpl. rewrite Hq0.
    apply bfill_reading, ffill_from_reading.
    rewrite lookup_map, Hb. simpl. rewrite Hq0. done.
Qed.

Lemma clean_hourly_table_witness :
  let d := sample_pivoted in
  let out := clean_hourly d in
  wf out /\ columns out = columns d /\ index out = hourly_bins (index d) /\
  (forall c s i t q,
     lookup_col c (cols d) = Some s ->
     index d !! i = Some t -> s !! i = Some (Some q) ->
     forall r, r < nrows out -> exists q', cell_at out c r = Some (Some q')) /\
  (forall c s i t q r,
     lookup_col c (cols d) = Some s ->
     index d !! i = Some t -> s !! i = Some (Some q) ->
     hourly_bins (index d) !! r = Some (floor_hour t) ->
     cell_at out c r = cell_at (resample_1H_mean d) c r).
Proof.
  apply (clean_hourly_table sample_pivoted).
  unfold columns, sample_pivoted. cbn [cols map fst].
  repeat (apply NoDup_cons; split;
          [intros Hin; repeat (apply elem_of_cons in Hin as [Heq|Hin];
                               [discriminate Heq|]); inversion Hin|]).
  apply NoDup_nil. exact I.
Defined.

(** ** The demand patterns *)

Lemma hour_range (t : Timestamp) : (0 <= Calendar.hour t < 24)%Z.
Proof.
  unfold Calendar.hour.
  pose proof (Z.mod_pos_bound t Calendar.NS_PER_DAY ltac:(reflexivity)) as Hm.
  split.
  - apply Z.div_pos; [lia|reflexivity].
  - apply Z.div_lt_upper_bound; [reflexivity|].
    change (HOUR * 24)%Z with Calendar.NS_PER_DAY. lia.
Qed.

Lemma dayofweek_range (t : Timestamp) : (0 <= Calendar.dayofweek t < 7)%Z.
Proof. unfold Calendar.dayofweek. apply Z.mod_pos_bound. lia. Qed.

Lemma run_df_groupby_mean (h : heap) (r : loc) (d : DataFrame) (s : Series)
    (key : Timestamp -> Z) (c : string) :
  h !! r = Some d -> lookup_col c (cols d) = Some s ->
  df_groupby_mean r key c h = (Ok (groupby_mean (map key (index d)) s), h).
Proof.
  intros Hd Hs. unfold df_groupby_mean.
  rewrite (run_bind_Ok _ _ _ _ _ (run_deref h r d Hd)), Hs. reflexivity.
Qed.

Lemma run_df_groupby_mean_missing (h : heap) (r : loc) (d : DataFrame)
    (key : Timestamp -> Z) (c : string) :
  h !! r = Some d -> lookup_col c (cols d) = None ->
  df_groupby_mean r key c h = (Raise (KeyError (String.append "Column not found: " c)), h).
Proof.
  intros Hd Hs. unfold df_groupby_mean.
  rewrite (run_bind_Ok _ _ _ _ _ (run_deref h r d Hd)), Hs. reflexivity.
Qed.

Lemma df_groupby_mean_heap (h : heap) (r : loc) (key : Timestamp -> Z) (c : string) :
  snd (df_groupby_mean r key c h) = h.
Proof.
  unfold df_groupby_mean. rewrite run_bind. unfold deref.
  destruct (h !! r) as [d|]; [|reflexivity].
  destruct (lookup_col c (cols d)); reflexivity.
Qed.

Lemma run_map_M {A B} (f : A -> M B) (g : A -> B) (l : list A) (h : heap) :
  (forall x, x ∈ l -> f x h = (Ok (g x), h)) ->
  map_M f l h = (Ok (map g l), h).
Proof.
  induction l as [|x l IH]; intros H; simpl; [reflexivity|].
  rewrite (run_bind_Ok _ _ _ _ _ (H x ltac:(left))).
  rewrite (run_bind_Ok _ _ _ _ _ (IH ltac:(intros y Hy; apply H; right; exact Hy))).
  reflexivity.
Qed.

Lemma map_M_heap {A B} (f : A -> M B) (l : list A) (h : heap) :
  (forall x, snd (f x h) = h) -> snd (map_M f l h) = h.
Proof.
  intros Hf. induction l as [|x l IH]; simpl; [reflexivity|].
  rewrite run_bind. specialize (Hf x).
  destruct (f x h) as [[y|e] h1]; simpl in Hf; subst h1; [|reflexivity].
  rewrite run_bind.
  destruct (map_M f l h) as [[ys|e] h1]; simpl in IH; subst h1; reflexivity.
Qed.

Lemma run_list_getitem {A} (l : list A) (i : Z) (h : heap) :
  (0 <= i < Z.of_nat (length l))%Z ->
  exists x, l !! Z.to_nat i = Some x /\ list_getitem l i h = (Ok x, h).
Proof.
  intros Hi. unfold list_getitem.
  destruct (Z.ltb_spec i 0); [lia|].
  destruct (Z.ltb_spec i 0); [lia|].
  destruct (Z.leb_spec (Z.of_nat (length l)) i); [lia|]. simpl.
  destruct (l !! Z.to_nat i) as [x|] eqn:E; [eauto|].
  apply lookup_ge_None in E. lia.
Qed.

Lemma list_getitem_heap {A} (l : list A) (i : Z) (h : heap) :
  snd (list_getitem l i h) = h.
Proof.
  unfold list_getitem.
  destruct (_ || _); [reflexivity|]. destruct (l !! _); reflexivity.
Qed.

Lemma elem_of_groupby_mean (keys : list Z) (s : Series) (k : Z) (v : cell) :
  (k, v) ∈ groupby_mean keys s ->
  k ∈ keys /\ v = mean_skipna (group_values keys s k).
Proof.
  unfold groupby_mean. intros H.
  apply list_elem_of_fmap in H as (k' & Heq & Hk).
  injection Heq as -> ->. split; [|reflexivity].
  apply elem_of_group_keys, Hk.
Qed.

Lemma groupby_mean_keys (keys : list Z) (s : Series) :
  map fst (groupby_mean keys s) = group_keys keys.
Proof.
  unfold groupby_mean. rewrite map_map. simpl. apply map_id.
Qed.

(** The average of a group is NaN exactly when none of its rows has a
    reading. *)
Lemma group_mean_None (keys : list Z) (s : Series) (k : Z) :
  mean_skipna (group_values keys s k) = None <->
  forall i, keys !! i = Some k -> forall q, s !! i <> Some (Some q).
Proof.
  rewrite mean_skipna_None. split.
  - intros H i Hk q Hq. apply (H q). eapply group_values_row; eauto.
  - intros H q Hq. apply group_values_inv in Hq as (i & Hk & Hs).
    exact (H i Hk q Hs).
Qed.

Lemma format_02d_hour (n : Z) :
  (0 <= n < 24)%Z ->
  format_02d n
  = String (Ascii.ascii_of_nat (48 + Z.to_nat (n / 10)))
      (String (Ascii.ascii_of_nat (48 + Z.to_nat (n mod 10))) "").
Proof.
  intros Hn.
  assert (exists m, m < 24 /\ n = Z.of_nat m) as (m & Hm & ->)
    by (exists (Z.to_nat n); lia).
  clear Hn. do 24 (destruct m as [|m]; [reflexivity|]). lia.
Qed.

(** X18.  On a table with the target column the hourly pattern answers
    200 and leaves the table alone: one entry for each hour of the day
    that occurs in the index, in increasing order and so at most 24, each
    labelled with its two-digit hour, its average NaN exactly when no row
    of that hour has a reading. *)
Theorem hourly_pattern_entries (h : heap) (fd : loc) (d : DataFrame) (s : Series)
    (Hd : h !! fd = Some d)
    (Hs : lookup_col TARGET_COLUMN (cols d) = Some s) :
  exists result,
    get_hourly_pattern (Some fd) h
    = (Ok {| pattern_payload := HourlyPattern result; pattern_status := 200 |}, h) /\
    increasing (map hp_hour result) /\
    length result <= 24 /\
    (forall k, k ∈ map hp_hour result <->
               exists t, t ∈ index d /\ Calendar.hour t = k) /\
    Forall (fun e =>
              (0 <= hp_hour e < 24)%Z /\
              hp_timestamp e
              = String (Ascii.ascii_of_nat (48 + Z.to_nat (hp_hour e / 10)))
                  (String (Ascii.ascii_of_nat (48 + Z.to_nat (hp_hour e mod 10)))
                     ":00") /\
              (hp_average_demand e = None <->
               forall i t, index d !! i = Some t -> Calendar.hour t = hp_hour e ->
                           forall q, s !! i <> Some (Some q)))
           result.
Proof.
  set (keys := map Calendar.hour (index d)).
  eexists. split.
  { unfold get_hourly_pattern, try_except.
    rewrite (run_bind_Ok _ _ _ _ _
               (run_df_groupby_mean h fd d s Calendar.hour _ Hd Hs)).
    reflexivity. }
  fold keys.
  assert (map hp_hour
            (map (fun '(hour, value) =>
                    {| hp_hour := hour; hp_average_demand := value;
                       hp_timestamp := String.append (format_02d hour) ":00" |})
                 (groupby_mean keys s)) = group_keys keys) as Hhours.
  { rewrite <- (groupby_mean_keys keys s), map_map. apply map_ext.
    intros [k v]; reflexivity. }
  assert (forall k, k ∈ keys <-> exists t, t ∈ index d /\ Calendar.hour t = k) as Hkeys.
  { intros k. unfold keys. split.
    - intros H. apply list_elem_of_fmap in H as (t & -> & Ht). eauto.
    - intros (t & Ht & <-). apply list_elem_of_fmap. eauto. }
  assert (Forall (fun x => (0 <= x < 24)%Z) (group_keys keys)) as Hrange.
  { apply Forall_forall. intros k Hk. apply elem_of_group_keys, Hkeys in Hk.
    destruct Hk as (t & _ & <-). apply hour_range. }
  split; [|split; [|split]].
  - rewrite Hhours. apply increasing_group_keys.
  - pose proof (increasing_length _ 0 24 (increasing_group_keys keys) Hrange) as Hl.
    rewrite <- Hhours, !length_map in Hl. rewrite length_map. lia.
  - intros k. rewrite Hhours, elem_of_group_keys. apply Hkeys.
  - apply Forall_forall. intros e He.
    apply list_elem_of_fmap in He as ([k v] & -> & Hkv). simpl.
    apply elem_of_groupby_mean in Hkv as [Hk ->].
    assert (0 <= k < 24)%Z as Hr
      by (apply Hkeys in Hk as (t & _ & <-); apply hour_range).
    split; [exact Hr|]. split.
    + rewrite (format_02d_hour k Hr). reflexivity.
    + rewrite group_mean_None. unfold keys. split.
      * intros H i t Ht Hh. apply (H i). rewrite lookup_map, Ht. simpl. congruence.
      * intros H i Hi. rewrite lookup_map in Hi.
        destruct (index d !! i) as [t|] eqn:Et; simpl in Hi; [|discriminate].
        apply (H i t); [done|congruence].
Qed.

Lemma hourly_pattern_entries_witness :
  let d := sample_history in
  let s := [cell_of_Z 400; cell_of_Z 410; cell_of_Z 420; cell_of_Z 460] in
  exists result,
    get_hourly_pattern (Some 0) [d]
    = (Ok {| pattern_payload := HourlyPattern result; pattern_status := 200 |}, [d]) /\
    increasing (map hp_hour result) /\
    length result <= 24 /\
    (forall k, k ∈ map hp_hour result <->
               exists t, t ∈ index d /\ Calendar.hour t = k) /\
    Forall (fun e =>
              (0 <= hp_hour e < 24)%Z /\
              hp_timestamp e
              = String (Ascii.ascii_of_nat (48 + Z.to_nat (hp_hour e / 10)))
                  (String (Ascii.ascii_of_nat (48 + Z.to_nat (hp_hour e mod 10)))
                     ":00") /\
              (hp_average_demand e = None <->
               forall i t, index d !! i = Some t -> Calendar.hour t = hp_hour e ->
                           forall q, s !! i <> Some (Some q)))
           result.
Proof.
  exact (hourly_pattern_entries [sample_history] 0 sample_history
           [cell_of_Z 400; cell_of_Z 410; cell_of_Z 420; cell_of_Z 460]
           eq_refl eq_refl).
Defined.

(** X19.  On a table with the target column the weekly trend answers 200
    and never indexes [days] out of range: one entry for each weekday
    that occurs in the index, in increasing order from Monday = 0 and so
    at most 7, each with the name of its weekday, its average NaN exactly
    when no row of that weekday has a reading. *)
Theorem weekly_trend_entries (h : heap) (fd : loc) (d : DataFrame) (s : Series)
    (Hd : h !! fd = Some d)
    (Hs : lookup_col TARGET_COLUMN (cols d) = Some s) :
  exists result,
    get_weekly_trend (Some fd) h
    = (Ok {| pattern_payload := WeeklyTrend result; pattern_status := 200 |}, h) /\
    increasing (map wt_day_num result) /\
    length result <= 7 /\
    (forall k, k ∈ map wt_day_num result <->
               exists t, t ∈ index d /\ Calendar.dayofweek t = k) /\
    Forall (fun e =>
              (0 <= wt_day_num e < 7)%Z /\
              days !! Z.to_nat (wt_day_num e) = Some (wt_day e) /\
              (wt_average_demand e = None <->
               forall i t, index d !! i = Some t ->
                           Calendar.dayofweek t = wt_day_num e ->
                           forall q, s !! i <> Some (Some q)))
           result.
Proof.
  set (keys := map Calendar.dayofweek (index d)).
  assert (forall k, k ∈ keys <->
                    exists t, t ∈ index d /\ Calendar.dayofweek t = k) as Hkeys.
  { intros k. unfold keys. split.
    - intros H. apply list_elem_of_fmap in H as (t & -> & Ht). eauto.
    - intros (t & Ht & <-). apply list_elem_of_fmap. eauto. }
  set (entry := fun p : Z * cell =>
                  {| wt_day := default "" (days !! Z.to_nat (fst p));
                     wt_day_num := fst p;
                     wt_average_demand := snd p |}).
  exists (map entry (groupby_mean keys s)). split.
  { unfold get_weekly_trend, try_except.
    rewrite (run_bind_Ok _ _ _ _ _
               (run_df_groupby_mean h fd d s Calendar.dayofweek _ Hd Hs)).
    fold keys.
    erewrite run_bind_Ok; [reflexivity|].
    apply (run_map_M _ entry).
    intros [k v] Hkv. apply elem_of_groupby_mean in Hkv as [Hk _].
    apply Hkeys in Hk as (t & _ & <-).
    destruct (run_list_getitem days (Calendar.dayofweek t) h
                (dayofweek_range t)) as (x & Hx & Hrun).
    rewrite (run_bind_Ok _ _ _ _ _ Hrun). unfold entry; simpl.
    rewrite Hx. reflexivity. }
  assert (map wt_day_num (map entry (groupby_mean keys s)) = group_keys keys)
    as Hnums.
  { rewrite <- (groupby_mean_keys keys s), map_map. apply map_ext.
    intros [k v]; reflexivity. }
  assert (Forall (fun x => (0 <= x < 7)%Z) (group_keys keys)) as Hrange.
  { apply Forall_forall. intros k Hk. apply elem_of_group_keys, Hkeys in Hk.
    destruct Hk as (t & _ & <-). apply dayofweek_range. }
  split; [|split; [|split]].
  - rewrite Hnums. apply increasing_group_keys.
  - pose proof (increasing_length _ 0 7 (increasing_group_keys keys) Hrange) as Hl.
    rewrite <- Hnums, !length_map in Hl. rewrite length_map. lia.
  - intros k. rewrite Hnums, elem_of_group_keys. apply Hkeys.
  - apply Forall_forall. intros e He.
    apply list_elem_of_fmap in He as ([k v] & -> & Hkv). simpl.
    apply elem_of_groupby_mean in Hkv as [Hk ->].
    assert (0 <= k < 7)%Z as Hr
      by (apply Hkeys in Hk as (t & _ & <-); apply dayofweek_range).
    split; [exact Hr|]. split.
    + destruct (days !! Z.to_nat k) as [x|] eqn:E; [reflexivity|].
      apply lookup_ge_None in E. simpl in E. lia.
    + rewrite group_mean_None. unfold keys. split.
      * intros H i t Ht Hh. apply (H i). rewrite lookup_map, Ht. simpl. congruence.
      * intros H i Hi. rewrite lookup_map in Hi.
        destruct (index d !! i) as [t|] eqn:Et; simpl in Hi; [|discriminate].
        apply (H i t); [done|congruence].
Qed.

Lemma weekly_trend_entries_witness :
  let d := sample_history in
  let s := [cell_of_Z 400; cell_of_Z 410; cell_of_Z 420; cell_of_Z 460] in
  exists result,
    get_weekly_trend (Some 0) [d]
    = (Ok {| pattern_payload := WeeklyTrend result; pattern_status := 200 |}, [d]) /\
    increasing (map wt_day_num result) /\
    length result <= 7 /\
    (forall k, k ∈ map wt_day_num result <->
               exists t, t ∈ index d /\ Calendar.dayofweek t = k) /\
    Forall (fun e =>
              (0 <= wt_day_num e < 7)%Z /\
              days !! Z.to_nat (wt_day_num e) = Some (wt_day e) /\
              (wt_average_demand e = None <->
               forall i t, index d !! i = Some t ->
                           Calendar.dayofweek t = wt_day_num e ->
                           forall q, s !! i <> Some (Some q)))
           result.
Proof.
  exact (weekly_trend_entries [sample_history] 0 sample_history
           [cell_of_Z 400; cell_of_Z 410; cell_of_Z 420; cell_of_Z 460]
           eq_refl eq_refl).
Defined.

(** X20.  The two pattern endpoints never raise and never change the heap;
    without data they answer 500 with a fixed text, and on a table
    without the target column 500 with the KeyError of the selection. *)
Theorem patterns_read_only (h : heap) (full_data : option loc) :
  (exists r, get_hourly_pattern full_data h = (Ok r, h)) /\
  (exists r, get_weekly_trend full_data h = (Ok r, h)) /\
  (full_data = None ->
   let r := {| pattern_payload := PatternError (Text "Historical data not loaded.");
               pattern_status := 500 |} in
   fst (get_hourly_pattern full_data h) = Ok r /\
   fst (get_weekly_trend full_data h) = Ok r) /\
  (forall fd d, full_data = Some fd -> h !! fd = Some d ->
     lookup_col TARGET_COLUMN (cols d) = None ->
     let r := {| pattern_payload :=
                   PatternError (StrOf (KeyError "Column not found: Phase3_power"));
                 pattern_status := 500 |} in
     fst (get_hourly_pattern full_data h) = Ok r /\
     fst (get_weekly_trend full_data h) = Ok r).
Proof.
  split; [|split; [|split]].
  - destruct full_data as [fd|]; [|eexists; reflexivity].
    unfold get_hourly_pattern, try_except. rewrite run_bind.
    pose proof (df_groupby_mean_heap h fd Calendar.hour TARGET_COLUMN) as Hh.
    destruct (df_groupby_mean fd Calendar.hour TARGET_COLUMN h) as [[a|e] h1];
      simpl in Hh; subst h1; eexists; reflexivity.
  - destruct full_data as [fd|]; [|eexists; reflexivity].
    unfold get_weekly_trend, try_except. rewrite run_bind.
    pose proof (df_groupby_mean_heap h fd Calendar.dayofweek TARGET_COLUMN) as Hh.
    destruct (df_groupby_mean fd Calendar.dayofweek TARGET_COLUMN h) as [[a|e] h1];
      simpl in Hh; subst h1; [|eexists; reflexivity].
    rewrite run_bind.
    match goal with |- context [map_M ?f a h] =>
      pose proof (map_M_heap f a h) as Hm;
      destruct (map_M f a h) as [[ys|e] h1]
    end.
    + simpl in Hm. rewrite Hm; [eexists; reflexivity|].
      intros [k v]. rewrite run_bind.
      pose proof (list_getitem_heap days k h) as Hg.
      destruct (list_getitem days k h) as [[x|e'] h2]; simpl in Hg; subst h2;
        reflexivity.
    + simpl in Hm. rewrite Hm; [eexists; reflexivity|].
      intros [k v]. rewrite run_bind.
      pose proof (list_getitem_heap days k h) as Hg.
      destruct (list_getitem days k h) as [[x|e'] h2]; simpl in Hg; subst h2;
        reflexivity.
  - intros ->. split; reflexivity.
  - intros fd d -> Hd Hs. cbv zeta.
    unfold get_hourly_pattern, get_weekly_trend, try_except.
    rewrite !(run_bind_Raise _ _ _ _ _
                (run_df_groupby_mean_missing h fd d _ _ Hd Hs)).
    split; reflexivity.
Qed.

(** ** From the cleaned table to the forecast *)

(** X21.  A table that the cleaning stage produced from a pivoted frame
    with rows and with the configured channels meets what the forecast
    needs of a table: with models that answer on the inputs the rollout
    gives them, and the 24 hours after the hour of the latest raw reading
    within the bounds of a timestamp, both servers return 24 results, the
    first for the hour after the hour of the latest raw reading. *)
Theorem cleaned_table_forecast (G : Models) (h : heap) (fd : loc)
    (p : DataFrame) (t0 : Timestamp) (rest : list Timestamp)
    (Hfd : h !! fd = Some (clean_hourly p))
    (Hcols : NoDup (columns p))
    (Hindex : index p = t0 :: rest)
    (Hchannels : forall c, c ∈ FEATURES_LSTM -> c ∈ columns p)
    (HM : models_answer (rollout_windows (nrows (clean_hourly p))) G)
    (Hlo : (Timestamp_min <= floor_hour (foldr Z.max t0 rest))%Z)
    (Hhi : (floor_hour (foldr Z.max t0 rest) + 24 * HOUR <= Timestamp_max)%Z) :
  let ts := floor_hour (foldr Z.max t0 rest) in
  (exists res,
     fst (App.get_hourly_forecast (Some fd) G h)
     = Ok {| payload := Forecast res; status := 200 |} /\
     length res = 24 /\
     forall i, i < 24 ->
       timestamp <$> res !! i = Some (ts + (Z.of_nat i + 1) * HOUR)%Z) /\
  (exists res,
     fst (AppEnhanced.get_hourly_forecast (Some fd) G h)
     = Ok {| payload := Forecast res; status := 200 |} /\
     length res = 24 /\
     forall i, i < 24 ->
       timestamp <$> res !! i = Some (ts + (Z.of_nat i + 1) * HOUR)%Z).
Proof.
  cbv zeta.
  set (d := clean_hourly p) in *.
  assert (wf d) as Hwf by (apply wf_clean_hourly, Hcols).
  assert (index d = hourly_bins (t0 :: rest)) as Hidx
    by (unfold d; simpl; rewrite Hindex; reflexivity).
  assert (last (index d) = Some (floor_hour (foldr Z.max t0 rest))) as Hlast
    by (rewrite Hidx; apply hourly_bins_last).
  assert (index d <> []) as Hne by (intros E; rewrite E in Hlast; discriminate).
  assert (has_channels d) as HC.
  { intros c Hc. apply lookup_col_is_Some.
    fold (columns d). unfold d. rewrite columns_clean_hourly. auto. }
  assert (forall unloaded,
            exists res h',
              forecast_body G unloaded fd h
              = (Ok {| payload := Forecast res; status := 200 |}, h') /\
              length res = 24 /\
              forall i, i < 24 ->
                timestamp <$> res !! i
                = Some (floor_hour (foldr Z.max t0 rest) + (Z.of_nat i + 1) * HOUR)%Z)
    as Hbody.
  { intros unloaded.
    destruct (forecast_body_succeeds G unloaded h fd d _ Hfd Hwf HM HC Hlast Hlo Hhi)
      as (r & h' & Hrun).
    destruct (forecast_body_results G unloaded h h' fd d r Hfd Hwf Hrun)
      as (ts & ps & Hts & Hlen & ->).
    assert (ts = floor_hour (foldr Z.max t0 rest)) as -> by congruence.
    destruct (forecast_of_timestamps (floor_hour (foldr Z.max t0 rest)) ps)
      as (Hl & Hstamps & _).
    exists (forecast_of (floor_hour (foldr Z.max t0 rest)) ps), h'.
    split; [exact Hrun|]. split; [lia|].
    intros i Hi. apply Hstamps. lia. }
  split.
  - destruct (Hbody App.unloaded) as (res & h' & Hrun & Hlen & Hstamps).
    exists res. split; [|auto].
    unfold App.get_hourly_forecast, try_except. rewrite Hrun. reflexivity.
  - destruct (Hbody AppEnhanced.unloaded) as (res & h' & Hrun & Hlen & Hstamps).
    exists res. split; [|auto].
    unfold AppEnhanced.get_hourly_forecast.
    destruct HM as ((fx & -> & _) & (fsx & fl & fsy & _ & -> & _) & (ff & -> & _)).
    unfold try_except. rewrite Hrun. reflexivity.
Qed.

Lemma cleaned_table_forecast_witness :
  let ts := floor_hour (foldr Z.max (hd 0%Z (index sample_pivoted))
                                    (tl (index sample_pivoted))) in
  (exists res,
     fst (App.get_hourly_forecast (Some 0) sample_models [clean_hourly sample_pivoted])
     = Ok {| payload := Forecast res; status := 200 |} /\
     length res = 24 /\
     forall i, i < 24 ->
       timestamp <$> res !! i = Some (ts + (Z.of_nat i + 1) * HOUR)%Z) /\
  (exists res,
     fst (AppEnhanced.get_hourly_forecast (Some 0) sample_models
            [clean_hourly sample_pivoted])
     = Ok {| payload := Forecast res; status := 200 |} /\
     length res = 24 /\
     forall i, i < 24 ->
       timestamp <$> res !! i = Some (ts + (Z.of_nat i + 1) * HOUR)%Z).
Proof.
  apply (cleaned_table_forecast sample_models [clean_hourly sample_pivoted] 0
           sample_pivoted (hd 0%Z (index sample_pivoted))
           (tl (index sample_pivoted)) eq_refl).
  - unfold columns, sample_pivoted. cbn [cols map fst].
    repeat (apply NoDup_cons; split;
            [intros Hin; repeat (apply elem_of_cons in Hin as [Heq|Hin];
                                 [discriminate Heq|]); inversion Hin|]).
    apply NoDup_nil. exact I.
  - reflexivity.
  - intros c Hc. unfold FEATURES_LSTM in Hc.
    repeat (apply elem_of_cons in Hc as [->|Hc];
            [unfold columns, sample_pivoted; cbn [cols map fst];
             repeat first [left | right]|]).
    inversion Hc.
  - apply models_answer_sample_models.
  - vm_compute. discriminate.
  - vm_compute. discriminate.
Defined.
